(** * AquaLive groundwater service: the prediction pipeline and the wells routes

    A shallow embedding of [src/backend/app.py]: input validation
    ([PredictionInput]), feature synthesis ([prepare_features]), the
    weighted ensemble ([weighted_ensemble_predictions]) and the
    [/predict] route ([predict]); and of the routes of
    [src/backend/wells_server.py].

    Python floats are IEEE-754 binary64.  They are modelled at three
    levels, and each property says which one it is about.
    - A finite float is a real number, and [Py.round64] is the rounding
      (to nearest, ties to even) that every float operation applies to
      its exact result; a result too large for a double overflows
      ([Py.overflows]).  The cluster bucket of [prepare_features], whose
      value is discrete, is computed this way, and so is the arithmetic
      of the wells routes ([Py.float64] adds the infinities and NaN).
    - The trigonometric features, the blend, the confidence and the
      bounds of the wells query are read in exact arithmetic over [R];
      what is proved of them is either structural (order, length, which
      stage ran, which query was sent) or is stated as a property of
      exact arithmetic.
    - Module [Binary64] re-embeds the arithmetic tail of [predict] over
      the kernel's primitive floats, so that a concrete scenario can be
      evaluated bit for bit.

    The fitted artifacts (scaler, the three regressors) are external:
    they are fields of the record [Artifacts], pure functions that may
    raise. *)

From Stdlib Require Import Reals Lra Lia ZArith Floats.
From Stdlib Require Import Zfloor Ascii String.
From stdpp Require Import base strings pretty list gmap.

(** ** Python runtime: exceptions and results *)

(** The exceptions (subclasses of [Exception]) that the service can see.
    [OtherException] stands for whatever an external artifact raises;
    [HTTPException] is FastAPI's. *)
Inductive exn : Type :=
| ValueError (msg : string)
| IndexError (msg : string)
| KeyError (key : string)
| ZeroDivisionError (msg : string)
| HTTPException (status_code : Z) (detail : string)
| OtherException (msg : string).

(** The outcome of evaluating an expression: a value, or a raised exception. *)
Inductive exc (A : Type) : Type :=
| Ok (a : A)
| Raise (e : exn).
Arguments Ok {A} a.
Arguments Raise {A} e.

(** Sequencing: the first exception raised ends the evaluation. *)
#[export] Instance exc_ret : MRet exc := fun A a => Ok a.
#[export] Instance exc_bind : MBind exc := fun A B k x =>
  match x with
  | Ok a => k a
  | Raise e => Raise e
  end.

Definition is_ok {A : Type} (x : exc A) : bool :=
  match x with Ok _ => true | Raise _ => false end.

(** ** Python built-ins used by the service *)

Module Py.

(** [str(e)] *)
Definition str (e : exn) : string :=
  match e with
  | ValueError msg => msg
  | IndexError msg => msg
  | KeyError key => "'" +:+ key +:+ "'"
  | ZeroDivisionError msg => msg
  | HTTPException code detail => pretty code +:+ ": " +:+ detail
  | OtherException msg => msg
  end.

(** A Python number as it sits in a list before [np.array] turns the
    list into float64. *)
Inductive num : Type :=
| PyInt (z : Z)
| PyFloat (r : R).

Definition to_float (n : num) : R :=
  match n with
  | PyInt z => IZR z
  | PyFloat r => r
  end.

(** [a <= b] on floats, as a boolean. *)
Definition Rleb (a b : R) : bool := if Rle_dec a b then true else false.
Definition Rltb (a b : R) : bool := if Rlt_dec a b then true else false.

(** The built-in [max(a, b)] of two arguments: [b] when [b > a], else [a]. *)
Definition max (a b : R) : R := if Rltb a b then b else a.

(** *** Binary64 rounding *)

(** The binade of a nonzero [x]: the [e] with [2^e <= |x| < 2^(e+1)]. *)
Definition exponent (x : R) : Z := Zfloor (ln (Rabs x) / ln 2).

(** The spacing of the doubles around [x]: 53 significant bits, and
    below the smallest normal number [2^-1022] the spacing stays
    [2^-1074]. *)
Definition ulp (x : R) : R := powerRZ 2 (Z.max (exponent x) (-1022) - 52).

(** The integer nearest to [m], the even one of two at the same distance. *)
Definition rne (m : R) : Z :=
  let n := Zfloor m in
  if Rltb (m - IZR n) (1 / 2) then n
  else if Rltb (1 / 2) (m - IZR n) then (n + 1)%Z
  else if Z.even n then n else (n + 1)%Z.

(** The double nearest to [x] (round to nearest, ties to even), for an
    [x] that does not overflow. *)
Definition round64 (x : R) : R := (IZR (rne (x / ulp x)) * ulp x)%R.

(** [x] rounds to an infinity: it is at least half a spacing above the
    largest double [2^1024 - 2^971]. *)
Definition overflows (x : R) : bool := Rleb (IZR (2 ^ 1024 - 2 ^ 970)) (Rabs x).

(** A Python float: a double, an infinity or NaN.  The two zeros are
    not told apart. *)
Inductive float64 : Type :=
| Finite (r : R)
| Inf (negative : bool)
| NaN.

(** The float that an operation with exact result [x] returns. *)
Definition of_real (x : R) : float64 :=
  if overflows x then Inf (Rltb x 0) else Finite (round64 x).

(** [-a], [a + b], [a - b], [a * b] on floats. *)
Definition fneg (a : float64) : float64 :=
  match a with
  | Finite x => Finite (- x)
  | Inf s => Inf (negb s)
  | NaN => NaN
  end.

Definition fadd (a b : float64) : float64 :=
  match a, b with
  | Finite x, Finite y => of_real (x + y)
  | NaN, _ | _, NaN => NaN
  | Inf s, Inf t => if Bool.eqb s t then Inf s else NaN
  | Inf s, Finite _ | Finite _, Inf s => Inf s
  end.

Definition fsub (a b : float64) : float64 := fadd a (fneg b).

Definition fmul (a b : float64) : float64 :=
  match a, b with
  | Finite x, Finite y => of_real (x * y)
  | NaN, _ | _, NaN => NaN
  | Inf s, Inf t => Inf (xorb s t)
  | Inf s, Finite y | Finite y, Inf s =>
      if Rltb 0 y then Inf s else if Rltb y 0 then Inf (negb s) else NaN
  end.

(** [a / n] for a positive finite [n]. *)
Definition fdiv_pos (a : float64) (n : R) : float64 :=
  match a with
  | Finite x => of_real (x / n)
  | Inf s => Inf s
  | NaN => NaN
  end.

(** [a < b] on floats: false whenever NaN is involved. *)
Definition flt (a b : float64) : bool :=
  match a, b with
  | Finite x, Finite y => Rltb x y
  | NaN, _ | _, NaN => false
  | Inf s, Inf t => s && negb t
  | Inf s, Finite _ => s
  | Finite _, Inf t => negb t
  end.

(** [x % y] for a finite float [x >= 0] and a positive literal [y]:
    the remainder of two doubles is a double, so nothing is rounded. *)
Definition mod_ (x y : R) : R := (x - y * IZR (Zfloor (x / y)))%R.

(** [int(x)]: truncation towards zero. *)
Definition int (x : R) : Z := if Rleb 0 x then Zfloor x else Zceil x.

(** [l[i] = v] on a list, with Python's negative indices. *)
Definition list_setitem {A : Type} (l : list A) (i : Z) (v : A) : exc (list A) :=
  let n := Z.of_nat (length l) in
  if bool_decide (0 <= i < n)%Z then Ok (<[Z.to_nat i := v]> l)
  else if bool_decide (- n <= i < 0)%Z then Ok (<[Z.to_nat (n + i) := v]> l)
  else Raise (IndexError "list assignment index out of range").

(** [l[i]] on a list or array, for a literal index [i >= 0]. *)
Definition getitem {A : Type} (l : list A) (i : nat) : exc A :=
  match l !! i with
  | Some a => Ok a
  | None => Raise (IndexError "index out of range")
  end.

(** [d[k]] on a dict with string keys. *)
Definition dict_getitem {A : Type} (d : gmap string A) (k : string) : exc A :=
  match d !! k with
  | Some a => Ok a
  | None => Raise (KeyError k)
  end.

End Py.

(** ** The [datetime] library: [strptime] with format ["%Y-%m-%d"] *)

Module Datetime.

Record datetime : Type := { year : Z; month : Z; day : Z }.

(** A [str] is a sequence of Unicode characters.  It is modelled by
    its UTF-8 encoding, one [ascii] per byte: the literal characters of
    the format are ASCII, and an ASCII byte of a UTF-8 string is always
    a character of its own. *)
Definition byte (c : ascii) : Z := Z.of_N (N_of_ascii c).

(** A continuation byte [10xxxxxx] at the head of [s]: its six bits. *)
Definition continuation (s : string) : option (Z * string) :=
  match s with
  | String c s' =>
      if bool_decide (128 <= byte c < 192)%Z then Some (byte c - 128, s')%Z else None
  | EmptyString => None
  end.

(** The first character of [s], as its code point, and the rest; none
    when [s] does not start with a well-formed encoding. *)
Definition first_char (s : string) : option (Z * string) :=
  match s with
  | EmptyString => None
  | String c s1 =>
      let b := byte c in
      if bool_decide (b < 128)%Z then Some (b, s1)
      else if bool_decide (194 <= b < 224)%Z then
        '(b1, s2) ← continuation s1;
        Some ((b - 192) * 64 + b1, s2)%Z
      else if bool_decide (224 <= b < 240)%Z then
        '(b1, s2) ← continuation s1;
        '(b2, s3) ← continuation s2;
        let c := ((b - 224) * 4096 + b1 * 64 + b2)%Z in
        if bool_decide (2048 <= c /\ ~ 55296 <= c <= 57343)%Z then Some (c, s3)
        else None
      else if bool_decide (240 <= b < 248)%Z then
        '(b1, s2) ← continuation s1;
        '(b2, s3) ← continuation s2;
        '(b3, s4) ← continuation s3;
        let c := ((b - 240) * 262144 + b1 * 4096 + b2 * 64 + b3)%Z in
        if bool_decide (65536 <= c <= 1114111)%Z then Some (c, s4) else None
      else None
  end.

(** The characters of category Nd (decimal digit) come in runs of ten,
    zero to nine; these are the zeros of the runs in Unicode 14.0, the
    table of Python 3.11 (ASCII, Arabic-Indic, Devanagari, ...,
    full-width, mathematical, ...). *)
Definition decimal_zeros : list Z :=
  [ 48; 1632; 1776; 1984; 2406; 2534; 2662; 2790; 2918; 3046; 3174;
    3302; 3430; 3558; 3664; 3792; 3872; 4160; 4240; 6112; 6160; 6470;
    6608; 6784; 6800; 6992; 7088; 7232; 7248; 42528; 43216; 43264;
    43472; 43504; 43600; 44016; 65296; 66720; 68912; 69734; 69872;
    69942; 70096; 70384; 70736; 70864; 71248; 71360; 71472; 71904;
    72016; 72784; 73040; 73120; 92768; 92864; 93008; 120782; 120792;
    120802; 120812; 120822; 123200; 123632; 125264; 130032 ]%Z.

(** The value [int] gives to a decimal digit, of any script. *)
Definition decimal (c : Z) : option Z :=
  (fun zero => c - zero)%Z
    <$> List.find (fun zero => bool_decide (zero <= c < zero + 10)%Z) decimal_zeros.

(** The value of an ASCII digit: the ranges [[0-2]], [[1-9]], ... that
    the patterns of the month and the day spell out are ASCII. *)
Definition ascii_digit (c : ascii) : option Z :=
  let n := byte c in
  if bool_decide (48 <= n <= 57)%Z then Some (n - 48)%Z else None.

(** The format's regular expression is matched by backtracking: a
    matcher takes the rest of the input and a continuation, and an
    alternative is tried when the one before it, or what follows it,
    fails. *)
Definition re_alt {A : Type} (x y : option A) : option A :=
  match x with
  | Some a => Some a
  | None => y
  end.

(** [[lo-hi]]: one ASCII digit in that range. *)
Definition re_digit {A : Type} (lo hi : Z) (s : string)
    (k : Z -> string -> option A) : option A :=
  match s with
  | String c s' =>
      match ascii_digit c with
      | Some d => if bool_decide (lo <= d <= hi)%Z then k d s' else None
      | None => None
      end
  | EmptyString => None
  end.

(** [\d]: the pattern is a [str], so this is any decimal digit. *)
Definition re_decimal {A : Type} (s : string)
    (k : Z -> string -> option A) : option A :=
  match first_char s with
  | Some (c, s') =>
      match decimal c with
      | Some d => k d s'
      | None => None
      end
  | None => None
  end.

(** A literal character. *)
Definition re_char {A : Type} (c : ascii) (s : string)
    (k : string -> option A) : option A :=
  match s with
  | String c' s' => if bool_decide (c = c') then k s' else None
  | EmptyString => None
  end.

(** Two digits, the first in [[a-b]] and the second in [[lo-hi]]. *)
Definition re_digit2 {A : Type} (a b lo hi : Z) (s : string)
    (k : Z -> string -> option A) : option A :=
  re_digit a b s (fun d1 s1 =>
  re_digit lo hi s1 (fun d2 s2 => k (10 * d1 + d2)%Z s2)).

(** [%Y]: [\d\d\d\d] *)
Definition re_Y {A : Type} (s : string) (k : Z -> string -> option A) : option A :=
  re_decimal s (fun d1 s1 =>
  re_decimal s1 (fun d2 s2 =>
  re_decimal s2 (fun d3 s3 =>
  re_decimal s3 (fun d4 s4 =>
    k (1000 * d1 + 100 * d2 + 10 * d3 + d4)%Z s4)))).

(** [%m]: [1[0-2]|0[1-9]|[1-9]] *)
Definition re_m {A : Type} (s : string) (k : Z -> string -> option A) : option A :=
  re_alt (re_digit2 1 1 0 2 s k)
 (re_alt (re_digit2 0 0 1 9 s k)
         (re_digit 1 9 s k)).

(** [%d]: [3[0-1]|[1-2]\d|0[1-9]|[1-9]| [1-9]] *)
Definition re_d {A : Type} (s : string) (k : Z -> string -> option A) : option A :=
  re_alt (re_digit2 3 3 0 1 s k)
 (re_alt (re_digit 1 2 s (fun d1 s1 =>
          re_decimal s1 (fun d2 s2 => k (10 * d1 + d2)%Z s2)))
 (re_alt (re_digit2 0 0 1 9 s k)
 (re_alt (re_digit 1 9 s k)
         (re_char " " s (fun s1 => re_digit 1 9 s1 k))))).

(** The compiled format ["%Y-%m-%d"], matched at the start of the input:
    the three groups and what is left of the input. *)
Definition format_regex_match (s : string) : option (Z * Z * Z * string) :=
  re_Y s (fun y s1 =>
  re_char "-" s1 (fun s2 =>
  re_m s2 (fun m s3 =>
  re_char "-" s3 (fun s4 =>
  re_d s4 (fun d s5 => Some (y, m, d, s5)))))).

Definition is_leap (y : Z) : bool :=
  bool_decide (y mod 4 = 0)%Z
  && (bool_decide (y mod 100 <> 0)%Z || bool_decide (y mod 400 = 0)%Z).

Definition days_in_month (y m : Z) : Z :=
  if bool_decide (m = 2)%Z then (if is_leap y then 29 else 28)%Z
  else if bool_decide (m ∈ [4; 6; 9; 11]%Z) then 30%Z
  else 31%Z.

(** Days of the year before the first day of month [m]. *)
Definition days_before_month (y m : Z) : Z :=
  foldr Z.add 0%Z (days_in_month y <$> seqZ 1 (m - 1)).

(** [datetime.strptime(s, "%Y-%m-%d")] *)
Definition strptime (s : string) : exc datetime :=
  match format_regex_match s with
  | None =>
      Raise (ValueError ("time data '" +:+ s +:+ "' does not match format '%Y-%m-%d'"))
  | Some (y, m, d, rest) =>
      if bool_decide (rest <> EmptyString)
      then Raise (ValueError ("unconverted data remains: " +:+ rest))
      else if bool_decide (y < 1)%Z
      then Raise (ValueError ("year " +:+ pretty y +:+ " is out of range"))
      else if bool_decide (days_in_month y m < d)%Z
      then Raise (ValueError "day is out of range for month")
      else Ok {| year := y; month := m; day := d |}
  end.

(** [date_obj.timetuple().tm_yday] *)
Definition tm_yday (d : datetime) : Z :=
  (days_before_month (year d) (month d) + day d)%Z.

End Datetime.

(** ** Module-level state of [app.py] *)

(** A JSON value as [json.load] returns it. *)
#[local] Set Warnings "-register-all".
Inductive json : Type :=
| JNumber (r : R)
| JString (s : string)
| JArray (l : list json).

(** The loaded artifacts (lines 27-49).  [scaler] is the fitted scaler's
    [transform]; [best_xgb], [stacking_model] and [residual_model] are
    the regressors' [predict].  They take the 2-D feature array (a list
    of rows) and return an array, or raise. *)
Record Artifacts : Type := {
  scaler : list (list R) -> exc (list (list R));
  best_xgb : list (list R) -> exc (list R);
  stacking_model : list (list R) -> exc (list R);
  residual_model : list (list R) -> exc (list R);
  ensemble_weights : gmap string R;
  training_metadata : gmap string json
}.

(** "Global variables from training" (lines 51-59). *)
Definition year_min : Z := 1994.
Definition year_max : Z := 2024.
Definition spatial_lag_mean : R := 12.5.
Definition prev_measurement_mean : R := 11.8.
Definition prev_year_measurement_mean : R := 12.1.

(** The module's namespace once lines 51-59 have run.  The only name
    bound from the metadata is [features]; a metadata file without that
    key makes the import fail. *)
Record Globals : Type := {
  g_year_min : Z;
  g_year_max : Z;
  g_features : json;
  g_spatial_lag_mean : R;
  g_prev_measurement_mean : R;
  g_prev_year_measurement_mean : R
}.

Definition module_init (A : Artifacts) : exc Globals :=
  features ← Py.dict_getitem (training_metadata A) "features";
  mret {| g_year_min := year_min;
          g_year_max := year_max;
          g_features := features;
          g_spatial_lag_mean := spatial_lag_mean;
          g_prev_measurement_mean := prev_measurement_mean;
          g_prev_year_measurement_mean := prev_year_measurement_mean |}.

(** ** Pydantic models for input and output *)

Record PredictionInput : Type := {
  latitude : R;
  longitude : R;
  date : string
}.

Definition validate_latitude (v : R) : exc R :=
  if negb (Py.Rleb (-90) v && Py.Rleb v 90)
  then Raise (ValueError "Latitude must be between -90 and 90")
  else Ok v.

Definition validate_longitude (v : R) : exc R :=
  if negb (Py.Rleb (-180) v && Py.Rleb v 180)
  then Raise (ValueError "Longitude must be between -180 and 180")
  else Ok v.

Definition validate_date_format (v : string) : exc string :=
  match Datetime.strptime v with
  | Ok _ => Ok v
  | Raise (ValueError _) => Raise (ValueError "Date must be in YYYY-MM-DD format")
  | Raise e => Raise e
  end.

(** Pydantic's [ValidationError]: one entry per field whose validator
    raised, in field order. *)
Definition ValidationError : Type := list (string * string).

Definition field_error {A : Type} (field : string) (r : exc A) : ValidationError :=
  match r with
  | Ok _ => []
  | Raise e => [(field, Py.str e)]
  end.

(** [PredictionInput(latitude=.., longitude=.., date=..)]: every field's
    validator runs, and the model is built only when none raised. *)
Definition PredictionInput_init (lat lon : R) (d : string)
  : ValidationError + PredictionInput :=
  let r1 := validate_latitude lat in
  let r2 := validate_longitude lon in
  let r3 := validate_date_format d in
  match r1, r2, r3 with
  | Ok v1, Ok v2, Ok v3 => inr {| latitude := v1; longitude := v2; date := v3 |}
  | _, _, _ => inl (field_error "latitude" r1 ++ field_error "longitude" r2
                    ++ field_error "date" r3)
  end.

Record PredictionOutput : Type := {
  prediction : R;
  confidence : R;
  units : string
}.

(** ** Utility functions *)

Section Features.
Local Open Scope R_scope.
Import Datetime.

(** Cyclical features (lines 119-124). *)
Definition doy_sin (date_obj : datetime) : R :=
  sin (2 * PI * IZR (tm_yday date_obj) / 365).
Definition doy_cos (date_obj : datetime) : R :=
  cos (2 * PI * IZR (tm_yday date_obj) / 365).
Definition month_sin (date_obj : datetime) : R :=
  sin (2 * PI * IZR (month date_obj) / 12).
Definition month_cos (date_obj : datetime) : R :=
  cos (2 * PI * IZR (month date_obj) / 12).
Definition year_sin (date_obj : datetime) : R :=
  sin (2 * PI * IZR (year date_obj - year_min) / IZR (year_max - year_min)).
Definition year_cos (date_obj : datetime) : R :=
  cos (2 * PI * IZR (year date_obj - year_min) / IZR (year_max - year_min)).

(** Seasonal features (lines 127-129). *)
Definition is_summer (month : Z) : Z :=
  if bool_decide (month ∈ [4; 5; 6]%Z) then 1%Z else 0%Z.
Definition is_winter (month : Z) : Z :=
  if bool_decide (month ∈ [11; 12; 1]%Z) then 1%Z else 0%Z.
Definition is_spring (month : Z) : Z :=
  if bool_decide (month ∈ [2; 3]%Z) then 1%Z else 0%Z.

(** Simple cluster assignment based on coordinates (line 138), for
    coordinates whose sum is a double: [abs] is exact, the addition
    rounds, the remainder of a finite non-negative float by 50 is exact,
    and [int] truncates. *)
Definition cluster_idx (latitude longitude : R) : Z :=
  Py.int (Py.mod_ (Py.round64 (Rabs latitude + Rabs longitude)) 50).

(** Line 138 as it is evaluated: a sum that overflows is [inf],
    [inf % 50] is NaN, and [int] raises on NaN. *)
Definition cluster_assignment (latitude longitude : R) : exc Z :=
  if Py.overflows (Rabs latitude + Rabs longitude)
  then Raise (ValueError "cannot convert float NaN to integer")
  else Ok (cluster_idx latitude longitude).

(** [np.array([feature_values])]: one row of float64. *)
Definition np_array (rows : list (list Py.num)) : list (list R) :=
  fmap (M:=list) (fmap (M:=list) Py.to_float) rows.

(** Prepare all 65 features from just lat, long, and date.  The date
    components are read off [date_obj]; the day of the year enters
    through [doy_sin] and [doy_cos]. *)
Definition prepare_features (latitude longitude : R) (date_str : string)
  : exc (list (list R)) :=
  date_obj ← strptime date_str;
  let month := month date_obj in
  let year := year date_obj in
  let spatial_lag_est := spatial_lag_mean in
  let prev_measurement_est := prev_measurement_mean in
  let prev_year_measurement_est := prev_year_measurement_mean in
  let cluster_features := replicate 50 0%Z in
  cluster_idx ← cluster_assignment latitude longitude;
  cluster_features ← Py.list_setitem cluster_features cluster_idx 1%Z;
  let feature_values :=
    [ Py.PyFloat latitude; Py.PyFloat longitude;
      Py.PyFloat (doy_sin date_obj); Py.PyFloat (doy_cos date_obj);
      Py.PyFloat (month_sin date_obj); Py.PyFloat (month_cos date_obj);
      Py.PyInt year;
      Py.PyFloat (year_sin date_obj); Py.PyFloat (year_cos date_obj);
      Py.PyInt (is_summer month); Py.PyInt (is_winter month);
      Py.PyInt (is_spring month);
      Py.PyFloat spatial_lag_est; Py.PyFloat prev_measurement_est;
      Py.PyFloat prev_year_measurement_est ]
    ++ (Py.PyInt <$> cluster_features) in
  mret (np_array [feature_values]).

(** Combine predictions using optimized weights. *)
Definition weighted_ensemble_predictions (xgb_pred stacking_pred : R)
    (weights : list R) : exc R :=
  w0 ← Py.getitem weights 0;
  w1 ← Py.getitem weights 1;
  mret (w0 * xgb_pred + w1 * stacking_pred).

(** The confidence heuristic of line 191, as a function of the final
    prediction. *)
Definition confidence_heuristic (final_prediction : R) : R :=
  Py.max 0.7 (1.0 - Rabs (final_prediction - 10) / 20).

End Features.

(** ** Effects of a request: log records and calls into the artifacts *)

Inductive model_id : Type := BestXgb | StackingModel | ResidualModel.

Inductive log_record : Type :=
| Info_received (input_data : PredictionInput)
| Info_completed (final_prediction : R)
| Error_failed (e : exn).

Inductive event : Type :=
| Log (r : log_record)
| ScalerTransform (X : list (list R))
| ModelPredict (m : model_id) (X : list (list R)).

(** What a request has done so far, oldest event first. *)
Definition trace : Type := list event.

(** A computation that may raise and that appends to the trace. *)
Definition M (A : Type) : Type := trace -> exc A * trace.

#[export] Instance M_ret : MRet M := fun A a tr => (Ok a, tr).
#[export] Instance M_bind : MBind M := fun A B k m tr =>
  match m tr with
  | (Ok a, tr') => k a tr'
  | (Raise e, tr') => (Raise e, tr')
  end.

Definition lift {A : Type} (x : exc A) : M A := fun tr => (x, tr).
Definition emit (ev : event) : M unit := fun tr => (Ok tt, tr ++ [ev]).
Definition raise {A : Type} (e : exn) : M A := lift (Raise e).

(** [try: body except Exception as e: handler e] *)
Definition try_except {A : Type} (body : M A) (handler : exn -> M A) : M A :=
  fun tr =>
    match body tr with
    | (Ok a, tr') => (Ok a, tr')
    | (Raise e, tr') => handler e tr'
    end.

Definition logger_info (r : log_record) : M unit := emit (Log r).
Definition logger_error (r : log_record) : M unit := emit (Log r).

Definition model_of (A : Artifacts) (m : model_id) : list (list R) -> exc (list R) :=
  match m with
  | BestXgb => best_xgb A
  | StackingModel => stacking_model A
  | ResidualModel => residual_model A
  end.

(** [scaler.transform(X)] *)
Definition scaler_transform (A : Artifacts) (X : list (list R)) : M (list (list R)) :=
  (emit (ScalerTransform X) : M unit);; lift (scaler A X).

(** [model.predict(X)] *)
Definition model_predict (A : Artifacts) (m : model_id) (X : list (list R)) : M (list R) :=
  (emit (ModelPredict m X) : M unit);; lift (model_of A m X).

(** ** API routes *)

(** The body of the [try] block of [predict] (lines 163-199). *)
Definition predict_body (A : Artifacts) (input_data : PredictionInput) : M PredictionOutput :=
  (logger_info (Info_received input_data) : M unit);;
  features_array ← lift (prepare_features (latitude input_data)
                           (longitude input_data) (date input_data));
  features_scaled ← scaler_transform A features_array;
  xgb_pred ← (p ← model_predict A BestXgb features_scaled; lift (Py.getitem p 0));
  stacking_pred ← (p ← model_predict A StackingModel features_scaled; lift (Py.getitem p 0));
  w_xgb ← lift (Py.dict_getitem (ensemble_weights A) "xgb_weight");
  w_stacking ← lift (Py.dict_getitem (ensemble_weights A) "stacking_weight");
  ensemble_pred ← lift (weighted_ensemble_predictions xgb_pred stacking_pred
                          [w_xgb; w_stacking]);
  residual_pred ← (p ← model_predict A ResidualModel features_scaled; lift (Py.getitem p 0));
  let final_prediction := (ensemble_pred + residual_pred)%R in
  let confidence := confidence_heuristic final_prediction in
  (logger_info (Info_completed final_prediction) : M unit);;
  mret {| prediction := final_prediction;
          confidence := confidence;
          units := "meters below ground level" |}.

(** Predict groundwater level from latitude, longitude, and date only. *)
Definition predict (A : Artifacts) (input_data : PredictionInput) : M PredictionOutput :=
  try_except (predict_body A input_data)
    (fun e =>
       (logger_error (Error_failed e) : M unit);;
       raise (HTTPException 500 ("Prediction error: " +:+ Py.str e))).

(** What the caller of [POST /predict] gets back. *)
Inductive response : Type :=
| Response200 (body : PredictionOutput)
| Response422 (detail : ValidationError)
| ResponseError (status_code : Z) (detail : string).

(** The route as FastAPI serves it (the specification's [handle]): the
    request body is validated into a [PredictionInput], and only then is
    [predict] awaited; an [HTTPException] becomes the response of that
    status, any other exception a plain 500. *)
Definition handle (A : Artifacts) (lat lon : R) (d : string) : trace -> response * trace :=
  fun tr =>
    match PredictionInput_init lat lon d with
    | inl errors => (Response422 errors, tr)
    | inr input_data =>
        match predict A input_data tr with
        | (Ok out, tr') => (Response200 out, tr')
        | (Raise (HTTPException code detail), tr') => (ResponseError code detail, tr')
        | (Raise _, tr') => (ResponseError 500 "Internal Server Error", tr')
        end
    end.

(** The events that are calls into a fitted artifact. *)
Definition is_model_call (ev : event) : bool :=
  match ev with
  | Log _ => false
  | ScalerTransform _ | ModelPredict _ _ => true
  end.

(** ** The stages of the pipeline, for stating what a failure is *)

(** [model.predict(features_scaled)[0]] *)
Definition first_output (model : list (list R) -> exc (list R))
    (features_scaled : list (list R)) : exc R :=
  p ← model features_scaled; Py.getitem p 0.

(** Lines 180-184: the two weights are read, then the blend is formed. *)
Definition blend (A : Artifacts) (xgb_pred stacking_pred : R) : exc R :=
  w_xgb ← Py.dict_getitem (ensemble_weights A) "xgb_weight";
  w_stacking ← Py.dict_getitem (ensemble_weights A) "stacking_weight";
  weighted_ensemble_predictions xgb_pred stacking_pred [w_xgb; w_stacking].

(** [stage_raises A i e]: on input [i], the stages before some stage
    return and that stage raises [e].  Confidence scoring is arithmetic
    on a float and has no raising case. *)
Inductive stage_raises (A : Artifacts) (i : PredictionInput) (e : exn) : Prop :=
| synthesis_raises :
    prepare_features (latitude i) (longitude i) (date i) = Raise e ->
    stage_raises A i e
| scaling_raises X :
    prepare_features (latitude i) (longitude i) (date i) = Ok X ->
    scaler A X = Raise e ->
    stage_raises A i e
| xgb_raises X Xs :
    prepare_features (latitude i) (longitude i) (date i) = Ok X ->
    scaler A X = Ok Xs ->
    first_output (best_xgb A) Xs = Raise e ->
    stage_raises A i e
| stacking_raises X Xs a :
    prepare_features (latitude i) (longitude i) (date i) = Ok X ->
    scaler A X = Ok Xs ->
    first_output (best_xgb A) Xs = Ok a ->
    first_output (stacking_model A) Xs = Raise e ->
    stage_raises A i e
| blending_raises X Xs a b :
    prepare_features (latitude i) (longitude i) (date i) = Ok X ->
    scaler A X = Ok Xs ->
    first_output (best_xgb A) Xs = Ok a ->
    first_output (stacking_model A) Xs = Ok b ->
    blend A a b = Raise e ->
    stage_raises A i e
| residual_raises X Xs a b c :
    prepare_features (latitude i) (longitude i) (date i) = Ok X ->
    scaler A X = Ok Xs ->
    first_output (best_xgb A) Xs = Ok a ->
    first_output (stacking_model A) Xs = Ok b ->
    blend A a b = Ok c ->
    first_output (residual_model A) Xs = Raise e ->
    stage_raises A i e.

(** [stages_return A i out]: every stage returns, and [out] is built
    from their values as lines 188-199 do. *)
Definition stages_return (A : Artifacts) (i : PredictionInput)
    (out : PredictionOutput) : Prop :=
  exists X Xs a b c r,
    prepare_features (latitude i) (longitude i) (date i) = Ok X
    /\ scaler A X = Ok Xs
    /\ first_output (best_xgb A) Xs = Ok a
    /\ first_output (stacking_model A) Xs = Ok b
    /\ blend A a b = Ok c
    /\ first_output (residual_model A) Xs = Ok r
    /\ out = {| prediction := (c + r)%R;
                confidence := confidence_heuristic (c + r)%R;
                units := "meters below ground level" |}.

(** A computation whose result and emitted events do not depend on the
    trace it starts from. *)
Definition oblivious {A : Type} (m : M A) : Prop :=
  exists r evs, forall tr, m tr = (r, tr ++ evs).

(** The sum of a row segment. *)
Definition Rsum (l : list R) : R := foldr Rplus 0%R l.

(** ** The arithmetic tail of [predict] over IEEE-754 binary64 *)

Module Binary64.
Local Open Scope float_scope.
#[local] Set Warnings "-inexact-float".

(** The built-in [max(a, b)]. *)
Definition max (a b : float) : float := if PrimFloat.ltb a b then b else a.

Definition weighted_ensemble_predictions (xgb_pred stacking_pred : float)
    (weights : list float) : exc float :=
  w0 ← Py.getitem weights 0;
  w1 ← Py.getitem weights 1;
  mret (w0 * xgb_pred + w1 * stacking_pred).

Definition confidence_heuristic (final_prediction : float) : float :=
  max 0.7 (1.0 - abs (final_prediction - 10) / 20).

(** Lines 180-191 of [predict], from the three model outputs and the two
    blend weights to (final_prediction, confidence). *)
Definition blend_correct_score (xgb_pred stacking_pred residual_pred : float)
    (w_xgb w_stacking : float) : exc (float * float) :=
  ensemble_pred ← weighted_ensemble_predictions xgb_pred stacking_pred
                    [w_xgb; w_stacking];
  let final_prediction := ensemble_pred + residual_pred in
  let confidence := confidence_heuristic final_prediction in
  mret (final_prediction, confidence).

(** The end-to-end scenario's stub outputs: base models 5.0 and 7.0,
    weights 0.6 and 0.4, residual model 0.2. *)
Definition scenario : exc (float * float) :=
  blend_correct_score 5.0 7.0 0.2 0.6 0.4.

End Binary64.

(** ** Stub artifacts *)

Section Stubs.
Local Open Scope R_scope.

(** The end-to-end scenario: identity scaler, constant base models 5.0
    and 7.0, weights 0.6 and 0.4, constant residual model 0.2. *)
Definition stub_artifacts : Artifacts := {|
  scaler := fun X => Ok X;
  best_xgb := fun _ => Ok [5.0];
  stacking_model := fun _ => Ok [7.0];
  residual_model := fun _ => Ok [0.2];
  ensemble_weights := {[ "xgb_weight" := 0.6; "stacking_weight" := 0.4 ]};
  training_metadata := {[ "features" := JArray [] ]}
|}.

Definition stub_input : PredictionInput :=
  {| latitude := 28.6139; longitude := 77.2090; date := "2024-06-15" |}.

(** A valid request whose coordinates are the doubles 49.99999999999999
    and 5e-15: their exact sum is below 50, their binary64 sum is 50.0. *)
Definition latitude_near_50 : R := 7036874417766399 / 140737488355328.
Definition longitude_5e_15 : R :=
  6338253001141147 / 1267650600228229401496703205376.

(** The double [2^1023], about 8.99e307. *)
Definition huge : R := IZR (2 ^ 1023).

(** A scaler fitted on a different number of columns. *)
Definition mismatched_scaler_artifacts : Artifacts := {|
  scaler := fun X => Raise (ValueError "X has 65 features, but StandardScaler is expecting 64 features as input.");
  best_xgb := fun _ => Ok [5.0];
  stacking_model := fun _ => Ok [7.0];
  residual_model := fun _ => Ok [0.2];
  ensemble_weights := {[ "xgb_weight" := 0.6; "stacking_weight" := 0.4 ]};
  training_metadata := {[ "features" := JArray [] ]}
|}.

(** Artifacts whose metadata records year bounds 2000 and 2020. *)
Definition metadata_2000_2020 : gmap string json :=
  {[ "features" := JArray [JString "latitude"; JString "longitude"];
     "year_min" := JNumber 2000;
     "year_max" := JNumber 2020 ]}.

Definition artifacts_2000_2020 : Artifacts := {|
  scaler := fun X => Ok X;
  best_xgb := fun _ => Ok [5.0];
  stacking_model := fun _ => Ok [7.0];
  residual_model := fun _ => Ok [0.2];
  ensemble_weights := {[ "xgb_weight" := 0.6; "stacking_weight" := 0.4 ]};
  training_metadata := metadata_2000_2020
|}.

End Stubs.

(** ** The [/health] route of [app.py] *)

Section Health.

(** [float(s)] on a string is Python's own parser; it is taken as given. *)
Variable float_of_str : string -> exc R.





End Health.

(** Artifacts whose weights file lacks "xgb_weight". *)
Definition missing_weight_artifacts : Artifacts := {|
  scaler := fun X => Ok X;
  best_xgb := fun _ => Ok [5.0%R];
  stacking_model := fun _ => Ok [7.0%R];
  residual_model := fun _ => Ok [0.2%R];
  ensemble_weights := {[ "stacking_weight" := 0.4%R ]};
  training_metadata := {[ "features" := JArray [] ]}
|}.



(** ** [wells_server.py]: the wells-serving routes *)

Module Wells.

(** A value of a MongoDB document as pymongo hands it over.  [VInt z]
    is a BSON integer, so [z] fits 64 bits and [float(z)] is finite.
    [VOther] is a value of any further type (None, a datetime, a list,
    ...), named by its Python type; such a value does not add to a
    number. *)
Inductive value : Type :=
| VInt (z : Z)
| VFloat (x : Py.float64)
| VBool (b : bool)
| VStr (s : string)
| VOther (type_name : string).

(** A document, and every dict the routes build. *)
Abbreviation doc := (gmap string value).

Definition type_name (v : value) : string :=
  match v with
  | VInt _ => "int"
  | VFloat _ => "float"
  | VBool _ => "bool"
  | VStr _ => "str"
  | VOther t => t
  end.

(** The value of a finite number ([bool] is a subclass of [int]). *)
Definition number (v : value) : option R :=
  match v with
  | VInt z => Some (IZR z)
  | VFloat (Py.Finite r) => Some r
  | VBool b => Some (if b then 1 else 0)%R
  | VFloat _ | VStr _ | VOther _ => None
  end.

(** The values that are numbers to Python: [int], [float] (the
    infinities and NaN too) and [bool]. *)
Definition numeric (v : value) : bool :=
  match v with
  | VInt _ | VFloat _ | VBool _ => true
  | VStr _ | VOther _ => false
  end.

Definition int_of_bool (b : bool) : Z := if b then 1%Z else 0%Z.

(** [float(z)]: the double nearest to [z]. *)
Definition float_of_int (z : Z) : Py.float64 := Py.of_real (IZR z).

(** [acc + v] for a running total [acc]: integers add exactly, and once
    a float is met the total is a float. *)
Definition add (acc v : value) : exc value :=
  match acc, v with
  | VInt a, VInt z => Ok (VInt (a + z))
  | VInt a, VBool b => Ok (VInt (a + int_of_bool b))
  | VInt a, VFloat y => Ok (VFloat (Py.fadd (float_of_int a) y))
  | VFloat x, VInt z => Ok (VFloat (Py.fadd x (float_of_int z)))
  | VFloat x, VBool b => Ok (VFloat (Py.fadd x (float_of_int (int_of_bool b))))
  | VFloat x, VFloat y => Ok (VFloat (Py.fadd x y))
  | _, _ =>
      Raise (OtherException ("unsupported operand type(s) for +: '"
                             +:+ type_name acc +:+ "' and '" +:+ type_name v +:+ "'"))
  end.

Fixpoint sum_from (acc : value) (l : list value) : exc value :=
  match l with
  | [] => Ok acc
  | v :: l' => acc' ← add acc v; sum_from acc' l'
  end.

(** The built-in [sum(l)]: the total starts at the int 0 and the items
    are added from left to right, each float addition rounding (the
    loop of CPython 3.11). *)
Definition sum (l : list value) : exc value := sum_from (VInt 0) l.

(** [total / n] for a total returned by [sum] and a length [n]: the
    quotient of two integers is rounded once, a float total is divided
    by [float(n)]. *)
Definition truediv (total : value) (n : nat) : exc Py.float64 :=
  match total with
  | VInt a =>
      if bool_decide (n = 0%nat) then Raise (ZeroDivisionError "division by zero")
      else Ok (Py.of_real (IZR a / INR n))
  | VFloat x =>
      if bool_decide (n = 0%nat) then Raise (ZeroDivisionError "float division by zero")
      else Ok (Py.fdiv_pos x (INR n))
  | _ => Raise (OtherException "unsupported operand type(s) for /")
  end.

(** The value of a number for a comparison, which is exact: an integer
    is not rounded to a float first. *)
Definition comparand (v : value) : option Py.float64 :=
  match v with
  | VInt z => Some (Py.Finite (IZR z))
  | VFloat x => Some x
  | VBool b => Some (Py.Finite (IZR (int_of_bool b)))
  | VStr _ | VOther _ => None
  end.

(** [a < b].  It is evaluated on numbers only: [min] and [max] run after
    [sum] has returned, which it does not on a list holding anything
    else. *)
Definition lt (a b : value) : exc bool :=
  match comparand a, comparand b with
  | Some x, Some y => Ok (Py.flt x y)
  | _, _ =>
      Raise (OtherException ("'<' not supported between instances of '"
                             +:+ type_name a +:+ "' and '" +:+ type_name b +:+ "'"))
  end.

Fixpoint min_from (m : value) (l : list value) : exc value :=
  match l with
  | [] => Ok m
  | v :: l' => b ← lt v m; min_from (if (b : bool) then v else m) l'
  end.

(** The built-in [min(l)]: the first smallest item. *)
Definition min (l : list value) : exc value :=
  match l with
  | [] => Raise (ValueError "min() arg is an empty sequence")
  | v :: l' => min_from v l'
  end.

Fixpoint max_from (m : value) (l : list value) : exc value :=
  match l with
  | [] => Ok m
  | v :: l' => b ← lt m v; max_from (if (b : bool) then v else m) l'
  end.

(** The built-in [max(l)]: the first largest item. *)
Definition max (l : list value) : exc value :=
  match l with
  | [] => Raise (ValueError "max() arg is an empty sequence")
  | v :: l' => max_from v l'
  end.

(** [[f(x) for x in l]], stopping at the first exception. *)
Fixpoint for_each {A B : Type} (f : A -> exc B) (l : list A) : exc (list B) :=
  match l with
  | [] => Ok []
  | x :: l' =>
      match f x with
      | Ok y =>
          match for_each f l' with
          | Ok ys => Ok (y :: ys)
          | Raise e => Raise e
          end
      | Raise e => Raise e
      end
  end.

(** The three aggregation pipelines the routes send. *)
Inductive pipeline : Type :=
| WellLocations      (* lines 68-99: group by location, project, limit 5000 *)
| DateStats          (* lines 243-250 *)
| UniqueLocations.   (* lines 255-258 *)

(** The filter of [get_well_details] (lines 147-150). *)
Record range_query : Type := {
  lat_gte : R; lat_lte : R; lng_gte : R; lng_lte : R
}.

(** The pymongo collection, an external service.  [aggregate p] is
    [list(wells_collection.aggregate(p))]; [find_sorted q] is
    [list(wells_collection.find(q, ...).sort("Date", 1).limit(365))];
    [count_documents] is [wells_collection.count_documents({})]. *)
Record Collection : Type := {
  aggregate : pipeline -> exc (list doc);
  find_sorted : range_query -> exc (list doc);
  count_documents : exc Z
}.

(** *** [get_well_details] *)

Record DetailsResponse : Type := {
  details_success : bool;
  details_location : R * R;
  details_count : nat;
  details_timeseries : list doc;
  details_statistics : doc
}.

(** One entry of [processed_data] (lines 164-169). *)
Definition process_record (record : doc) : exc doc :=
  d ← Py.dict_getitem record "Date";
  w ← Py.dict_getitem record "DTWL";
  la ← Py.dict_getitem record "LATITUDE";
  lo ← Py.dict_getitem record "LONGITUDE";
  mret ({[ "date" := d; "waterlevel" := w; "lat" := la; "long" := lo ]} : doc).

(** The [try] block of [get_well_details] (lines 142-186). *)
Definition get_well_details_body (wells_collection : option Collection)
    (lat lng : R) : exc DetailsResponse :=
  match wells_collection with
  | None => Raise (HTTPException 503 "MongoDB connection not available")
  | Some c =>
      let tolerance := 0.001%R in
      let query := {| lat_gte := lat - tolerance; lat_lte := lat + tolerance;
                      lng_gte := lng - tolerance; lng_lte := lng + tolerance |}%R in
      well_records ← find_sorted c query;
      if bool_decide (well_records = [])
      then Raise (HTTPException 404 "No data found for this location")
      else
        processed_data ← for_each process_record well_records;
        water_levels ← for_each (fun r => Py.dict_getitem r "DTWL") well_records;
        total ← sum water_levels;
        average ← truediv total (length water_levels);
        minimum ← min water_levels;
        maximum ← max water_levels;
        let stats : doc :=
          {[ "average" := VFloat average; "minimum" := minimum;
             "maximum" := maximum; "trend" := VStr "stable" ]} in
        mret {| details_success := true;
                details_location := (lat, lng);
                details_count := length processed_data;
                details_timeseries := processed_data;
                details_statistics := stats |}
  end.

(** Get detailed time series data for a specific well location: the
    [try] block under its two [except] clauses. *)
Definition get_well_details (wells_collection : option Collection)
    (lat lng : R) : exc DetailsResponse :=
  match get_well_details_body wells_collection lat lng with
  | Ok r => Ok r
  | Raise (HTTPException code detail) => Raise (HTTPException code detail)
  | Raise e => Raise (HTTPException 500 ("Database error: " +:+ Py.str e))
  end.

(** *** [get_wells_summary] *)

Inductive SummaryResponse : Type :=
| SummaryMessage (message : string)
| SummaryStats (total_records : Z) (unique_wells : value) (date_range : doc)
    (source : string)
| SummaryError (error : string).

(** [unique_count[0]["unique_wells"] if unique_count else 0] *)
Definition unique_wells_of (unique_count : list doc) : exc value :=
  match unique_count with
  | [] => Ok (VInt 0)
  | d :: _ => Py.dict_getitem d "unique_wells"
  end.

(** The [try] block of [get_wells_summary] (lines 236-269). *)
Definition get_wells_summary_body (wells_collection : option Collection)
  : exc SummaryResponse :=
  match wells_collection with
  | None => Ok (SummaryMessage "MongoDB not available, using sample data")
  | Some c =>
      total_records ← count_documents c;
      date_stats ← aggregate c DateStats;
      unique_count ← aggregate c UniqueLocations;
      unique_wells ← unique_wells_of unique_count;
      let date_range : doc := match date_stats with [] => ∅ | d :: _ => d end in
      mret (SummaryStats total_records unique_wells date_range "mongodb")
  end.

(** Get wells summary statistics from MongoDB. *)
Definition get_wells_summary (wells_collection : option Collection)
  : exc SummaryResponse :=
  match get_wells_summary_body wells_collection with
  | Ok r => Ok r
  | Raise e => Ok (SummaryError ("Database error: " +:+ Py.str e))
  end.

(** *** [generate_sample_wells_data] and [get_wells] *)

Section Random.

(** The generator behind the [random] module: its state, [random()]
    (a double) and [_randbelow(n)], each returning the draw and the
    next state. *)
Variable rng : Type.
Variable random : rng -> R * rng.
Variable randbelow : Z -> rng -> Z * rng.

(** [random.uniform(a, b)] is [a + (b - a) * random()], in float
    arithmetic: each of the three operations rounds. *)
Definition uniform (a b : Py.float64) (g : rng) : Py.float64 * rng :=
  let '(u, g') := random g in
  (Py.fadd a (Py.fmul (Py.fsub b a) (Py.Finite u)), g').

(** [random.randint(a, b)] is [a + _randbelow(b + 1 - a)]. *)
Definition randint (a b : Z) (g : rng) : Z * rng :=
  let '(k, g') := randbelow (b + 1 - a) g in ((a + k)%Z, g').

(** Sample locations in India: (lat, long, name). *)
Definition locations : list (R * R * string) :=
  [ (28.6139, 77.2090, "New Delhi"); (19.0760, 72.8777, "Mumbai");
    (13.0827, 80.2707, "Chennai"); (22.5726, 88.3639, "Kolkata");
    (12.9716, 77.5946, "Bangalore"); (26.9124, 75.7873, "Jaipur");
    (21.1458, 79.0882, "Nagpur"); (15.2993, 74.1240, "Goa");
    (23.0225, 72.5714, "Ahmedabad"); (17.3850, 78.4867, "Hyderabad") ]%R.

(** One pass of the loop (lines 214-228): six draws, in this order.  A
    decimal literal is the double nearest to it. *)
Definition sample_entry (location : R * R * string) (g : rng) : doc * rng :=
  let '(lat, long, _) := location in
  let '(lat_variation, g) := uniform (Py.of_real (-0.01)) (Py.of_real 0.01) g in
  let '(long_variation, g) := uniform (Py.of_real (-0.01)) (Py.of_real 0.01) g in
  let '(base_level, g) := uniform (Py.Finite 1) (Py.Finite 15) g in
  let '(count, g) := randint 50 200 g in
  let '(below, g) := uniform (Py.Finite 1) (Py.Finite 3) g in
  let '(above, g) := uniform (Py.Finite 1) (Py.Finite 3) g in
  (({[ "lat" := VFloat (Py.fadd (Py.of_real lat) lat_variation);
       "long" := VFloat (Py.fadd (Py.of_real long) long_variation);
       "waterlevel" := VFloat base_level;
       "date" := VStr "2024-01-01";
       "count" := VInt count;
       "min_waterlevel" := VFloat (Py.fsub base_level below);
       "max_waterlevel" := VFloat (Py.fadd base_level above) ]} : doc), g).

Fixpoint sample_entries (ls : list (R * R * string)) (g : rng) : list doc * rng :=
  match ls with
  | [] => ([], g)
  | location :: ls' =>
      let '(entry, g) := sample_entry location g in
      let '(entries, g) := sample_entries ls' g in
      (entry :: entries, g)
  end.

(** Generate sample wells data for demonstration. *)
Definition generate_sample_wells_data (g : rng) : list doc * rng :=
  sample_entries locations g.

Record WellsResponse : Type := {
  wells_success : bool;
  wells_count : nat;
  wells_total_records : option Z;
  wells_data : list doc;
  wells_source : string
}.

Definition sample_response (source : string) (g : rng) : WellsResponse * rng :=
  let '(sample_wells_data, g) := generate_sample_wells_data g in
  ({| wells_success := true;
      wells_count := length sample_wells_data;
      wells_total_records := None;
      wells_data := sample_wells_data;
      wells_source := source |}, g).

(** Lines 64-112: the answer from MongoDB, when there is one. *)
Definition aggregated_response (wells_collection : option Collection)
  : exc (option WellsResponse) :=
  match wells_collection with
  | None => Ok None
  | Some c =>
      wells_data ← aggregate c WellLocations;
      if bool_decide (wells_data = []) then Ok None
      else
        total_records ← count_documents c;
        mret (Some {| wells_success := true;
                      wells_count := length wells_data;
                      wells_total_records := Some total_records;
                      wells_data := wells_data;
                      wells_source := "mongodb_aggregated" |})
  end.

(** Get unique wells locations from MongoDB: the aggregated data, the
    sample data when there is none, and the sample data again when
    anything raised. *)
Definition get_wells (wells_collection : option Collection) (g : rng)
  : exc (WellsResponse * rng) :=
  match aggregated_response wells_collection with
  | Ok (Some r) => Ok (r, g)
  | Ok None => Ok (sample_response "sample_data" g)
  | Raise e => Ok (sample_response "sample_data_fallback" g)
  end.

End Random.

(** *** Records the routes are meant for *)

(** A record holding the four projected fields. *)
Definition has_fields (record : doc) : Prop :=
  is_Some (record !! "Date") /\ is_Some (record !! "DTWL")
  /\ is_Some (record !! "LATITUDE") /\ is_Some (record !! "LONGITUDE").


(** A record holding the four projected fields, with a finite number as
    its water level. *)
Definition complete_record (record : doc) : Prop :=
  is_Some (record !! "Date") /\ is_Some (record !! "LATITUDE")
  /\ is_Some (record !! "LONGITUDE")
  /\ exists w, record !! "DTWL" = Some w /\ is_Some (number w).

(** The water levels of a list of records, and their numeric values. *)
Definition levels (records : list doc) : list value :=
  omap (fun record : doc => record !! "DTWL") records.
Definition level_numbers (records : list doc) : list R :=
  omap number (levels records).

(** [entry] is [record] with its four fields renamed, and nothing else. *)
Definition renamed (record entry : doc) : Prop :=
  entry !! "date" = record !! "Date"
  /\ entry !! "waterlevel" = record !! "DTWL"
  /\ entry !! "lat" = record !! "LATITUDE"
  /\ entry !! "long" = record !! "LONGITUDE"
  /\ forall k : string,
       k <> "date" -> k <> "waterlevel" -> k <> "lat" -> k <> "long" ->
       entry !! k = None.

(** [entry] is a sample well near [location]: the seven fields, all
    floats finite, with the values in the ranges the draws allow.  The
    location is met up to the rounding of the literals and of the sum. *)
Definition sample_of (location : R * R * string) (entry : doc) : Prop :=
  exists (la lo w : R) (cnt : Z) (mn mx : R),
    entry = {[ "lat" := VFloat (Py.Finite la); "long" := VFloat (Py.Finite lo);
               "waterlevel" := VFloat (Py.Finite w); "date" := VStr "2024-01-01";
               "count" := VInt cnt; "min_waterlevel" := VFloat (Py.Finite mn);
               "max_waterlevel" := VFloat (Py.Finite mx) ]}
    /\ (Rabs (la - location.1.1) <= 0.0100001)%R
    /\ (Rabs (lo - location.1.2) <= 0.0100001)%R
    /\ (1 <= w <= 15)%R
    /\ (50 <= cnt <= 200)%Z
    /\ (-2 <= mn <= 14 /\ mn <= w)%R
    /\ (2 <= mx <= 18 /\ w <= mx)%R.

(** *** Stubs *)

(** A generator that always draws 0. *)
Definition zero_random (g : unit) : R * unit := (0%R, g).

(** A generator that always draws the largest double below 1, which is
    [1 - 2^-53]. *)
Definition almost_one_random (g : unit) : R * unit :=
  ((1 - / 9007199254740992)%R, g).

Definition zero_randbelow (n : Z) (g : unit) : Z * unit := (0%Z, g).

(** A collection whose every call fails. *)
Definition down : Collection := {|
  aggregate := fun _ => Raise (OtherException "connection refused");
  find_sorted := fun _ => Raise (OtherException "connection refused");
  count_documents := Raise (OtherException "connection refused")
|}.

(** An empty collection. *)
Definition empty : Collection := {|
  aggregate := fun _ => Ok [];
  find_sorted := fun _ => Ok [];
  count_documents := Ok 0%Z
|}.

Definition record_1 : doc :=
  {[ "Date" := VStr "2020-01-15"; "DTWL" := VFloat (Py.Finite 4.5);
     "LATITUDE" := VFloat (Py.of_real 28.6139);
     "LONGITUDE" := VFloat (Py.of_real 77.2090) ]}.
Definition record_2 : doc :=
  {[ "Date" := VStr "2020-02-15"; "DTWL" := VInt 6;
     "LATITUDE" := VFloat (Py.of_real 28.6139);
     "LONGITUDE" := VFloat (Py.of_real 77.2090) ]}.
(** A record without a "Date". *)
Definition record_undated : doc :=
  {[ "DTWL" := VFloat (Py.Finite 4.5);
     "LATITUDE" := VFloat (Py.of_real 28.6139);
     "LONGITUDE" := VFloat (Py.of_real 77.2090) ]}.

(** A record whose water level is a text. *)
Definition record_unmeasured : doc :=
  {[ "Date" := VStr "2020-03-15"; "DTWL" := VStr "dry";
     "LATITUDE" := VFloat (Py.of_real 28.6139);
     "LONGITUDE" := VFloat (Py.of_real 77.2090) ]}.


(** A collection whose count and date statistics answer and whose
    unique-locations aggregation fails. *)
Definition failing_unique_locations : Collection := {|
  aggregate := fun p =>
    match p with
    | UniqueLocations => Raise (OtherException "cursor timed out")
    | _ => Ok []
    end;
  find_sorted := fun _ => Ok [];
  count_documents := Ok 0%Z
|}.

(** A collection answering every query with the given records. *)
Definition holding (records : list doc) : Collection := {|
  aggregate := fun _ => Ok records;
  find_sorted := fun _ => Ok records;
  count_documents := Ok (Z.of_nat (length records))
|}.

End Wells.

(** * Properties *)

(** ** Sanity checks of the embedding on concrete inputs *)

Section Checks.
Import Datetime.

Example strptime_iso : strptime "2024-06-15" = Ok (Build_datetime 2024 6 15).
Proof. by vm_compute. Qed.

Example strptime_bad_month :
  strptime "2024-13-40"
  = Raise (ValueError "time data '2024-13-40' does not match format '%Y-%m-%d'").
Proof. by vm_compute. Qed.

Example strptime_no_such_day :
  strptime "2023-02-29" = Raise (ValueError "day is out of range for month").
Proof. by vm_compute. Qed.

Example strptime_trailing :
  strptime "2024-06-155" = Raise (ValueError "unconverted data remains: 5").
Proof. by vm_compute. Qed.

(** The digits of [%Y], and the second digit of a day from 10 to 29,
    are matched by [\d], which takes the decimal digits of any script;
    the month's pattern spells its digits out, so they are ASCII. *)
Example strptime_fullwidth_year :
  strptime "２０２４-06-15" = Ok (Build_datetime 2024 6 15).
Proof. by vm_compute. Qed.

Example strptime_fullwidth_day_digit :
  strptime "2024-06-1５" = Ok (Build_datetime 2024 6 15).
Proof. by vm_compute. Qed.

Example strptime_devanagari_year :
  strptime "२०२४-06-15" = Ok (Build_datetime 2024 6 15).
Proof. by vm_compute. Qed.

Example strptime_fullwidth_month : is_ok (strptime "2024-０６-15") = false.
Proof. by vm_compute. Qed.

Example strptime_fullwidth_first_day_digit : is_ok (strptime "2024-06-１5") = false.
Proof. by vm_compute. Qed.

(** [strptime] does not insist on two digits for month and day. *)
Example strptime_short_fields : strptime "2024-6-5" = Ok (Build_datetime 2024 6 5).
Proof. by vm_compute. Qed.

Example tm_yday_june : tm_yday (Build_datetime 2024 6 15) = 167%Z.
Proof. by vm_compute. Qed.

Example tm_yday_last : tm_yday (Build_datetime 2024 12 31) = 366%Z.
Proof. by vm_compute. Qed.

(** The bounds check of the list write is live: index 50 raises, and -1
    writes the last slot. *)
Example setitem_50 :
  Py.list_setitem (replicate 50 0%Z) 50 1%Z
  = Raise (IndexError "list assignment index out of range").
Proof. by vm_compute. Qed.

Example setitem_minus_1 :
  Py.list_setitem [0; 0; 0]%Z (-1) 1%Z = Ok [0; 0; 1]%Z.
Proof. by vm_compute. Qed.

(** Binary64 around the confidence peak: 1.0 at 10.0, below 1.0 at the
    doubles next to 10.0, and the floor 0.7 far away and at NaN. *)
Example confidence_at_10 : Binary64.confidence_heuristic 10 = 1%float.
Proof. by vm_compute. Qed.

Example confidence_next_above_10 :
  PrimFloat.ltb (Binary64.confidence_heuristic 0x1.4000000000001p+3) 1 = true.
Proof. by vm_compute. Qed.

Example confidence_next_below_10 :
  PrimFloat.ltb (Binary64.confidence_heuristic 0x1.3ffffffffffffp+3) 1 = true.
Proof. by vm_compute. Qed.

Example confidence_far : Binary64.confidence_heuristic 30 = 0x1.6666666666666p-1%float.
Proof. by vm_compute. Qed.

Example confidence_nan : Binary64.confidence_heuristic nan = 0x1.6666666666666p-1%float.
Proof. by vm_compute. Qed.

End Checks.

(** ** Built-ins *)

Section Builtins.
Local Open Scope R_scope.

Lemma Rleb_true (a b : R) : Py.Rleb a b = true <-> a <= b.
Proof. unfold Py.Rleb. destruct (Rle_dec a b); split; intros; try done. Qed.

Lemma Rleb_false (a b : R) : Py.Rleb a b = false <-> b < a.
Proof.
  unfold Py.Rleb. destruct (Rle_dec a b); split; intros; try done; lra.
Qed.

Lemma Rltb_true (a b : R) : Py.Rltb a b = true <-> a < b.
Proof. unfold Py.Rltb. destruct (Rlt_dec a b); split; intros; try done. Qed.

(** Python's two-argument [max] is the mathematical maximum. *)
Lemma max_Rmax (a b : R) : Py.max a b = Rmax a b.
Proof.
  unfold Py.max, Py.Rltb, Rmax.
  destruct (Rlt_dec a b), (Rle_dec a b); try reflexivity; lra.
Qed.

Lemma Rabs_le_inv (a b : R) : Rabs a <= b -> - b <= a <= b.
Proof. unfold Rabs. destruct (Rcase_abs a); lra. Qed.

(** [x % y] lies in [[0, y)] for a positive [y]. *)
Lemma mod_range (x y : R) : 0 < y -> 0 <= Py.mod_ x y < y.
Proof.
  intros Hy. unfold Py.mod_.
  destruct (Zfloor_bound (x / y)) as [Hlo Hhi].
  assert (Hx : x = x / y * y) by (field; lra).
  split.
  - apply (Rmult_le_compat_r y) in Hlo; [|lra]. lra.
  - apply (Rmult_lt_compat_r y) in Hhi; [|lra]. lra.
Qed.

Lemma int_nonneg (x : R) : 0 <= x -> Py.int x = Zfloor x.
Proof. intros H. unfold Py.int. by apply Rleb_true in H as ->. Qed.

Lemma Zfloor_range (x : R) (n : Z) :
  0 <= x < IZR n -> (0 <= Zfloor x < n)%Z.
Proof.
  intros [Hlo Hhi]. split.
  - by apply Zfloor_lub.
  - apply lt_IZR. destruct (Zfloor_bound x). lra.
Qed.

End Builtins.

(** ** Binary64 rounding *)

Section Rounding.
Local Open Scope R_scope.

Lemma ln2_pos : 0 < ln 2.
Proof. pose proof ln_lt_2. lra. Qed.

Lemma bpow_pos (e : Z) : 0 < powerRZ 2 e.
Proof. apply powerRZ_lt. lra. Qed.

Lemma bpow_exp (e : Z) : powerRZ 2 e = exp (IZR e * ln 2).
Proof. rewrite powerRZ_Rpower by lra. reflexivity. Qed.

Lemma bpow_le (a b : Z) : (a <= b)%Z -> powerRZ 2 a <= powerRZ 2 b.
Proof.
  intros H. rewrite !bpow_exp.
  destruct (Z.eq_dec a b) as [->|Hne]; [lra|].
  left. apply exp_increasing. apply Rmult_lt_compat_r; [apply ln2_pos|].
  apply IZR_lt. lia.
Qed.

Lemma bpow_add (a b : Z) : powerRZ 2 (a + b) = powerRZ 2 a * powerRZ 2 b.
Proof. apply powerRZ_add. lra. Qed.

Lemma bpow_IZR (e : Z) : (0 <= e)%Z -> powerRZ 2 e = IZR (2 ^ e).
Proof.
  intros He. destruct e as [|p|p]; [done| |lia].
  unfold powerRZ. rewrite pow_IZR. by rewrite positive_nat_Z.
Qed.

(** The binade of [x]. *)
Lemma exponent_bound (x : R) :
  x <> 0 ->
  powerRZ 2 (Py.exponent x) <= Rabs x < powerRZ 2 (Py.exponent x + 1).
Proof.
  intros Hx. assert (Hpos : 0 < Rabs x) by (by apply Rabs_pos_lt).
  unfold Py.exponent. set (l := ln (Rabs x) / ln 2).
  destruct (Zfloor_bound l) as [Hlo Hhi].
  assert (Hl : ln (Rabs x) = l * ln 2).
  { unfold l. field. pose proof ln2_pos. lra. }
  assert (Hr : Rabs x = exp (l * ln 2)) by (by rewrite <- Hl, exp_ln).
  clearbody l. rewrite !bpow_exp, plus_IZR, Hr. pose proof ln2_pos as H2. split.
  - destruct Hlo as [Hlo| ->]; [|lra]. left. apply exp_increasing. nra.
  - apply exp_increasing. nra.
Qed.

Lemma exponent_eq (x : R) (e : Z) :
  powerRZ 2 e <= Rabs x < powerRZ 2 (e + 1) -> Py.exponent x = e.
Proof.
  intros [Hlo Hhi]. pose proof (bpow_pos e) as Hp.
  assert (Hpos : 0 < Rabs x) by lra.
  unfold Py.exponent. apply Zfloor_eq. pose proof ln2_pos as H2.
  assert (Hle : IZR e * ln 2 <= ln (Rabs x)).
  { destruct Hlo as [Hlo|Hlo].
    - left. apply exp_lt_inv. rewrite <- bpow_exp, exp_ln; done.
    - right. rewrite <- Hlo, bpow_exp, ln_exp. done. }
  assert (Hlt : ln (Rabs x) < (IZR e + 1) * ln 2).
  { apply exp_lt_inv. rewrite <- plus_IZR, <- bpow_exp, exp_ln; done. }
  split.
  - apply (Rmult_le_reg_r (ln 2)); [done|].
    replace (ln (Rabs x) / ln 2 * ln 2) with (ln (Rabs x)) by (field; lra). done.
  - apply (Rmult_lt_reg_r (ln 2)); [done|].
    replace (ln (Rabs x) / ln 2 * ln 2) with (ln (Rabs x)) by (field; lra). done.
Qed.

Lemma rne_IZR (n : Z) : Py.rne (IZR n) = n.
Proof.
  unfold Py.rne. rewrite ZfloorZ. unfold Py.Rltb.
  destruct (Rlt_dec _ _); [done|lra].
Qed.

Lemma rne_down (m : R) (n : Z) : IZR n <= m < IZR n + 1 / 2 -> Py.rne m = n.
Proof.
  intros H. unfold Py.rne. rewrite (Zfloor_eq n) by lra.
  unfold Py.Rltb. destruct (Rlt_dec _ _); [done|lra].
Qed.

Lemma rne_up (m : R) (n : Z) : IZR n + 1 / 2 < m < IZR n + 1 -> Py.rne m = (n + 1)%Z.
Proof.
  intros H. unfold Py.rne. rewrite (Zfloor_eq n) by lra.
  unfold Py.Rltb. destruct (Rlt_dec _ _); [lra|]. destruct (Rlt_dec _ _); [done|lra].
Qed.

Lemma round64_eval (x : R) (e n : Z) :
  (-1022 <= e)%Z ->
  powerRZ 2 e <= Rabs x < powerRZ 2 (e + 1) ->
  Py.rne (x / powerRZ 2 (e - 52)) = n ->
  Py.round64 x = IZR n * powerRZ 2 (e - 52).
Proof.
  intros He Hx Hn. unfold Py.round64, Py.ulp.
  rewrite (exponent_eq x e Hx), Z.max_l by lia. by rewrite Hn.
Qed.


Lemma rne_bounds (m : R) : (Zfloor m <= Py.rne m <= Zfloor m + 1)%Z.
Proof.
  unfold Py.rne. destruct (Py.Rltb _ _); [lia|].
  destruct (Py.Rltb _ _); [lia|]. destruct (Z.even _); lia.
Qed.

Lemma rne_le (a b : R) : a <= b -> (Py.rne a <= Py.rne b)%Z.
Proof.
  intros Hab. pose proof (Zfloor_le a b Hab) as Hf.
  destruct (Z.eq_dec (Zfloor a) (Zfloor b)) as [Heq|Hne].
  - unfold Py.rne, Py.Rltb. rewrite <- Heq.
    repeat destruct (Rlt_dec _ _); try lia; try lra; destruct (Z.even _); lia.
  - pose proof (rne_bounds a). pose proof (rne_bounds b). lia.
Qed.

Lemma rne_error (m : R) : Rabs (IZR (Py.rne m) - m) <= 1 / 2.
Proof.
  destruct (Zfloor_bound m) as [Hlo Hhi].
  unfold Py.rne, Py.Rltb.
  repeat destruct (Rlt_dec _ _); try destruct (Z.even _);
    rewrite ?plus_IZR; unfold Rabs; destruct (Rcase_abs _); lra.
Qed.

Lemma rne_opp (m : R) : Py.rne (- m) = (- Py.rne m)%Z.
Proof.
  destruct (Zfloor_bound m) as [Hlo Hhi]. set (n := Zfloor m) in *.
  destruct (Req_dec m (IZR n)) as [Hm|Hm].
  - rewrite Hm, <- opp_IZR, !rne_IZR. done.
  - assert (Hf : Zfloor (- m) = (- n - 1)%Z).
    { apply Zfloor_eq. rewrite minus_IZR, opp_IZR. lra. }
    unfold Py.rne, Py.Rltb. rewrite Hf. fold n.
    rewrite minus_IZR, opp_IZR.
    replace (Z.even (- n - 1)) with (negb (Z.even n)).
    2:{ replace (- n - 1)%Z with (- (n + 1))%Z by lia.
        rewrite Z.even_opp, Z.even_add. by destruct (Z.even n). }
    repeat destruct (Rlt_dec _ _); try lra; try lia; destruct (Z.even n); cbn; lia.
Qed.

Lemma exponent_opp (x : R) : Py.exponent (- x) = Py.exponent x.
Proof. unfold Py.exponent. by rewrite Rabs_Ropp. Qed.

Lemma ulp_pos (x : R) : 0 < Py.ulp x.
Proof. apply bpow_pos. Qed.

Lemma round64_opp (x : R) : Py.round64 (- x) = - Py.round64 x.
Proof.
  unfold Py.round64, Py.ulp. rewrite exponent_opp.
  set (u := powerRZ 2 _).
  replace (- x / u) with (- (x / u)) by (field; pose proof (bpow_pos (Z.max (Py.exponent x) (-1022) - 52)); fold u in H; lra).
  rewrite rne_opp, opp_IZR. lra.
Qed.

Lemma round64_0 : Py.round64 0 = 0.
Proof.
  unfold Py.round64. replace (0 / Py.ulp 0) with (IZR 0) by (unfold Rdiv; lra).
  rewrite rne_IZR. lra.
Qed.

Lemma exponent_le (x y : R) : 0 < x -> x <= y -> (Py.exponent x <= Py.exponent y)%Z.
Proof.
  intros Hx Hxy. unfold Py.exponent. apply Zfloor_le.
  rewrite !Rabs_pos_eq by lra. pose proof ln2_pos.
  apply Rmult_le_compat_r; [left; by apply Rinv_0_lt_compat|].
  destruct Hxy as [Hxy| ->]; [|lra]. left. by apply ln_increasing.
Qed.

(** The rounding error is at most half a spacing. *)
Lemma round64_error (x : R) : Rabs (Py.round64 x - x) <= Py.ulp x / 2.
Proof.
  unfold Py.round64. pose proof (ulp_pos x) as Hu. set (u := Py.ulp x) in *.
  pose proof (rne_error (x / u)) as He.
  replace (IZR (Py.rne (x / u)) * u - x) with ((IZR (Py.rne (x / u)) - x / u) * u)
    by (field; lra).
  rewrite Rabs_mult, (Rabs_pos_eq u) by lra. nra.
Qed.

(** A positive [x] rounds within its binade, bounds included. *)
Lemma round64_binade (x : R) :
  0 < x ->
  let E := Z.max (Py.exponent x) (-1022) in
  0 <= Py.round64 x <= powerRZ 2 (E + 1)
  /\ ((-1022 <= Py.exponent x)%Z -> powerRZ 2 E <= Py.round64 x).
Proof.
  intros Hx E. pose proof (exponent_bound x ltac:(lra)) as [Hlo Hhi].
  rewrite Rabs_pos_eq in Hlo, Hhi by lra.
  unfold Py.round64, Py.ulp. fold E. set (u := powerRZ 2 (E - 52)).
  assert (Hu : 0 < u) by apply bpow_pos.
  assert (Hhi' : x <= powerRZ 2 (E + 1)).
  { left. eapply Rlt_le_trans; [exact Hhi|]. apply bpow_le. lia. }
  assert (H53 : powerRZ 2 (E + 1) = IZR (2 ^ 53) * u).
  { unfold u. rewrite <- bpow_IZR, <- bpow_add by lia. f_equal. lia. }
  assert (H52 : powerRZ 2 E = IZR (2 ^ 52) * u).
  { unfold u. rewrite <- bpow_IZR, <- bpow_add by lia. f_equal. lia. }
  split; [split|].
  - apply Rmult_le_pos; [|lra]. apply IZR_le.
    rewrite <- (rne_IZR 0). apply rne_le. apply Rmult_le_pos; [lra|].
    left. by apply Rinv_0_lt_compat.
  - rewrite H53. apply Rmult_le_compat_r; [lra|]. apply IZR_le.
    rewrite <- (rne_IZR (2 ^ 53)). apply rne_le.
    apply (Rmult_le_reg_r u); [done|].
    replace (x / u * u) with x by (field; lra). lra.
  - intros He. rewrite H52. apply Rmult_le_compat_r; [lra|]. apply IZR_le.
    rewrite <- (rne_IZR (2 ^ 52)). apply rne_le.
    apply (Rmult_le_reg_r u); [done|].
    replace (x / u * u) with x by (field; lra).
    rewrite <- H52. unfold E. rewrite Z.max_l by lia. done.
Qed.

Lemma round64_le_pos (x y : R) : 0 < x -> x <= y -> Py.round64 x <= Py.round64 y.
Proof.
  intros Hx Hxy. pose proof (exponent_le x y Hx Hxy) as He.
  destruct (round64_binade x Hx) as [[_ Hxhi] _].
  destruct (round64_binade y ltac:(lra)) as [_ Hylo].
  destruct (Z.eq_dec (Z.max (Py.exponent x) (-1022)) (Z.max (Py.exponent y) (-1022)))
    as [Heq|Hne].
  - unfold Py.round64, Py.ulp. rewrite Heq.
    set (u := powerRZ 2 _). assert (Hu : 0 < u) by apply bpow_pos.
    apply Rmult_le_compat_r; [lra|]. apply IZR_le, rne_le.
    apply Rmult_le_compat_r; [|done]. left. by apply Rinv_0_lt_compat.
  - cbv zeta in *. etransitivity; [exact Hxhi|].
    etransitivity; [|apply Hylo; lia]. apply bpow_le. lia.
Qed.

(** Rounding is monotone. *)
Lemma round64_le (x y : R) : x <= y -> Py.round64 x <= Py.round64 y.
Proof.
  intros Hxy.
  assert (Hnonneg : forall z, 0 <= z -> 0 <= Py.round64 z).
  { intros z [Hz| <-]; [|rewrite round64_0; lra].
    by destruct (round64_binade z Hz) as [[? _] _]. }
  destruct (Rlt_dec 0 x) as [Hx|Hx].
  - by apply round64_le_pos.
  - destruct (Rlt_dec y 0) as [Hy|Hy].
    + apply Ropp_le_cancel. rewrite <- !round64_opp.
      apply round64_le_pos; lra.
    + pose proof (Hnonneg y ltac:(lra)).
      assert (Py.round64 x <= 0); [|lra].
      apply Ropp_le_cancel. rewrite <- round64_opp, Ropp_0.
      apply Hnonneg. lra.
Qed.

(** A double rounds to itself. *)
Lemma round64_representable (m j : Z) :
  (Z.abs m < 2 ^ 53)%Z -> (-1074 <= j)%Z ->
  Py.round64 (IZR m * powerRZ 2 j) = IZR m * powerRZ 2 j.
Proof.
  intros Hm Hj. destruct (Z.eq_dec m 0%Z) as [->|Hm0].
  { rewrite Rmult_0_l. apply round64_0. }
  set (x := IZR m * powerRZ 2 j).
  assert (Hx : x <> 0).
  { unfold x. apply Rmult_integral_contrapositive. split.
    - by apply not_0_IZR.
    - pose proof (bpow_pos j). lra. }
  pose proof (exponent_bound x Hx) as [Hlo _].
  assert (Habs : Rabs x < powerRZ 2 (53 + j)).
  { unfold x. rewrite Rabs_mult, (Rabs_pos_eq (powerRZ 2 j)) by (left; apply bpow_pos).
    rewrite bpow_add, <- abs_IZR, (bpow_IZR 53) by lia.
    apply Rmult_lt_compat_r; [apply bpow_pos|]. by apply IZR_lt. }
  assert (He : (Py.exponent x < 53 + j)%Z).
  { destruct (Z_lt_le_dec (Py.exponent x) (53 + j)) as [|Hge]; [done|].
    pose proof (bpow_le _ _ Hge). lra. }
  unfold Py.round64, Py.ulp.
  set (k := (Z.max (Py.exponent x) (-1022) - 52)%Z).
  assert (Hk : (k <= j)%Z) by lia.
  assert (Hdiv : x / powerRZ 2 k = IZR (m * 2 ^ (j - k))).
  { unfold x. rewrite mult_IZR, <- bpow_IZR by lia.
    replace j with ((j - k) + k)%Z at 1 by lia. rewrite bpow_add.
    field. pose proof (bpow_pos k). lra. }
  rewrite Hdiv, rne_IZR, <- Hdiv. field. pose proof (bpow_pos k). lra.
Qed.

Lemma round64_IZR (m : Z) : (Z.abs m < 2 ^ 53)%Z -> Py.round64 (IZR m) = IZR m.
Proof.
  intros Hm. pose proof (round64_representable m 0 Hm ltac:(lia)) as H.
  by rewrite powerRZ_O, Rmult_1_r in H.
Qed.

(** The rounding error of an [x] below [2^k]. *)
Lemma round64_error_le (x : R) (k : Z) :
  (-1021 <= k)%Z -> Rabs x < powerRZ 2 k ->
  Rabs (Py.round64 x - x) <= powerRZ 2 (k - 54).
Proof.
  intros Hk Hx. destruct (Req_dec x 0) as [->|Hx0].
  { rewrite round64_0, Rminus_0_r, Rabs_R0. left. apply bpow_pos. }
  pose proof (exponent_bound x Hx0) as [Hlo _].
  assert (He : (Py.exponent x < k)%Z).
  { destruct (Z_lt_le_dec (Py.exponent x) k) as [|Hge]; [done|].
    pose proof (bpow_le _ _ Hge). lra. }
  pose proof (round64_error x) as Herr.
  assert (Hu : Py.ulp x <= powerRZ 2 (k - 53)) by (apply bpow_le; lia).
  replace (k - 53)%Z with (1 + (k - 54))%Z in Hu by lia.
  rewrite bpow_add in Hu. change (powerRZ 2 1) with (2 * 1) in Hu. lra.
Qed.

(** The value a rounding returns is a double: rounding it again
    changes nothing. *)
Lemma round64_idem (x : R) : Py.round64 (Py.round64 x) = Py.round64 x.
Proof.
  assert (Hpos : forall y, 0 < y -> Py.round64 (Py.round64 y) = Py.round64 y).
  { intros y Hy. destruct (round64_binade y Hy) as [[Hlo Hhi] _].
    cbv zeta in Hhi. unfold Py.round64 at 2 3. unfold Py.round64 in Hlo, Hhi.
    unfold Py.ulp in *. set (E := Z.max (Py.exponent y) (-1022)) in *.
    set (n := Py.rne (y / powerRZ 2 (E - 52))) in *.
    pose proof (bpow_pos (E - 52)) as Hu.
    assert (H53 : powerRZ 2 (E + 1) = IZR (2 ^ 53) * powerRZ 2 (E - 52)).
    { rewrite <- bpow_IZR, <- bpow_add by lia. f_equal. lia. }
    assert (Hn : (0 <= n <= 2 ^ 53)%Z).
    { split; apply le_IZR; nra. }
    destruct (Z.eq_dec n (2 ^ 53)%Z) as [Hn53|Hne].
    - rewrite Hn53, <- H53. rewrite <- (Rmult_1_l (powerRZ 2 (E + 1))).
      apply (round64_representable 1); lia.
    - apply round64_representable; lia. }
  destruct (Rlt_dec 0 x) as [Hx|Hx]; [by apply Hpos|].
  destruct (Req_dec x 0) as [->|Hx0]; [by rewrite !round64_0|].
  apply Ropp_eq_reg. rewrite <- !round64_opp. apply Hpos. lra.
Qed.

Lemma bpow_neg (p : positive) : powerRZ 2 (Z.neg p) = / IZR (2 ^ Z.pos p).
Proof. unfold powerRZ. by rewrite pow_IZR, positive_nat_Z. Qed.

Lemma rne_tie (n : Z) :
  Py.rne (IZR n + 1 / 2) = if Z.even n then n else (n + 1)%Z.
Proof.
  unfold Py.rne. rewrite (Zfloor_eq n) by lra. unfold Py.Rltb.
  destruct (Rlt_dec _ _); [lra|]. destruct (Rlt_dec _ _); [lra|]. done.
Qed.

(** A result of moderate size does not overflow. *)
Lemma overflows_small (x : R) : Rabs x <= 1000 -> Py.overflows x = false.
Proof.
  intros Hx. unfold Py.overflows. apply Rleb_false.
  eapply Rle_lt_trans; [exact Hx|]. by apply IZR_lt.
Qed.

Lemma of_real_finite (x : R) :
  Rabs x <= 1000 -> Py.of_real x = Py.Finite (Py.round64 x).
Proof. intros Hx. unfold Py.of_real. by rewrite overflows_small. Qed.

(** Rounding keeps a value between two integers that are doubles. *)
Lemma round64_between (x : R) (lo hi : Z) :
  (Z.abs lo < 2 ^ 53)%Z -> (Z.abs hi < 2 ^ 53)%Z ->
  IZR lo <= x <= IZR hi -> IZR lo <= Py.round64 x <= IZR hi.
Proof.
  intros Hlo Hhi [H1 H2].
  rewrite <- (round64_IZR lo Hlo), <- (round64_IZR hi Hhi).
  split; by apply round64_le.
Qed.

(** Every rounding of a value below 256 is off by less than 1e-8. *)
Lemma round64_close (x : R) :
  Rabs x <= 200 -> Rabs (Py.round64 x - x) <= / 100000000.
Proof.
  intros Hx. pose proof (round64_error_le x 8 ltac:(lia)) as Herr.
  rewrite bpow_IZR in Herr by lia. change (IZR (2 ^ 8)) with 256 in Herr.
  specialize (Herr ltac:(lra)).
  assert (Hsmall : powerRZ 2 (8 - 54) <= / IZR (2 ^ 27)).
  { rewrite <- bpow_IZR by lia. rewrite <- powerRZ_neg'. apply bpow_le. lia. }
  change (IZR (2 ^ 27)) with 134217728 in Hsmall.
  assert (/ 134217728 <= / 100000000); [|lra].
  apply Rinv_le_contravar; lra.
Qed.

End Rounding.

(** ** Cluster bucket *)

Section Cluster.
Local Open Scope R_scope.

Lemma cluster_idx_floor (lat lon : R) :
  cluster_idx lat lon = Zfloor (Py.mod_ (Py.round64 (Rabs lat + Rabs lon)) 50).
Proof.
  unfold cluster_idx. apply int_nonneg.
  apply (mod_range (Py.round64 (Rabs lat + Rabs lon)) 50). lra.
Qed.

Lemma cluster_idx_range (lat lon : R) : (0 <= cluster_idx lat lon < 50)%Z.
Proof.
  rewrite cluster_idx_floor. apply Zfloor_range.
  apply (mod_range (Py.round64 (Rabs lat + Rabs lon)) 50). lra.
Qed.

(** The floor of a remainder by 50 is the integer part reduced modulo 50. *)
Lemma floor_mod_50 (x : R) :
  Zfloor (x - 50 * IZR (Zfloor (x / 50))) = (Zfloor x mod 50)%Z.
Proof.
  set (q := Zfloor (x / 50)).
  assert (Hq : 50 * IZR q <= x < 50 * IZR q + 50).
  { destruct (Zfloor_bound (x / 50)) as [Hlo Hhi]. fold q in Hlo, Hhi.
    replace x with (x / 50 * 50) at 2 3 by field. lra. }
  destruct (Zfloor_bound x) as [Hlo Hhi].
  assert (Hfl : Zfloor (x - 50 * IZR q) = (Zfloor x - 50 * q)%Z).
  { apply Zfloor_eq. rewrite minus_IZR, mult_IZR. lra. }
  rewrite Hfl. apply (Z.mod_unique _ _ q); [|lia]. left. split.
  - assert (50 * q <= Zfloor x)%Z; [|lia].
    apply Zfloor_lub. rewrite mult_IZR. lra.
  - assert (Zfloor x < 50 * q + 50)%Z; [|lia].
    apply lt_IZR. rewrite plus_IZR, mult_IZR. lra.
Qed.

(** Validated coordinates are far from overflowing. *)
Lemma valid_sum_is_finite (lat lon : R) :
  -90 <= lat <= 90 -> -180 <= lon <= 180 ->
  Py.overflows (Rabs lat + Rabs lon) = false.
Proof.
  intros Hlat Hlon. apply overflows_small.
  assert (Rabs lat <= 90) by (apply Rabs_le; lra).
  assert (Rabs lon <= 180) by (apply Rabs_le; lra).
  pose proof (Rabs_pos lat). pose proof (Rabs_pos lon).
  rewrite Rabs_pos_eq; lra.
Qed.

Lemma list_setitem_in_range {A : Type} (l : list A) (i : Z) (v : A) :
  (0 <= i < Z.of_nat (length l))%Z ->
  Py.list_setitem l i v = Ok (<[Z.to_nat i := v]> l).
Proof. intros H. unfold Py.list_setitem. by rewrite bool_decide_eq_true_2. Qed.

Lemma list_setitem_raises {A : Type} (l : list A) (i : Z) (v : A) :
  (i < - Z.of_nat (length l) \/ Z.of_nat (length l) <= i)%Z ->
  Py.list_setitem l i v = Raise (IndexError "list assignment index out of range").
Proof.
  intros H. unfold Py.list_setitem.
  rewrite !bool_decide_eq_false_2; [done | lia | lia].
Qed.

Lemma one_hot_lookup (n k j : nat) :
  (k < n)%nat -> (j < n)%nat ->
  (<[k := 1%Z]> (replicate n 0%Z)) !! j = Some (if decide (j = k) then 1%Z else 0%Z).
Proof.
  intros Hk Hj. destruct (decide (j = k)) as [->|Hne].
  - apply list_lookup_insert_eq. by rewrite length_replicate.
  - rewrite list_lookup_insert_ne by done. by apply lookup_replicate_2.
Qed.

Lemma Rsum_cons (x : R) (l : list R) : Rsum (x :: l) = x + Rsum l.
Proof. reflexivity. Qed.

Lemma Rsum_zeros (n : nat) : Rsum (IZR <$> replicate n 0%Z) = 0.
Proof.
  induction n as [|n IH]; [done|].
  change (Rsum (0 :: (IZR <$> replicate n 0%Z)) = 0).
  rewrite Rsum_cons, IH. lra.
Qed.

Lemma one_hot_sum (n k : nat) :
  (k < n)%nat -> Rsum ((IZR <$> <[k := 1%Z]> (replicate n 0%Z))) = 1.
Proof.
  revert k. induction n as [|n IH]; intros k Hk; [lia|].
  destruct k as [|k].
  - change (Rsum (1 :: (IZR <$> replicate n 0%Z)) = 1).
    rewrite Rsum_cons, Rsum_zeros. lra.
  - change (Rsum (0 :: (IZR <$> <[k := 1%Z]> (replicate n 0%Z))) = 1).
    rewrite Rsum_cons, IH by lia. lra.
Qed.

End Cluster.

(** ** Feature synthesis *)

Section FeatureSynthesis.
Local Open Scope R_scope.
Import Datetime.

(** The 15 named features, in training-time column order. *)
Lemma prepare_features_ok (lat lon : R) (s : string) (d : datetime) :
  Py.overflows (Rabs lat + Rabs lon) = false ->
  strptime s = Ok d ->
  prepare_features lat lon s =
    Ok [ [ lat; lon; doy_sin d; doy_cos d; month_sin d; month_cos d;
           IZR (year d); year_sin d; year_cos d;
           IZR (is_summer (month d)); IZR (is_winter (month d));
           IZR (is_spring (month d));
           spatial_lag_mean; prev_measurement_mean; prev_year_measurement_mean ]
         ++ (IZR <$> <[Z.to_nat (cluster_idx lat lon) := 1%Z]> (replicate 50 0%Z)) ].
Proof.
  intros Hfin Hs. unfold prepare_features, cluster_assignment.
  rewrite Hs, Hfin. cbn [mbind exc_bind].
  rewrite list_setitem_in_range
    by (rewrite length_replicate; pose proof (cluster_idx_range lat lon); lia).
  cbn [mbind exc_bind mret exc_ret np_array fmap list_fmap app Py.to_float].
  by rewrite <- list_fmap_compose.
Qed.

Lemma prepare_features_valid (lat lon : R) (s : string) (d : datetime) :
  -90 <= lat <= 90 -> -180 <= lon <= 180 ->
  strptime s = Ok d ->
  prepare_features lat lon s =
    Ok [ [ lat; lon; doy_sin d; doy_cos d; month_sin d; month_cos d;
           IZR (year d); year_sin d; year_cos d;
           IZR (is_summer (month d)); IZR (is_winter (month d));
           IZR (is_spring (month d));
           spatial_lag_mean; prev_measurement_mean; prev_year_measurement_mean ]
         ++ (IZR <$> <[Z.to_nat (cluster_idx lat lon) := 1%Z]> (replicate 50 0%Z)) ].
Proof.
  intros Hlat Hlon. apply prepare_features_ok. by apply valid_sum_is_finite.
Qed.

Lemma prepare_features_inv (lat lon : R) (s : string) (X : list (list R)) :
  prepare_features lat lon s = Ok X ->
  Py.overflows (Rabs lat + Rabs lon) = false /\ exists d, strptime s = Ok d.
Proof.
  unfold prepare_features, cluster_assignment.
  destruct (strptime s) as [d|e]; [|done]. cbn [mbind exc_bind].
  destruct (Py.overflows _); [done|eauto].
Qed.

(** A sum of coordinates that overflows ends feature synthesis. *)
Lemma prepare_features_overflow (lat lon : R) (s : string) (d : datetime) :
  Py.overflows (Rabs lat + Rabs lon) = true ->
  strptime s = Ok d ->
  prepare_features lat lon s
  = Raise (ValueError "cannot convert float NaN to integer").
Proof.
  intros Hinf Hs. unfold prepare_features, cluster_assignment.
  by rewrite Hs, Hinf.
Qed.

End FeatureSynthesis.

(** ** Input validation *)

Section Validation.
Local Open Scope R_scope.

Lemma validate_latitude_ok (v : R) :
  -90 <= v <= 90 -> validate_latitude v = Ok v.
Proof.
  intros [H1 H2]. unfold validate_latitude.
  apply Rleb_true in H1, H2. by rewrite H1, H2.
Qed.

Lemma validate_latitude_raises (v : R) :
  v < -90 \/ 90 < v ->
  validate_latitude v = Raise (ValueError "Latitude must be between -90 and 90").
Proof.
  intros H. unfold validate_latitude.
  destruct H as [H|H]; apply Rleb_false in H; rewrite H; [done|].
  by rewrite andb_false_r.
Qed.

Lemma validate_longitude_ok (v : R) :
  -180 <= v <= 180 -> validate_longitude v = Ok v.
Proof.
  intros [H1 H2]. unfold validate_longitude.
  apply Rleb_true in H1, H2. by rewrite H1, H2.
Qed.

Lemma validate_longitude_raises (v : R) :
  v < -180 \/ 180 < v ->
  validate_longitude v = Raise (ValueError "Longitude must be between -180 and 180").
Proof.
  intros H. unfold validate_longitude.
  destruct H as [H|H]; apply Rleb_false in H; rewrite H; [done|].
  by rewrite andb_false_r.
Qed.

Lemma strptime_raises_ValueError (s : string) (e : exn) :
  Datetime.strptime s = Raise e -> exists msg, e = ValueError msg.
Proof.
  unfold Datetime.strptime.
  destruct (Datetime.format_regex_match s) as [[[[y m] d] rest]|];
    repeat case_bool_decide; intros [= <-]; eauto.
Qed.

Lemma validate_date_format_ok (s : string) (d : Datetime.datetime) :
  Datetime.strptime s = Ok d -> validate_date_format s = Ok s.
Proof. intros H. unfold validate_date_format. by rewrite H. Qed.

Lemma validate_date_format_raises (s : string) :
  is_ok (Datetime.strptime s) = false ->
  validate_date_format s = Raise (ValueError "Date must be in YYYY-MM-DD format").
Proof.
  unfold validate_date_format.
  destruct (Datetime.strptime s) as [d|e] eqn:Hs; [done|]. intros _.
  by destruct (strptime_raises_ValueError _ _ Hs) as [msg ->].
Qed.

(** A [PredictionInput] exists exactly for in-range coordinates and a
    date that [strptime] parses, and it holds the values it was given. *)
Lemma PredictionInput_init_inr (lat lon : R) (s : string) (i : PredictionInput) :
  PredictionInput_init lat lon s = inr i <->
  (-90 <= lat <= 90 /\ -180 <= lon <= 180
   /\ is_ok (Datetime.strptime s) = true
   /\ i = {| latitude := lat; longitude := lon; date := s |}).
Proof.
  unfold PredictionInput_init. split.
  - destruct (Rle_dec (-90) lat), (Rle_dec lat 90);
      try (rewrite validate_latitude_raises by lra; done).
    rewrite validate_latitude_ok by lra.
    destruct (Rle_dec (-180) lon), (Rle_dec lon 180);
      try (rewrite validate_longitude_raises by lra; done).
    rewrite validate_longitude_ok by lra.
    destruct (Datetime.strptime s) as [d|e] eqn:Hs.
    + rewrite (validate_date_format_ok _ _ Hs). intros [= <-]. simpl. done.
    + rewrite validate_date_format_raises by (by rewrite Hs). done.
  - intros (Hlat & Hlon & Hs & ->).
    rewrite validate_latitude_ok, validate_longitude_ok by done.
    destruct (Datetime.strptime s) as [d|e] eqn:Hd; [|done].
    by rewrite (validate_date_format_ok _ _ Hd).
Qed.

End Validation.

(** ** The [predict] route *)

Section Predict.
Local Open Scope R_scope.

Ltac run :=
  cbv [mbind M_bind mret M_ret exc_bind exc_ret lift emit raise try_except
       logger_info logger_error scaler_transform model_predict model_of].

(** The value of the [try] block: the stages in sequence. *)
Lemma predict_body_result (A : Artifacts) (i : PredictionInput) (tr : trace) :
  fst (predict_body A i tr) =
    (X ← prepare_features (latitude i) (longitude i) (date i);
     Xs ← scaler A X;
     a ← first_output (best_xgb A) Xs;
     b ← first_output (stacking_model A) Xs;
     c ← blend A a b;
     r ← first_output (residual_model A) Xs;
     mret {| prediction := c + r;
             confidence := confidence_heuristic (c + r);
             units := "meters below ground level" |}).
Proof.
  unfold predict_body, first_output, blend. run.
  destruct (prepare_features _ _ _) as [X|e]; [|done].
  destruct (scaler A X) as [Xs|e]; [|done].
  destruct (best_xgb A Xs) as [p|e]; [|done].
  destruct (Py.getitem p 0) as [a|e]; [|done].
  destruct (stacking_model A Xs) as [q|e]; [|done].
  destruct (Py.getitem q 0) as [b|e]; [|done].
  destruct (Py.dict_getitem _ "xgb_weight") as [w0|e]; [|done].
  destruct (Py.dict_getitem _ "stacking_weight") as [w1|e]; [|done].
  destruct (weighted_ensemble_predictions a b _) as [c|e]; [|done].
  destruct (residual_model A Xs) as [p'|e]; [|done].
  destruct (Py.getitem p' 0) as [r|e]; done.
Qed.

(** The [except] clause turns whatever the body raised into a 500. *)
Lemma predict_result (A : Artifacts) (i : PredictionInput) (tr : trace) :
  fst (predict A i tr) =
    match fst (predict_body A i tr) with
    | Ok out => Ok out
    | Raise e => Raise (HTTPException 500 ("Prediction error: " +:+ Py.str e))
    end.
Proof.
  unfold predict. run. by destruct (predict_body A i tr) as [[out|e] tr'].
Qed.

Lemma predict_body_raises (A : Artifacts) (i : PredictionInput) (tr : trace) (e : exn) :
  stage_raises A i e -> fst (predict_body A i tr) = Raise e.
Proof.
  intros H. rewrite predict_body_result.
  destruct H as [H1|X H1 H2|X Xs H1 H2 H3|X Xs a H1 H2 H3 H4
                |X Xs a b H1 H2 H3 H4 H5|X Xs a b c H1 H2 H3 H4 H5 H6];
    rewrite H1; cbn [mbind exc_bind]; try done;
    rewrite H2; cbn [mbind exc_bind]; try done;
    rewrite H3; cbn [mbind exc_bind]; try done;
    rewrite H4; cbn [mbind exc_bind]; try done;
    rewrite H5; cbn [mbind exc_bind]; try done;
    rewrite H6; cbn [mbind exc_bind]; done.
Qed.

Lemma predict_body_cases (A : Artifacts) (i : PredictionInput) (tr : trace) :
  (exists out, fst (predict_body A i tr) = Ok out /\ stages_return A i out)
  \/ (exists e, fst (predict_body A i tr) = Raise e /\ stage_raises A i e).
Proof.
  rewrite predict_body_result. unfold stages_return.
  destruct (prepare_features _ _ _) as [X|e] eqn:H1; cbn [mbind exc_bind];
    [|right; eauto using stage_raises].
  destruct (scaler A X) as [Xs|e] eqn:H2; cbn [mbind exc_bind];
    [|right; eauto using stage_raises].
  destruct (first_output (best_xgb A) Xs) as [a|e] eqn:H3; cbn [mbind exc_bind];
    [|right; eauto using stage_raises].
  destruct (first_output (stacking_model A) Xs) as [b|e] eqn:H4; cbn [mbind exc_bind];
    [|right; eauto using stage_raises].
  destruct (blend A a b) as [c|e] eqn:H5; cbn [mbind exc_bind];
    [|right; eauto using stage_raises].
  destruct (first_output (residual_model A) Xs) as [r|e] eqn:H6; cbn [mbind exc_bind];
    [|right; eauto using stage_raises].
  left. eexists. split; [reflexivity|]. exists X, Xs, a, b, c, r. done.
Qed.

Lemma predict_ok_inv (A : Artifacts) (i : PredictionInput) (tr : trace)
    (out : PredictionOutput) :
  fst (predict A i tr) = Ok out -> stages_return A i out.
Proof.
  rewrite predict_result.
  destruct (predict_body_cases A i tr) as [(out' & -> & H)|(e & -> & _)]; [|done].
  by intros [= <-].
Qed.

(** The blend is the plain linear combination of the two base outputs. *)
Lemma blend_ok_inv (A : Artifacts) (a b c : R) :
  blend A a b = Ok c ->
  exists w_xgb w_stacking,
    ensemble_weights A !! "xgb_weight" = Some w_xgb
    /\ ensemble_weights A !! "stacking_weight" = Some w_stacking
    /\ c = w_xgb * a + w_stacking * b.
Proof.
  unfold blend, Py.dict_getitem.
  destruct (ensemble_weights A !! "xgb_weight") as [w0|]; [|done].
  destruct (ensemble_weights A !! "stacking_weight") as [w1|]; [|done].
  cbn. intros [= <-]. eauto.
Qed.

(** *** The trace never feeds back into a result *)

Lemma oblivious_ret {A : Type} (a : A) : oblivious (mret a).
Proof. exists (Ok a), []. intros tr. by rewrite app_nil_r. Qed.

Lemma oblivious_lift {A : Type} (x : exc A) : oblivious (lift x).
Proof. exists x, []. intros tr. by rewrite app_nil_r. Qed.

Lemma oblivious_emit (ev : event) : oblivious (emit ev).
Proof. by exists (Ok tt), [ev]. Qed.

Lemma oblivious_bind {A B : Type} (m : M A) (k : A -> M B) :
  oblivious m -> (forall a, oblivious (k a)) -> oblivious (m ≫= k).
Proof.
  intros (r & evs & Hm) Hk. destruct r as [a|e].
  - destruct (Hk a) as (r' & evs' & Hka). exists r', (evs ++ evs').
    intros tr. unfold mbind, M_bind. by rewrite Hm, Hka, app_assoc.
  - exists (Raise e), evs. intros tr. unfold mbind, M_bind. by rewrite Hm.
Qed.

Lemma oblivious_try_except {A : Type} (m : M A) (h : exn -> M A) :
  oblivious m -> (forall e, oblivious (h e)) -> oblivious (try_except m h).
Proof.
  intros (r & evs & Hm) Hh. destruct r as [a|e].
  - exists (Ok a), evs. intros tr. unfold try_except. by rewrite Hm.
  - destruct (Hh e) as (r' & evs' & Hhe). exists r', (evs ++ evs').
    intros tr. unfold try_except. by rewrite Hm, Hhe, app_assoc.
Qed.

Create HintDb oblivious.
#[local] Hint Resolve oblivious_ret oblivious_lift oblivious_emit : oblivious.

Ltac oblivious :=
  repeat first
    [ apply oblivious_try_except; [|intros ?]
    | apply oblivious_bind; [|intros ?]
    | solve [auto with oblivious] ].

Lemma oblivious_predict (A : Artifacts) (i : PredictionInput) :
  oblivious (predict A i).
Proof.
  unfold predict, predict_body, scaler_transform, model_predict,
    logger_info, logger_error, raise.
  oblivious.
Qed.

(** The response of the route does not depend on what was done before. *)
Lemma handle_oblivious (A : Artifacts) (lat lon : R) (d : string) :
  exists resp evs, forall tr, handle A lat lon d tr = (resp, tr ++ evs).
Proof.
  unfold handle. destruct (PredictionInput_init lat lon d) as [errors|i].
  - exists (Response422 errors), []. intros tr. by rewrite app_nil_r.
  - destruct (oblivious_predict A i) as (r & evs & Hp).
    destruct r as [out|e].
    + exists (Response200 out), evs. intros tr. by rewrite Hp.
    + destruct e; eexists _, evs; intros tr; by rewrite Hp.
Qed.

End Predict.

(** ** Dates accepted by [strptime] *)

Section DatetimeFacts.
Import Datetime.
Local Open Scope Z_scope.

Lemma ascii_digit_range (c : ascii) (d : Z) : ascii_digit c = Some d -> 0 <= d <= 9.
Proof. unfold ascii_digit. case_bool_decide; intros [= <-]; lia. Qed.

Lemma re_alt_Some {A : Type} (x y : option A) (r : A) :
  re_alt x y = Some r -> x = Some r \/ y = Some r.
Proof. destruct x; simpl; auto. Qed.

Lemma re_digit_Some {A : Type} (lo hi : Z) (s : string)
    (k : Z -> string -> option A) (r : A) :
  re_digit lo hi s k = Some r ->
  exists d s', lo <= d <= hi /\ 0 <= d <= 9 /\ k d s' = Some r.
Proof.
  destruct s as [|c s']; [done|]. simpl.
  destruct (ascii_digit c) as [d|] eqn:Hd; [|done].
  case_bool_decide; [|done]. intros Hk.
  exists d, s'. eauto using ascii_digit_range.
Qed.

Lemma decimal_range (c d : Z) : decimal c = Some d -> 0 <= d <= 9.
Proof.
  unfold decimal.
  destruct (List.find _ decimal_zeros) as [zero|] eqn:Hf; [|done].
  apply List.find_some in Hf as [_ Hz]. apply bool_decide_eq_true in Hz.
  intros [= <-]. lia.
Qed.

Lemma re_decimal_Some {A : Type} (s : string)
    (k : Z -> string -> option A) (r : A) :
  re_decimal s k = Some r -> exists d s', 0 <= d <= 9 /\ k d s' = Some r.
Proof.
  unfold re_decimal. destruct (first_char s) as [[c s']|]; [|done].
  destruct (decimal c) as [d|] eqn:Hd; [|done]. intros Hk.
  exists d, s'. eauto using decimal_range.
Qed.

Lemma re_char_Some {A : Type} (c : ascii) (s : string)
    (k : string -> option A) (r : A) :
  re_char c s k = Some r -> exists s', s = String c s' /\ k s' = Some r.
Proof.
  destruct s as [|c' s']; [done|]. simpl.
  case_bool_decide; [|done]. subst. eauto.
Qed.

Lemma re_digit2_Some {A : Type} (a b lo hi : Z) (s : string)
    (k : Z -> string -> option A) (r : A) :
  re_digit2 a b lo hi s k = Some r ->
  exists n s', 10 * a + lo <= n <= 10 * b + hi /\ k n s' = Some r.
Proof.
  unfold re_digit2. intros H.
  apply re_digit_Some in H as (d1 & s1 & ? & ? & H).
  apply re_digit_Some in H as (d2 & s2 & ? & ? & H).
  exists (10 * d1 + d2), s2. split; [lia|done].
Qed.

Lemma re_Y_Some {A : Type} (s : string) (k : Z -> string -> option A) (r : A) :
  re_Y s k = Some r -> exists y s', 0 <= y <= 9999 /\ k y s' = Some r.
Proof.
  unfold re_Y. intros H.
  apply re_decimal_Some in H as (d1 & s1 & ? & H).
  apply re_decimal_Some in H as (d2 & s2 & ? & H).
  apply re_decimal_Some in H as (d3 & s3 & ? & H).
  apply re_decimal_Some in H as (d4 & s4 & ? & H).
  eexists _, s4. split; [|exact H]. lia.
Qed.

Lemma re_m_Some {A : Type} (s : string) (k : Z -> string -> option A) (r : A) :
  re_m s k = Some r -> exists m s', 1 <= m <= 12 /\ k m s' = Some r.
Proof.
  unfold re_m. intros H.
  repeat (apply re_alt_Some in H as [H|H]).
  - apply re_digit2_Some in H as (n & s' & ? & H). exists n, s'. split; [lia|done].
  - apply re_digit2_Some in H as (n & s' & ? & H). exists n, s'. split; [lia|done].
  - apply re_digit_Some in H as (n & s' & ? & ? & H). exists n, s'. split; [lia|done].
Qed.

Lemma re_d_Some {A : Type} (s : string) (k : Z -> string -> option A) (r : A) :
  re_d s k = Some r -> exists d s', 1 <= d <= 31 /\ k d s' = Some r.
Proof.
  unfold re_d. intros H.
  repeat (apply re_alt_Some in H as [H|H]).
  - apply re_digit2_Some in H as (n & s' & ? & H). exists n, s'. split; [lia|done].
  - apply re_digit_Some in H as (d1 & s1 & ? & ? & H).
    apply re_decimal_Some in H as (d2 & s2 & ? & H).
    exists (10 * d1 + d2), s2. split; [lia|done].
  - apply re_digit2_Some in H as (n & s' & ? & H). exists n, s'. split; [lia|done].
  - apply re_digit_Some in H as (n & s' & ? & ? & H). exists n, s'. split; [lia|done].
  - apply re_char_Some in H as (s1 & _ & H).
    apply re_digit_Some in H as (n & s' & ? & ? & H). exists n, s'. split; [lia|done].
Qed.

Lemma format_regex_match_range (s rest : string) (y m d : Z) :
  format_regex_match s = Some (y, m, d, rest) ->
  0 <= y <= 9999 /\ 1 <= m <= 12 /\ 1 <= d <= 31.
Proof.
  unfold format_regex_match. intros H.
  apply re_Y_Some in H as (y' & s1 & Hy & H).
  apply re_char_Some in H as (s2 & _ & H).
  apply re_m_Some in H as (m' & s3 & Hm & H).
  apply re_char_Some in H as (s4 & _ & H).
  apply re_d_Some in H as (d' & s5 & Hd & H).
  by injection H as -> -> -> _.
Qed.

(** A parsed date is a calendar date: year 1-9999, month 1-12, and a day
    that exists in that month. *)
Lemma strptime_range (s : string) (dt : datetime) :
  strptime s = Ok dt ->
  1 <= year dt <= 9999 /\ 1 <= month dt <= 12
  /\ 1 <= day dt <= days_in_month (year dt) (month dt).
Proof.
  unfold strptime.
  destruct (format_regex_match s) as [[[[y m] d] rest]|] eqn:Hm; [|done].
  apply format_regex_match_range in Hm.
  repeat case_bool_decide; try done. intros [= <-]. simpl. lia.
Qed.

End DatetimeFacts.

(** * The specification's properties *)

Section FeatureVector.
Local Open Scope R_scope.
Import Datetime.

(** C1.  For every valid (latitude, longitude, date), feature synthesis
    returns one row of exactly 65 entries: the 15 named features in the
    order latitude, longitude, doy_sin, doy_cos, month_sin, month_cos,
    year, year_sin, year_cos, is_summer, is_winter, is_spring,
    spatial_lag_est, prev_measurement_est, prev_year_measurement_est,
    followed by the 50 cluster features. *)
Theorem prepare_features_layout (lat lon : R) (s : string) (i : PredictionInput) :
  PredictionInput_init lat lon s = inr i ->
  exists (d : datetime) (cluster_features row : list R),
    strptime s = Ok d
    /\ prepare_features (latitude i) (longitude i) (date i) = Ok [row]
    /\ row = [ lat; lon; doy_sin d; doy_cos d; month_sin d; month_cos d;
               IZR (year d); year_sin d; year_cos d;
               IZR (is_summer (month d)); IZR (is_winter (month d));
               IZR (is_spring (month d));
               spatial_lag_mean; prev_measurement_mean;
               prev_year_measurement_mean ] ++ cluster_features
    /\ length cluster_features = 50%nat
    /\ length row = 65%nat.
Proof.
  intros Hi. apply PredictionInput_init_inr in Hi as (Hlat & Hlon & Hs & ->).
  destruct (strptime s) as [d|e] eqn:Hd; [|done]. simpl.
  exists d. eexists _, _. split; [done|].
  split; [by apply prepare_features_valid|].
  split; [reflexivity|].
  rewrite length_app, !length_fmap, !length_insert, !length_replicate. done.
Qed.

Lemma prepare_features_layout_witness :
  exists (d : datetime) (cluster_features row : list R),
    strptime "2024-06-15" = Ok d
    /\ prepare_features 28.6139 77.2090 "2024-06-15" = Ok [row]
    /\ row = [ 28.6139; 77.2090; doy_sin d; doy_cos d; month_sin d; month_cos d;
               IZR (year d); year_sin d; year_cos d;
               IZR (is_summer (month d)); IZR (is_winter (month d));
               IZR (is_spring (month d));
               spatial_lag_mean; prev_measurement_mean;
               prev_year_measurement_mean ] ++ cluster_features
    /\ length cluster_features = 50%nat
    /\ length row = 65%nat.
Proof.
  apply (prepare_features_layout 28.6139 77.2090 "2024-06-15" stub_input).
  apply PredictionInput_init_inr. repeat split; try lra.
Defined.

(** The binary64 sum of two validated coordinates: it is within 2^-45
    of the exact sum, and its integer part is that of the exact sum
    unless the sum rounds up to the next integer. *)
Lemma valid_sum_rounding (lat lon : R) :
  -90 <= lat <= 90 -> -180 <= lon <= 180 ->
  Rabs (Py.round64 (Rabs lat + Rabs lon) - (Rabs lat + Rabs lon))
    <= / 35184372088832
  /\ (Zfloor (Py.round64 (Rabs lat + Rabs lon)) = Zfloor (Rabs lat + Rabs lon)
      \/ Py.round64 (Rabs lat + Rabs lon) = IZR (Zfloor (Rabs lat + Rabs lon)) + 1).
Proof.
  intros Hlat Hlon. set (x := Rabs lat + Rabs lon).
  assert (Hx : 0 <= x <= 270).
  { unfold x. pose proof (Rabs_pos lat). pose proof (Rabs_pos lon).
    assert (Rabs lat <= 90) by (apply Rabs_le; lra).
    assert (Rabs lon <= 180) by (apply Rabs_le; lra). lra. }
  split.
  - pose proof (round64_error_le x 9 ltac:(lia)) as Herr.
    rewrite bpow_IZR in Herr by lia. change (IZR (2 ^ 9)) with 512 in Herr.
    rewrite Rabs_pos_eq in Herr by lra. specialize (Herr ltac:(lra)).
    change (9 - 54)%Z with (-45)%Z in Herr. by rewrite bpow_neg in Herr.
  - destruct (Zfloor_bound x) as [Hlo Hhi]. set (n := Zfloor x) in *.
    assert (Hn : (0 <= n <= 270)%Z).
    { split; [apply Zfloor_lub; lra|]. apply le_IZR. lra. }
    destruct (round64_between x n (n + 1)) as [Hslo Hshi]; [lia|lia| |].
    { rewrite plus_IZR. lra. }
    rewrite plus_IZR in Hshi.
    destruct (Rlt_dec (Py.round64 x) (IZR n + 1)) as [Hlt|Hge].
    + left. apply Zfloor_eq. lra.
    + right. lra.
Qed.

(** C2, as the code has it.  For every valid input, the cluster segment
    (positions 16-65 of the row) has a 1 at one position and a 0
    everywhere else, so it sums to exactly 1.  The position is
    floor(s mod 50) for s the binary64 sum of |latitude| and
    |longitude|, that is the integer part of s reduced modulo 50.  The
    sum s is within 2^-45 of the exact sum; the position is
    floor((|latitude| + |longitude|) mod 50) for the exact sum unless
    the sum rounds up to the next integer, and then it is that integer
    reduced modulo 50. *)
Theorem cluster_segment_one_hot (lat lon : R) (s : string) (i : PredictionInput) :
  PredictionInput_init lat lon s = inr i ->
  exists (row : list R) (k : nat),
    prepare_features (latitude i) (longitude i) (date i) = Ok [row]
    /\ Z.of_nat k
       = Zfloor (Py.round64 (Rabs lat + Rabs lon)
                 - 50 * IZR (Zfloor (Py.round64 (Rabs lat + Rabs lon) / 50)))
    /\ Z.of_nat k = (Zfloor (Py.round64 (Rabs lat + Rabs lon)) mod 50)%Z
    /\ Rabs (Py.round64 (Rabs lat + Rabs lon) - (Rabs lat + Rabs lon))
       <= / 35184372088832
    /\ (Zfloor (Py.round64 (Rabs lat + Rabs lon)) = Zfloor (Rabs lat + Rabs lon)
        \/ Py.round64 (Rabs lat + Rabs lon) = IZR (Zfloor (Rabs lat + Rabs lon)) + 1)
    /\ (Zfloor (Py.round64 (Rabs lat + Rabs lon)) = Zfloor (Rabs lat + Rabs lon) ->
        Z.of_nat k
        = Zfloor (Rabs lat + Rabs lon
                  - 50 * IZR (Zfloor ((Rabs lat + Rabs lon) / 50))))
    /\ (Py.round64 (Rabs lat + Rabs lon) = IZR (Zfloor (Rabs lat + Rabs lon)) + 1 ->
        Z.of_nat k = ((Zfloor (Rabs lat + Rabs lon) + 1) mod 50)%Z)
    /\ (k < 50)%nat
    /\ length (drop 15 row) = 50%nat
    /\ (forall j : nat, (j < 50)%nat ->
          drop 15 row !! j = Some (if decide (j = k) then 1 else 0))
    /\ Rsum (drop 15 row) = 1.
Proof.
  intros Hi. apply PredictionInput_init_inr in Hi as (Hlat & Hlon & Hs & ->).
  destruct (strptime s) as [d|e] eqn:Hd; [|done]. simpl.
  pose proof (cluster_idx_range lat lon) as Hr.
  pose proof (cluster_idx_floor lat lon) as Hfl. unfold Py.mod_ in Hfl.
  destruct (valid_sum_rounding lat lon Hlat Hlon) as [Herr Hint].
  eexists _, (Z.to_nat (cluster_idx lat lon)).
  split; [by apply prepare_features_valid|].
  split; [rewrite <- Hfl; lia|].
  split; [rewrite <- floor_mod_50, <- Hfl; lia|].
  split; [done|]. split; [done|].
  split.
  { intros Hsame. rewrite floor_mod_50, <- Hsame, <- floor_mod_50, <- Hfl. lia. }
  split.
  { intros Hup. rewrite <- (ZfloorZ (Zfloor (Rabs lat + Rabs lon) + 1)), plus_IZR.
    rewrite <- Hup, <- floor_mod_50, <- Hfl. lia. }
  split; [lia|].
  cbn [skipn app]. rewrite !drop_0.
  split; [by rewrite length_fmap, length_insert, length_replicate|].
  split.
  - intros j Hj. rewrite list_lookup_fmap, one_hot_lookup by lia.
    by destruct (decide _).
  - apply one_hot_sum. lia.
Qed.

Lemma cluster_segment_one_hot_witness :
  exists (row : list R) (k : nat),
    prepare_features 28.6139 77.2090 "2024-06-15" = Ok [row]
    /\ Z.of_nat k
       = Zfloor (Py.round64 (Rabs 28.6139 + Rabs 77.2090)
                 - 50 * IZR (Zfloor (Py.round64 (Rabs 28.6139 + Rabs 77.2090) / 50)))
    /\ Z.of_nat k = (Zfloor (Py.round64 (Rabs 28.6139 + Rabs 77.2090)) mod 50)%Z
    /\ Rabs (Py.round64 (Rabs 28.6139 + Rabs 77.2090) - (Rabs 28.6139 + Rabs 77.2090))
       <= / 35184372088832
    /\ (Zfloor (Py.round64 (Rabs 28.6139 + Rabs 77.2090))
        = Zfloor (Rabs 28.6139 + Rabs 77.2090)
        \/ Py.round64 (Rabs 28.6139 + Rabs 77.2090)
           = IZR (Zfloor (Rabs 28.6139 + Rabs 77.2090)) + 1)
    /\ (Zfloor (Py.round64 (Rabs 28.6139 + Rabs 77.2090))
        = Zfloor (Rabs 28.6139 + Rabs 77.2090) ->
        Z.of_nat k
        = Zfloor (Rabs 28.6139 + Rabs 77.2090
                  - 50 * IZR (Zfloor ((Rabs 28.6139 + Rabs 77.2090) / 50))))
    /\ (Py.round64 (Rabs 28.6139 + Rabs 77.2090)
        = IZR (Zfloor (Rabs 28.6139 + Rabs 77.2090)) + 1 ->
        Z.of_nat k = ((Zfloor (Rabs 28.6139 + Rabs 77.2090) + 1) mod 50)%Z)
    /\ (k < 50)%nat
    /\ length (drop 15 row) = 50%nat
    /\ (forall j : nat, (j < 50)%nat ->
          drop 15 row !! j = Some (if decide (j = k) then 1 else 0))
    /\ Rsum (drop 15 row) = 1.
Proof.
  apply (cluster_segment_one_hot 28.6139 77.2090 "2024-06-15" stub_input).
  apply PredictionInput_init_inr. repeat split; try lra.
Defined.

(** The binary64 sum of the doubles 49.99999999999999 and 5e-15. *)
Lemma sum_near_50 :
  Py.round64 (Rabs latitude_near_50 + Rabs longitude_5e_15) = 50.
Proof.
  unfold latitude_near_50, longitude_5e_15. rewrite !Rabs_pos_eq by lra.
  assert (Hu : powerRZ 2 (5 - 52) = / 140737488355328).
  { change (5 - 52)%Z with (- (47))%Z. by rewrite powerRZ_neg', bpow_IZR. }
  rewrite (round64_eval _ 5 7036874417766400).
  - rewrite Hu. lra.
  - lia.
  - rewrite !bpow_IZR by lia. rewrite Rabs_pos_eq by lra.
    change (IZR (2 ^ 5)) with 32. change (IZR (2 ^ (5 + 1))) with 64. lra.
  - apply (rne_up _ 7036874417766399). rewrite Hu. lra.
Qed.

(** For the valid request of latitude 49.99999999999999 and longitude
    5e-15 (both doubles) the formula read over the reals gives bucket
    49: the exact sum is below 50.  The code adds in binary64, gets
    50.0, and sets position 0 of the segment; position 49 holds 0. *)
Lemma exact_sum_misses_the_bucket :
  (-90 <= latitude_near_50 <= 90 /\ -180 <= longitude_5e_15 <= 180)
  /\ Zfloor (Rabs latitude_near_50 + Rabs longitude_5e_15
             - 50 * IZR (Zfloor ((Rabs latitude_near_50 + Rabs longitude_5e_15) / 50)))
     = 49%Z
  /\ exists row : list R,
       prepare_features latitude_near_50 longitude_5e_15 "2024-06-15" = Ok [row]
       /\ drop 15 row !! 0%nat = Some 1
       /\ drop 15 row !! 49%nat = Some 0
       /\ drop 15 row !! 49%nat <> Some 1.
Proof.
  assert (Hv : -90 <= latitude_near_50 <= 90 /\ -180 <= longitude_5e_15 <= 180)
    by (unfold latitude_near_50, longitude_5e_15; lra).
  split; [done|]. split.
  - rewrite floor_mod_50.
    assert (Hf : Zfloor (Rabs latitude_near_50 + Rabs longitude_5e_15) = 49%Z).
    { apply Zfloor_eq. unfold latitude_near_50, longitude_5e_15.
      rewrite !Rabs_pos_eq by lra. lra. }
    by rewrite Hf.
  - assert (Hk : cluster_idx latitude_near_50 longitude_5e_15 = 0%Z).
    { rewrite cluster_idx_floor, sum_near_50. unfold Py.mod_.
      rewrite floor_mod_50. by rewrite (ZfloorZ 50). }
    destruct Hv as [Hlat Hlon]. eexists.
    split; [by apply (prepare_features_valid _ _ _ (Build_datetime 2024 6 15))|].
    rewrite Hk. cbn [skipn app]. rewrite !drop_0.
    rewrite !list_lookup_fmap, !(one_hot_lookup 50 (Z.to_nat 0)) by (simpl; lia).
    change (Z.to_nat 0) with 0%nat. cbn.
    split; [done|]. split; [done|]. intros [= H]. lra.
Qed.

(** C10.  For every latitude in [-90, 90] and longitude in [-180, 180]
    the cluster index lies in [0, 49], the write into the 50-element
    list is in bounds, and feature synthesis returns for every date
    that parses. *)
Theorem cluster_index_in_bounds (lat lon : R) :
  -90 <= lat <= 90 -> -180 <= lon <= 180 ->
  (0 <= cluster_idx lat lon <= 49)%Z
  /\ Py.list_setitem (replicate 50 0%Z) (cluster_idx lat lon) 1%Z
     = Ok (<[Z.to_nat (cluster_idx lat lon) := 1%Z]> (replicate 50 0%Z))
  /\ (forall s : string, is_ok (strptime s) = true ->
        is_ok (prepare_features lat lon s) = true).
Proof.
  intros Hlat Hlon. pose proof (cluster_idx_range lat lon) as Hr.
  split; [lia|]. split.
  - apply list_setitem_in_range. rewrite length_replicate. lia.
  - intros s Hs. destruct (strptime s) as [d|e] eqn:Hd; [|done].
    by rewrite (prepare_features_valid _ _ _ _ Hlat Hlon Hd).
Qed.

Lemma cluster_index_in_bounds_witness :
  (0 <= cluster_idx 90 (-180) <= 49)%Z
  /\ Py.list_setitem (replicate 50 0%Z) (cluster_idx 90 (-180)) 1%Z
     = Ok (<[Z.to_nat (cluster_idx 90 (-180)) := 1%Z]> (replicate 50 0%Z))
  /\ (forall s : string, is_ok (strptime s) = true ->
        is_ok (prepare_features 90 (-180) s) = true).
Proof. apply (cluster_index_in_bounds 90 (-180)); lra. Defined.

(** A flag [1 if month in months else 0] is 1 exactly on [months], and
    0 otherwise. *)
Lemma flag_spec (months : list Z) (m : Z) :
  let flag := if bool_decide (m ∈ months) then 1%Z else 0%Z in
  (flag = 1%Z <-> m ∈ months)
  /\ (flag <> 1%Z -> flag = 0%Z)
  /\ (m ∉ months -> flag = 0%Z).
Proof.
  cbv zeta. case_bool_decide; repeat split; intros; done.
Qed.

(** C6.  For every valid date the three seasonal flags, at positions
    10-12 of the row, are 0 or 1 with is_summer = 1 iff month is 4, 5 or
    6, is_winter = 1 iff month is 11, 12 or 1, and is_spring = 1 iff
    month is 2 or 3; for months 7-10 all three are 0. *)
Theorem seasonal_flags (lat lon : R) (s : string) (row : list R) :
  prepare_features lat lon s = Ok [row] ->
  exists d : datetime,
    strptime s = Ok d
    /\ (1 <= month d <= 12)%Z
    /\ row !! 9%nat = Some (IZR (is_summer (month d)))
    /\ row !! 10%nat = Some (IZR (is_winter (month d)))
    /\ row !! 11%nat = Some (IZR (is_spring (month d)))
    /\ (is_summer (month d) = 1%Z <-> month d ∈ [4; 5; 6]%Z)
    /\ (is_winter (month d) = 1%Z <-> month d ∈ [11; 12; 1]%Z)
    /\ (is_spring (month d) = 1%Z <-> month d ∈ [2; 3]%Z)
    /\ (is_summer (month d) <> 1%Z -> is_summer (month d) = 0%Z)
    /\ (is_winter (month d) <> 1%Z -> is_winter (month d) = 0%Z)
    /\ (is_spring (month d) <> 1%Z -> is_spring (month d) = 0%Z)
    /\ (month d ∈ [7; 8; 9; 10]%Z ->
        is_summer (month d) = 0%Z /\ is_winter (month d) = 0%Z
        /\ is_spring (month d) = 0%Z).
Proof.
  intros Hpf. destruct (prepare_features_inv _ _ _ _ Hpf) as [Hfin [d Hd]].
  rewrite (prepare_features_ok _ _ _ _ Hfin Hd) in Hpf. injection Hpf as <-.
  exists d. split; [done|].
  split; [by destruct (strptime_range _ _ Hd) as (_ & Hm & _)|].
  do 3 (split; [reflexivity|]).
  pose proof (flag_spec [4; 5; 6]%Z (month d)) as (? & ? & ?).
  pose proof (flag_spec [11; 12; 1]%Z (month d)) as (? & ? & ?).
  pose proof (flag_spec [2; 3]%Z (month d)) as (? & ? & ?).
  do 6 (split; [done|]).
  intros Hm.
  repeat (apply elem_of_cons in Hm as [Hm|Hm]; [by rewrite Hm|]).
  by apply elem_of_nil in Hm.
Qed.

Lemma seasonal_flags_witness :
  exists row : list R,
    prepare_features 28.6139 77.2090 "2024-08-15" = Ok [row]
    /\ row !! 9%nat = Some 0 /\ row !! 10%nat = Some 0 /\ row !! 11%nat = Some 0.
Proof.
  eexists. split; [apply prepare_features_valid; [lra|lra|done]|].
  destruct (seasonal_flags 28.6139 77.2090 "2024-08-15" _
              (prepare_features_valid 28.6139 77.2090 "2024-08-15"
                 (Build_datetime 2024 8 15) ltac:(lra) ltac:(lra) eq_refl))
    as (d & Hd & _ & H9 & H10 & H11 & _).
  injection Hd as <-. auto.
Defined.

End FeatureVector.

Section Confidence.
Local Open Scope R_scope.

(** C4.  For every real final prediction [p] the confidence is
    max(0.7, 1.0 - |p - 10| / 20); it lies in [0.7, 1.0] and is 1.0
    exactly when p = 10.  It is the confidence that [predict] returns
    for the prediction it returns. *)
Theorem confidence_formula (p : R) :
  confidence_heuristic p = Rmax 0.7 (1.0 - Rabs (p - 10) / 20)
  /\ 0.7 <= confidence_heuristic p <= 1.0
  /\ (confidence_heuristic p = 1.0 <-> p = 10)
  /\ (forall (A : Artifacts) (i : PredictionInput) (tr : trace) (out : PredictionOutput),
        fst (predict A i tr) = Ok out ->
        prediction out = p -> confidence out = confidence_heuristic p).
Proof.
  unfold confidence_heuristic. rewrite max_Rmax.
  split; [done|].
  assert (Hmax : 0.7 <= Rmax 0.7 (1.0 - Rabs (p - 10) / 20) <= 1.0
                 /\ (Rmax 0.7 (1.0 - Rabs (p - 10) / 20) = 1.0 <-> p = 10)).
  { unfold Rmax, Rabs.
    destruct (Rle_dec _ _), (Rcase_abs _); repeat split; intros; lra. }
  destruct Hmax as [Hr Hiff]. do 2 (split; [done|]).
  intros A i tr out Hout Hp.
  apply predict_ok_inv in Hout as (X & Xs & a & b & c & r & _ & _ & _ & _ & _ & _ & ->).
  simpl in *. subst p. unfold confidence_heuristic. by rewrite max_Rmax.
Qed.

(** The end-to-end scenario in exact arithmetic. *)
Lemma stub_scenario_exact (tr : trace) :
  fst (predict stub_artifacts stub_input tr) =
    Ok {| prediction := 6; confidence := 0.8;
          units := "meters below ground level" |}.
Proof.
  rewrite predict_result, predict_body_result.
  cbn [latitude longitude date stub_input].
  rewrite (prepare_features_valid _ _ _ (Datetime.Build_datetime 2024 6 15))
    by (done || lra).
  unfold first_output, blend, weighted_ensemble_predictions, Py.dict_getitem.
  cbn [stub_artifacts scaler best_xgb stacking_model residual_model
       ensemble_weights mbind exc_bind mret exc_ret Py.getitem lookup list_lookup].
  rewrite lookup_insert_eq, lookup_insert_ne, lookup_singleton_eq by done.
  cbn [mbind exc_bind mret exc_ret Py.getitem lookup list_lookup].
  unfold confidence_heuristic. rewrite max_Rmax.
  replace (0.6 * 5.0 + 0.4 * 7.0 + 0.2) with 6 by lra.
  do 2 f_equal.
  unfold Rmax, Rabs. destruct (Rle_dec _ _), (Rcase_abs _); lra.
Qed.

Lemma confidence_formula_witness :
  fst (predict stub_artifacts stub_input []) =
    Ok {| prediction := 6; confidence := 0.8;
          units := "meters below ground level" |}
  /\ 0.8 = confidence_heuristic 6.
Proof.
  split; [apply stub_scenario_exact|].
  destruct (confidence_formula 6) as (_ & _ & _ & H).
  exact (H stub_artifacts stub_input [] _ (stub_scenario_exact []) eq_refl).
Defined.

End Confidence.

Section Ensemble.
Local Open Scope R_scope.

(** C3, as the code has it.  The final prediction is
    xgb_weight * A + stacking_weight * B + residual, with the weights as
    stored (no normalisation).  With the stub artifacts (identity
    scaler, base models 5.0 and 7.0, weights 0.6 and 0.4, residual 0.2)
    this is 6 with confidence 0.8 in exact arithmetic; evaluated in
    binary64 the prediction is 6.000000000000001, the double next above
    6.0, and the confidence is the double nearest 0.8. *)
Theorem prediction_is_blend_plus_residual :
  (forall (A : Artifacts) (i : PredictionInput) (tr : trace) (out : PredictionOutput),
     fst (predict A i tr) = Ok out ->
     exists X Xs a b r w_xgb w_stacking,
       prepare_features (latitude i) (longitude i) (date i) = Ok X
       /\ scaler A X = Ok Xs
       /\ first_output (best_xgb A) Xs = Ok a
       /\ first_output (stacking_model A) Xs = Ok b
       /\ first_output (residual_model A) Xs = Ok r
       /\ ensemble_weights A !! "xgb_weight" = Some w_xgb
       /\ ensemble_weights A !! "stacking_weight" = Some w_stacking
       /\ prediction out = w_xgb * a + w_stacking * b + r
       /\ confidence out = confidence_heuristic (prediction out))
  /\ (forall tr : trace,
        fst (predict stub_artifacts stub_input tr) =
          Ok {| prediction := 6; confidence := 0.8;
                units := "meters below ground level" |})
  /\ Binary64.scenario = Ok (0x1.8000000000001p+2, 0x1.999999999999ap-1)%float.
Proof.
  split; [|split; [exact stub_scenario_exact | by vm_compute]].
  intros A i tr out Hout.
  apply predict_ok_inv in Hout as (X & Xs & a & b & c & r & H1 & H2 & H3 & H4 & H5 & H6 & ->).
  apply blend_ok_inv in H5 as (w0 & w1 & Hw0 & Hw1 & ->).
  exists X, Xs, a, b, r, w0, w1. done.
Qed.

Lemma prediction_is_blend_plus_residual_witness :
  exists X Xs a b r w_xgb w_stacking,
    prepare_features 28.6139 77.2090 "2024-06-15" = Ok X
    /\ scaler stub_artifacts X = Ok Xs
    /\ first_output (best_xgb stub_artifacts) Xs = Ok a
    /\ first_output (stacking_model stub_artifacts) Xs = Ok b
    /\ first_output (residual_model stub_artifacts) Xs = Ok r
    /\ ensemble_weights stub_artifacts !! "xgb_weight" = Some w_xgb
    /\ ensemble_weights stub_artifacts !! "stacking_weight" = Some w_stacking
    /\ 6 = w_xgb * a + w_stacking * b + r
    /\ 0.8 = confidence_heuristic 6.
Proof.
  destruct prediction_is_blend_plus_residual as (H & _ & _).
  exact (H stub_artifacts stub_input [] _ (stub_scenario_exact [])).
Defined.

(** In binary64 the scenario's prediction is not 6.0: 0.4 * 7.0 rounds
    to 2.8000000000000003, and the two additions keep the excess. *)
Lemma scenario_prediction_is_not_6 :
  exists p c : float,
    Binary64.scenario = Ok (p, c)
    /\ PrimFloat.eqb p 6 = false
    /\ PrimFloat.ltb 6 p = true
    /\ p <> 6%float.
Proof.
  exists 0x1.8000000000001p+2%float, 0x1.999999999999ap-1%float.
  split; [by vm_compute|]. split; [by vm_compute|]. split; [by vm_compute|].
  intros H. apply (f_equal (fun x => PrimFloat.eqb x 6)) in H.
  vm_compute in H. discriminate.
Qed.

End Ensemble.

Section Startup.

(** C5, as the code has it.  [year_min] and [year_max] are the literals
    1994 and 2024 of lines 52-53 whatever the metadata holds; the only
    name read from the metadata is [features].  The year encoding
    therefore always spans 30 years from 1994. *)
Theorem year_bounds_are_literals (A : Artifacts) (G : Globals) :
  module_init A = Ok G ->
  g_year_min G = 1994%Z /\ g_year_max G = 2024%Z
  /\ training_metadata A !! "features" = Some (g_features G)
  /\ (forall d : Datetime.datetime,
        year_sin d = sin (2 * PI * IZR (Datetime.year d - 1994) / 30)
        /\ year_cos d = cos (2 * PI * IZR (Datetime.year d - 1994) / 30))%R.
Proof.
  unfold module_init, Py.dict_getitem.
  destruct (training_metadata A !! "features") as [f|]; [|done].
  cbn. intros [= <-]. cbn. done.
Qed.

Lemma year_bounds_are_literals_witness :
  g_year_min (Build_Globals 1994 2024 (JArray []) spatial_lag_mean
                prev_measurement_mean prev_year_measurement_mean) = 1994%Z
  /\ g_year_max (Build_Globals 1994 2024 (JArray []) spatial_lag_mean
                   prev_measurement_mean prev_year_measurement_mean) = 2024%Z
  /\ training_metadata stub_artifacts !! "features" = Some (JArray [])
  /\ (forall d : Datetime.datetime,
        year_sin d = sin (2 * PI * IZR (Datetime.year d - 1994) / 30)
        /\ year_cos d = cos (2 * PI * IZR (Datetime.year d - 1994) / 30))%R.
Proof.
  apply (year_bounds_are_literals stub_artifacts).
  unfold module_init, Py.dict_getitem. cbn [stub_artifacts training_metadata].
  by rewrite lookup_singleton_eq.
Defined.

(** A metadata file that records the year bounds 2000 and 2020 still
    leaves [year_min] = 1994 and [year_max] = 2024. *)
Lemma year_bounds_not_from_metadata :
  training_metadata artifacts_2000_2020 !! "year_min" = Some (JNumber 2000)
  /\ training_metadata artifacts_2000_2020 !! "year_max" = Some (JNumber 2020)
  /\ exists G : Globals,
       module_init artifacts_2000_2020 = Ok G
       /\ g_year_min G = 1994%Z /\ g_year_max G = 2024%Z
       /\ g_year_min G <> 2000%Z /\ g_year_max G <> 2020%Z.
Proof.
  cbn [artifacts_2000_2020 training_metadata]. unfold metadata_2000_2020.
  split; [by simplify_map_eq|]. split; [by simplify_map_eq|].
  eexists. split.
  - unfold module_init, Py.dict_getitem.
    cbn [artifacts_2000_2020 training_metadata]. unfold metadata_2000_2020.
    rewrite lookup_insert_eq. reflexivity.
  - done.
Qed.

End Startup.

Section Service.
Local Open Scope R_scope.

(** C7.  Latitude -90 and 90 and longitude -180 and 180 are accepted;
    a latitude outside [-90, 90], a longitude outside [-180, 180] or a
    date that does not parse as YYYY-MM-DD (such as "2024-13-40") is
    rejected with a validation error naming the field, and the route
    answers without having logged or called anything: no model runs. *)
Theorem invalid_input_is_rejected_before_any_model
    (A : Artifacts) (lat lon : R) (s : string) (tr : trace) :
  (validate_latitude (-90) = Ok (-90) /\ validate_latitude 90 = Ok 90
   /\ validate_longitude (-180) = Ok (-180) /\ validate_longitude 180 = Ok 180)
  /\ (lat < -90 \/ 90 < lat ->
      validate_latitude lat = Raise (ValueError "Latitude must be between -90 and 90"))
  /\ (lon < -180 \/ 180 < lon ->
      validate_longitude lon = Raise (ValueError "Longitude must be between -180 and 180"))
  /\ (is_ok (Datetime.strptime s) = false ->
      validate_date_format s = Raise (ValueError "Date must be in YYYY-MM-DD format"))
  /\ is_ok (Datetime.strptime "2024-13-40") = false
  /\ (lat < -90 \/ 90 < lat \/ lon < -180 \/ 180 < lon
      \/ is_ok (Datetime.strptime s) = false ->
      exists errors : ValidationError,
        errors <> []
        /\ PredictionInput_init lat lon s = inl errors
        /\ (lat < -90 \/ 90 < lat ->
            ("latitude", "Latitude must be between -90 and 90") ∈ errors)
        /\ (lon < -180 \/ 180 < lon ->
            ("longitude", "Longitude must be between -180 and 180") ∈ errors)
        /\ (is_ok (Datetime.strptime s) = false ->
            ("date", "Date must be in YYYY-MM-DD format") ∈ errors)
        /\ handle A lat lon s tr = (Response422 errors, tr)
        /\ filter (fun ev => is_model_call ev = true) (snd (handle A lat lon s tr))
           = filter (fun ev => is_model_call ev = true) tr).
Proof.
  split.
  { repeat split; first [apply validate_latitude_ok | apply validate_longitude_ok]; lra. }
  split; [apply validate_latitude_raises|].
  split; [apply validate_longitude_raises|].
  split; [apply validate_date_format_raises|].
  split; [by vm_compute|].
  intros Hbad.
  destruct (PredictionInput_init lat lon s) as [errors|i] eqn:Hi.
  - exists errors. unfold handle. rewrite Hi. cbn [snd].
    split.
    { intros ->. revert Hi. unfold PredictionInput_init.
      destruct (validate_latitude lat), (validate_longitude lon),
        (validate_date_format s); done. }
    split; [done|].
    unfold PredictionInput_init in Hi. clear Hbad.
    split; [|split; [|split; [|done]]]; intros Hf.
    + rewrite (validate_latitude_raises _ Hf) in Hi.
      injection Hi as <-. apply list_elem_of_here.
    + rewrite (validate_longitude_raises _ Hf) in Hi.
      destruct (validate_latitude lat); injection Hi as <-;
        cbn [field_error Py.str app];
        repeat first [apply list_elem_of_here | apply list_elem_of_further].
    + rewrite (validate_date_format_raises _ Hf) in Hi.
      destruct (validate_latitude lat), (validate_longitude lon);
        injection Hi as <-; cbn [field_error Py.str app];
        repeat first [apply list_elem_of_here | apply list_elem_of_further].
  - apply PredictionInput_init_inr in Hi as (? & ? & Hs & _).
    destruct Hbad as [?|[?|[?|[?|Hs']]]]; try lra. by rewrite Hs in Hs'.
Qed.

Lemma invalid_input_is_rejected_before_any_model_witness :
  exists errors : ValidationError,
    errors <> []
    /\ PredictionInput_init 95 77.2090 "2024-13-40" = inl errors
    /\ (95 < -90 \/ 90 < 95 ->
        ("latitude", "Latitude must be between -90 and 90") ∈ errors)
    /\ (77.2090 < -180 \/ 180 < 77.2090 ->
        ("longitude", "Longitude must be between -180 and 180") ∈ errors)
    /\ (is_ok (Datetime.strptime "2024-13-40") = false ->
        ("date", "Date must be in YYYY-MM-DD format") ∈ errors)
    /\ handle stub_artifacts 95 77.2090 "2024-13-40" [] = (Response422 errors, [])
    /\ filter (fun ev => is_model_call ev = true)
         (snd (handle stub_artifacts 95 77.2090 "2024-13-40" []))
       = filter (fun ev => is_model_call ev = true) [].
Proof.
  destruct (invalid_input_is_rejected_before_any_model
              stub_artifacts 95 77.2090 "2024-13-40" [])
    as (_ & _ & _ & _ & _ & H).
  apply H. right. left. lra.
Defined.

(** C8.  For a validated input, when a stage of the pipeline raises,
    [predict] logs the error and raises the HTTP 500 "Prediction error",
    which is what the caller gets; no [PredictionOutput] is returned. *)
Theorem stage_failure_is_prediction_error
    (A : Artifacts) (lat lon : R) (s : string) (i : PredictionInput)
    (e : exn) (tr : trace) :
  PredictionInput_init lat lon s = inr i ->
  stage_raises A i e ->
  fst (predict A i tr)
    = Raise (HTTPException 500 ("Prediction error: " +:+ Py.str e))
  /\ last (snd (predict A i tr)) = Some (Log (Error_failed e))
  /\ fst (handle A lat lon s tr)
     = ResponseError 500 ("Prediction error: " +:+ Py.str e)
  /\ (forall out : PredictionOutput,
        fst (predict A i tr) <> Ok out
        /\ fst (handle A lat lon s tr) <> Response200 out).
Proof.
  intros Hi He.
  pose proof (predict_body_raises A i tr e He) as Hbody.
  assert (Hp : exists tr', predict A i tr =
            (Raise (HTTPException 500 ("Prediction error: " +:+ Py.str e)),
             tr' ++ [Log (Error_failed e)])).
  { unfold predict, try_except.
    destruct (predict_body A i tr) as [r tr'] eqn:Hb. simpl in Hbody. subst r.
    by exists tr'. }
  destruct Hp as [tr' Hp].
  assert (Hh : handle A lat lon s tr =
            (ResponseError 500 ("Prediction error: " +:+ Py.str e),
             tr' ++ [Log (Error_failed e)])).
  { unfold handle. by rewrite Hi, Hp. }
  rewrite Hp, Hh. cbn [fst snd]. rewrite last_snoc. done.
Qed.

Lemma stage_failure_is_prediction_error_witness :
  fst (predict mismatched_scaler_artifacts stub_input [])
    = Raise (HTTPException 500 "Prediction error: X has 65 features, but StandardScaler is expecting 64 features as input.")
  /\ last (snd (predict mismatched_scaler_artifacts stub_input []))
     = Some (Log (Error_failed (ValueError "X has 65 features, but StandardScaler is expecting 64 features as input.")))
  /\ fst (handle mismatched_scaler_artifacts 28.6139 77.2090 "2024-06-15" [])
     = ResponseError 500 "Prediction error: X has 65 features, but StandardScaler is expecting 64 features as input."
  /\ (forall out : PredictionOutput,
        fst (predict mismatched_scaler_artifacts stub_input []) <> Ok out
        /\ fst (handle mismatched_scaler_artifacts 28.6139 77.2090 "2024-06-15" [])
           <> Response200 out).
Proof.
  apply (stage_failure_is_prediction_error mismatched_scaler_artifacts
           28.6139 77.2090 "2024-06-15" stub_input
           (ValueError "X has 65 features, but StandardScaler is expecting 64 features as input.")
           []).
  - apply PredictionInput_init_inr. repeat split; try lra.
  - eapply scaling_raises; [|reflexivity].
    apply (prepare_features_valid _ _ _ (Datetime.Build_datetime 2024 6 15));
      [simpl; lra|simpl; lra|done].
Defined.

End Service.

Section Calendar.
Import Datetime.
Local Open Scope Z_scope.

Lemma days_before_month_bounds (y m : Z) :
  1 <= m <= 12 ->
  0 <= days_before_month y m
  /\ days_before_month y m + days_in_month y m <= 366.
Proof.
  intros Hm.
  assert (Hcases : m ∈ [1; 2; 3; 4; 5; 6; 7; 8; 9; 10; 11; 12])
    by (rewrite !elem_of_cons; lia).
  unfold days_before_month, days_in_month.
  generalize (is_leap y). intros leap.
  repeat (apply elem_of_cons in Hcases as [->|Hcases];
          [destruct leap; by vm_compute|]).
  by apply elem_of_nil in Hcases.
Qed.

(** X1.  The day of the year of a parsed date lies in 1-366. *)
Theorem day_of_year_range (s : string) (d : datetime) :
  strptime s = Ok d -> 1 <= tm_yday d <= 366.
Proof.
  intros Hs. destruct (strptime_range _ _ Hs) as (_ & Hm & Hd).
  destruct (days_before_month_bounds (year d) (month d) Hm).
  unfold tm_yday. lia.
Qed.

Lemma day_of_year_range_witness :
  1 <= tm_yday (Build_datetime 2024 12 31) <= 366.
Proof. apply (day_of_year_range "2024-12-31"). reflexivity. Defined.

End Calendar.

(** * Further properties of [app.py] *)

Section MoreFeatures.
Local Open Scope R_scope.
Import Datetime.

Lemma sin_add_2PI (x : R) : sin (x + 2 * PI) = sin x.
Proof. rewrite sin_plus, sin_2PI, cos_2PI. lra. Qed.

Lemma cos_add_2PI (x : R) : cos (x + 2 * PI) = cos x.
Proof. rewrite cos_plus, sin_2PI, cos_2PI. lra. Qed.

(** X3.  Feature synthesis fails on the date or on the cluster bucket,
    and on nothing else.  When the date does not parse it raises
    [strptime]'s [ValueError]; when the date parses and the binary64 sum
    of |latitude| and |longitude| overflows to infinity, as for two
    coordinates of 2^1023, it raises the [ValueError] of [int] on NaN;
    otherwise it returns a row of 65 entries.  Validated coordinates
    never overflow. *)
Theorem prepare_features_failures (lat lon : R) (s : string) :
  (forall e : exn, strptime s = Raise e ->
     prepare_features lat lon s = Raise e /\ exists msg, e = ValueError msg)
  /\ (forall d : datetime, strptime s = Ok d ->
        Py.overflows (Rabs lat + Rabs lon) = true ->
        prepare_features lat lon s
        = Raise (ValueError "cannot convert float NaN to integer"))
  /\ (forall d : datetime, strptime s = Ok d ->
        Py.overflows (Rabs lat + Rabs lon) = false ->
        exists row, prepare_features lat lon s = Ok [row] /\ length row = 65%nat)
  /\ (-90 <= lat <= 90 -> -180 <= lon <= 180 ->
      Py.overflows (Rabs lat + Rabs lon) = false)
  /\ prepare_features huge huge "2024-06-15"
     = Raise (ValueError "cannot convert float NaN to integer").
Proof.
  split; [|split; [|split; [|split]]].
  - intros e He. split; [|by eapply strptime_raises_ValueError].
    unfold prepare_features. by rewrite He.
  - intros d Hd Hinf. by apply (prepare_features_overflow _ _ _ d).
  - intros d Hd Hfin. eexists. split; [by apply prepare_features_ok|].
    rewrite length_app, length_fmap, length_insert, length_replicate. done.
  - apply valid_sum_is_finite.
  - apply (prepare_features_overflow _ _ _ (Build_datetime 2024 6 15)); [|done].
    unfold Py.overflows, huge. apply Rleb_true.
    assert (Hh : Rabs (IZR (2 ^ 1023)) = IZR (2 ^ 1023))
      by (by apply Rabs_pos_eq, IZR_le).
    rewrite Hh, <- plus_IZR. rewrite Rabs_pos_eq by (by apply IZR_le).
    by apply IZR_le.
Qed.

(** X4.  The cluster bucket depends on the coordinates only through
    |latitude| + |longitude|: mirroring a point across the equator or
    the prime meridian, or swapping its two coordinates, keeps the
    bucket. *)
Theorem cluster_idx_symmetric (lat lon : R) :
  cluster_idx (- lat) lon = cluster_idx lat lon
  /\ cluster_idx lat (- lon) = cluster_idx lat lon
  /\ cluster_idx lon lat = cluster_idx lat lon.
Proof.
  unfold cluster_idx. rewrite !Rabs_Ropp.
  by rewrite (Rplus_comm (Rabs lon) (Rabs lat)).
Qed.

(** X5.  The bucket is the integer part of the binary64 sum of
    |latitude| and |longitude|, reduced modulo 50: when that sum s has
    50k + j <= s < 50k + j + 1 with 0 <= j < 50, the bucket is j. *)
Theorem cluster_idx_bucket (lat lon : R) (k j : Z) :
  (0 <= j < 50)%Z ->
  IZR (50 * k + j) <= Py.round64 (Rabs lat + Rabs lon) < IZR (50 * k + j + 1) ->
  cluster_idx lat lon = j.
Proof.
  intros Hj [Hlo Hhi]. rewrite cluster_idx_floor. unfold Py.mod_.
  set (x := Py.round64 (Rabs lat + Rabs lon)) in *.
  rewrite plus_IZR, mult_IZR in Hlo. rewrite !plus_IZR, mult_IZR in Hhi.
  assert (Hj0 : 0 <= IZR j) by (apply IZR_le; lia).
  assert (Hj1 : IZR j + 1 <= 50)
    by (rewrite <- (plus_IZR j 1); apply IZR_le; lia).
  assert (Hk : Zfloor (x / 50) = k).
  { apply Zfloor_eq. split.
    - apply (Rmult_le_reg_r 50); [lra|]. field_simplify. lra.
    - apply (Rmult_lt_reg_r 50); [lra|]. field_simplify. lra. }
  rewrite Hk. apply Zfloor_eq. lra.
Qed.

Lemma cluster_idx_bucket_witness : cluster_idx 28.6139 77.2090 = 5%Z.
Proof.
  apply (cluster_idx_bucket 28.6139 77.2090 2 5); [lia|].
  rewrite !Rabs_pos_eq by lra.
  change (IZR (50 * 2 + 5)) with 105. change (IZR (50 * 2 + 5 + 1)) with 106.
  pose proof (round64_error_le (28.6139 + 77.2090) 7 ltac:(lia)) as Herr.
  rewrite bpow_IZR in Herr by lia. change (IZR (2 ^ 7)) with 128 in Herr.
  rewrite Rabs_pos_eq in Herr by lra. specialize (Herr ltac:(lra)).
  assert (Hsmall : powerRZ 2 (7 - 54) <= / 1024).
  { change (/ 1024) with (/ IZR (2 ^ 10)). rewrite <- bpow_IZR by lia.
    rewrite <- powerRZ_neg'. apply bpow_le. lia. }
  revert Herr. unfold Rabs. destruct (Rcase_abs _); lra.
Defined.

(** X6.  In exact real arithmetic the year encoding has period
    [year_max - year_min] = 30: the exact sine and cosine of the
    angles of two years 30 apart are equal, and those of 1994 are 0 and
    1.  (A property of the formula of lines 123-124 over the reals; the
    floats the code computes carry rounding error and are not covered.) *)
Theorem year_encoding_period (d1 d2 : datetime) :
  year d2 = (year d1 + 30)%Z ->
  year_sin d2 = year_sin d1 /\ year_cos d2 = year_cos d1
  /\ (year d1 = 1994%Z -> year_sin d1 = 0 /\ year_cos d1 = 1).
Proof.
  intros Hy. unfold year_sin, year_cos, year_min, year_max. rewrite Hy.
  change (IZR (2024 - 1994)) with 30.
  replace (2 * PI * IZR (year d1 + 30 - 1994) / 30)
    with (2 * PI * IZR (year d1 - 1994) / 30 + 2 * PI)
    by (rewrite !minus_IZR, plus_IZR; field).
  rewrite sin_add_2PI, cos_add_2PI. do 2 (split; [done|]).
  intros ->. change (IZR (1994 - 1994)) with 0.
  replace (2 * PI * 0 / 30) with 0 by field.
  by rewrite sin_0, cos_0.
Qed.

Lemma year_encoding_period_witness :
  year_sin (Build_datetime 2024 6 15) = year_sin (Build_datetime 1994 6 15)
  /\ year_cos (Build_datetime 2024 6 15) = year_cos (Build_datetime 1994 6 15)
  /\ (1994%Z = 1994%Z ->
      year_sin (Build_datetime 1994 6 15) = 0
      /\ year_cos (Build_datetime 1994 6 15) = 1).
Proof.
  apply (year_encoding_period (Build_datetime 1994 6 15) (Build_datetime 2024 6 15)).
  reflexivity.
Defined.

(** X7.  31 December of a leap year is day 366, one more than the
    period 365 of the day-of-year encoding: in exact real arithmetic its
    angle is that of a 1 January plus a full turn, so the exact sine
    and cosine of the two days are equal.  (A property of the formula
    of lines 119-120 over the reals; the floats the code computes carry
    rounding error and are not covered.) *)
Theorem leap_year_last_day_encoded_as_first (y y' : Z) :
  is_leap y = true ->
  tm_yday (Build_datetime y 12 31) = 366%Z
  /\ tm_yday (Build_datetime y' 1 1) = 1%Z
  /\ doy_sin (Build_datetime y 12 31) = doy_sin (Build_datetime y' 1 1)
  /\ doy_cos (Build_datetime y 12 31) = doy_cos (Build_datetime y' 1 1).
Proof.
  intros Hleap.
  assert (H366 : tm_yday (Build_datetime y 12 31) = 366%Z).
  { unfold tm_yday, days_before_month, days_in_month. cbn [year month day].
    revert Hleap. generalize (is_leap y). intros b ->. by vm_compute. }
  assert (H1 : tm_yday (Build_datetime y' 1 1) = 1%Z) by done.
  do 2 (split; [done|]).
  unfold doy_sin, doy_cos. rewrite H366, H1.
  replace (2 * PI * 366 / 365) with (2 * PI * 1 / 365 + 2 * PI) by field.
  by rewrite sin_add_2PI, cos_add_2PI.
Qed.

Lemma leap_year_last_day_encoded_as_first_witness :
  tm_yday (Build_datetime 2024 12 31) = 366%Z
  /\ tm_yday (Build_datetime 2023 1 1) = 1%Z
  /\ doy_sin (Build_datetime 2024 12 31) = doy_sin (Build_datetime 2023 1 1)
  /\ doy_cos (Build_datetime 2024 12 31) = doy_cos (Build_datetime 2023 1 1).
Proof. apply (leap_year_last_day_encoded_as_first 2024 2023). reflexivity. Defined.

(** X8.  No month sets two seasonal flags, and among the months 1-12
    exactly July to October set none. *)
Theorem seasonal_flags_exclusive (m : Z) :
  (0 <= is_summer m + is_winter m + is_spring m <= 1)%Z
  /\ ((1 <= m <= 12)%Z ->
      (is_summer m + is_winter m + is_spring m = 0)%Z <-> (7 <= m <= 10)%Z).
Proof.
  unfold is_summer, is_winter, is_spring.
  repeat case_bool_decide;
    repeat match goal with
           | H : _ ∈ _ |- _ => rewrite !elem_of_cons, elem_of_nil in H
           | H : ¬ _ ∈ _ |- _ => rewrite !elem_of_cons, elem_of_nil in H
           end; lia.
Qed.

(** [weighted_ensemble_predictions] reads the first two weights only:
    further entries are ignored, and a list of fewer than two weights
    raises [IndexError]. *)
Theorem weighted_ensemble_predictions_weights (a b : R) :
  (forall (w0 w1 : R) (rest : list R),
     weighted_ensemble_predictions a b (w0 :: w1 :: rest) = Ok (w0 * a + w1 * b))
  /\ (forall weights : list R, (length weights < 2)%nat ->
        exists msg, weighted_ensemble_predictions a b weights
                    = Raise (IndexError msg)).
Proof.
  split; [done|].
  intros [|w0 [|w1 rest]] Hlen; [by eexists|by eexists|]. simpl in Hlen. lia.
Qed.

(** X9.  The confidence is symmetric about a prediction of 10, falls
    linearly on both sides, and sits at its floor 0.7 exactly for
    predictions of at most 4 or at least 16. *)
Theorem confidence_floor_and_symmetry (p t : R) :
  (confidence_heuristic p = 0.7 <-> p <= 4 \/ 16 <= p)
  /\ (4 <= p <= 16 -> confidence_heuristic p = 1.0 - Rabs (p - 10) / 20)
  /\ confidence_heuristic (10 + t) = confidence_heuristic (10 - t).
Proof.
  unfold confidence_heuristic. rewrite !max_Rmax.
  unfold Rmax, Rabs.
  repeat split; intros;
    repeat match goal with
           | |- context [Rle_dec ?a ?b] => destruct (Rle_dec a b)
           | |- context [Rcase_abs ?a] => destruct (Rcase_abs a)
           | H : context [Rle_dec ?a ?b] |- _ => destruct (Rle_dec a b)
           | H : context [Rcase_abs ?a] |- _ => destruct (Rcase_abs a)
           end; try lra.
Qed.

Lemma confidence_floor_and_symmetry_witness :
  confidence_heuristic 6 = 1.0 - Rabs (6 - 10) / 20.
Proof.
  destruct (confidence_floor_and_symmetry 6 0) as (_ & H & _).
  apply H. lra.
Defined.

End MoreFeatures.

Section MorePredict.
Local Open Scope R_scope.

Ltac run :=
  cbv [mbind M_bind mret M_ret exc_bind exc_ret lift emit raise try_except
       logger_info logger_error scaler_transform model_predict model_of].

(** X10.  A successful call applies the scaler once to the synthesized
    features and then each of the three models once, in the order xgb,
    stacking, residual, all to the same scaled array; it logs the
    request first and the final prediction last. *)
Theorem predict_success_trace (A : Artifacts) (i : PredictionInput)
    (tr tr' : trace) (out : PredictionOutput) :
  predict A i tr = (Ok out, tr') ->
  exists X Xs,
    prepare_features (latitude i) (longitude i) (date i) = Ok X
    /\ scaler A X = Ok Xs
    /\ tr' = tr ++ [ Log (Info_received i); ScalerTransform X;
                     ModelPredict BestXgb Xs; ModelPredict StackingModel Xs;
                     ModelPredict ResidualModel Xs;
                     Log (Info_completed (prediction out)) ].
Proof.
  unfold predict, predict_body. run.
  destruct (prepare_features _ _ _) as [X|e] eqn:HX; [|done].
  destruct (scaler A X) as [Xs|e] eqn:HXs; [|done].
  destruct (best_xgb A Xs) as [p|e]; [|done].
  destruct (Py.getitem p 0) as [a|e]; [|done].
  destruct (stacking_model A Xs) as [q|e]; [|done].
  destruct (Py.getitem q 0) as [b|e]; [|done].
  destruct (Py.dict_getitem _ "xgb_weight") as [w0|e]; [|done].
  destruct (Py.dict_getitem _ "stacking_weight") as [w1|e]; [|done].
  destruct (weighted_ensemble_predictions a b _) as [c|e]; [|done].
  destruct (residual_model A Xs) as [p'|e]; [|done].
  destruct (Py.getitem p' 0) as [r|e]; [|done].
  intros [= <- <-]. exists X, Xs. do 2 (split; [done|]).
  cbn [prediction]. by rewrite <- !app_assoc.
Qed.

Lemma predict_success_trace_witness :
  exists X Xs,
    prepare_features 28.6139 77.2090 "2024-06-15" = Ok X
    /\ scaler stub_artifacts X = Ok Xs
    /\ snd (predict stub_artifacts stub_input [])
       = [] ++ [ Log (Info_received stub_input); ScalerTransform X;
                 ModelPredict BestXgb Xs; ModelPredict StackingModel Xs;
                 ModelPredict ResidualModel Xs;
                 Log (Info_completed 6) ].
Proof.
  pose proof (stub_scenario_exact []) as H.
  destruct (predict stub_artifacts stub_input []) as [r tr'] eqn:Hp.
  cbn [fst snd] in *. subst r.
  exact (predict_success_trace stub_artifacts stub_input [] tr' _ Hp).
Defined.

(** X11.  When the scaler raises, no model is called: the request is
    logged, the scaler is tried once, the error is logged, and the
    caller gets the 500. *)
Theorem scaler_failure_calls_no_model (A : Artifacts) (i : PredictionInput)
    (tr : trace) (X : list (list R)) (e : exn) :
  prepare_features (latitude i) (longitude i) (date i) = Ok X ->
  scaler A X = Raise e ->
  predict A i tr
  = (Raise (HTTPException 500 ("Prediction error: " +:+ Py.str e)),
     tr ++ [ Log (Info_received i); ScalerTransform X; Log (Error_failed e) ]).
Proof.
  intros HX He. unfold predict, predict_body. run. rewrite HX, He.
  by rewrite <- !app_assoc.
Qed.

Lemma scaler_failure_calls_no_model_witness :
  exists X,
    predict mismatched_scaler_artifacts stub_input []
    = (Raise (HTTPException 500 "Prediction error: X has 65 features, but StandardScaler is expecting 64 features as input."),
       [] ++ [ Log (Info_received stub_input); ScalerTransform X;
               Log (Error_failed (ValueError "X has 65 features, but StandardScaler is expecting 64 features as input.")) ]).
Proof.
  eexists.
  apply (scaler_failure_calls_no_model mismatched_scaler_artifacts stub_input [] _
           (ValueError "X has 65 features, but StandardScaler is expecting 64 features as input.")).
  - apply (prepare_features_valid _ _ _ (Datetime.Build_datetime 2024 6 15));
      [simpl; lra|simpl; lra|done].
  - reflexivity.
Defined.

(** X12.  When the weights file lacks the key "xgb_weight", both base
    models have already been called, the residual model never is, and
    the caller gets the 500 whose detail is the quoted key. *)
Theorem missing_weight_key (A : Artifacts) (i : PredictionInput) (tr : trace)
    (X Xs : list (list R)) (a b : R) :
  prepare_features (latitude i) (longitude i) (date i) = Ok X ->
  scaler A X = Ok Xs ->
  first_output (best_xgb A) Xs = Ok a ->
  first_output (stacking_model A) Xs = Ok b ->
  ensemble_weights A !! "xgb_weight" = None ->
  predict A i tr
  = (Raise (HTTPException 500 "Prediction error: 'xgb_weight'"),
     tr ++ [ Log (Info_received i); ScalerTransform X;
             ModelPredict BestXgb Xs; ModelPredict StackingModel Xs;
             Log (Error_failed (KeyError "xgb_weight")) ]).
Proof.
  intros HX HXs Ha Hb Hw. unfold predict, predict_body. run.
  rewrite HX, HXs. unfold first_output in Ha, Hb.
  destruct (best_xgb A Xs) as [p|e']; [|done]. cbn in Ha. rewrite Ha.
  destruct (stacking_model A Xs) as [q|e']; [|done]. cbn in Hb. rewrite Hb.
  unfold Py.dict_getitem. rewrite Hw.
  by rewrite <- !app_assoc.
Qed.

Lemma missing_weight_key_witness :
  exists X Xs,
    predict missing_weight_artifacts stub_input []
    = (Raise (HTTPException 500 "Prediction error: 'xgb_weight'"),
       [] ++ [ Log (Info_received stub_input); ScalerTransform X;
               ModelPredict BestXgb Xs; ModelPredict StackingModel Xs;
               Log (Error_failed (KeyError "xgb_weight")) ]).
Proof.
  eexists _, _.
  apply (missing_weight_key missing_weight_artifacts stub_input [] _ _ 5.0 7.0).
  - apply (prepare_features_valid _ _ _ (Datetime.Build_datetime 2024 6 15));
      [simpl; lra|simpl; lra|done].
  - reflexivity.
  - reflexivity.
  - reflexivity.
  - cbn [missing_weight_artifacts ensemble_weights].
    by apply lookup_singleton_ne.
Defined.

End MorePredict.

Section MoreService.
Local Open Scope R_scope.

(** X13.  Whatever the artifacts do, [predict] has two outcomes only: a
    [PredictionOutput] with the fixed units string and a confidence in
    [0.7, 1.0], or an [HTTPException] of status 500 whose detail starts
    with "Prediction error: ". *)
Theorem predict_outcomes (A : Artifacts) (i : PredictionInput) (tr : trace) :
  match fst (predict A i tr) with
  | Ok out =>
      units out = "meters below ground level"
      /\ 0.7 <= confidence out <= 1.0
      /\ confidence out = confidence_heuristic (prediction out)
  | Raise e =>
      exists e', stage_raises A i e'
        /\ e = HTTPException 500 ("Prediction error: " +:+ Py.str e')
  end.
Proof.
  rewrite predict_result.
  destruct (predict_body_cases A i tr) as [(out & -> & H)|(e & -> & H)].
  - destruct H as (X & Xs & a & b & c & r & _ & _ & _ & _ & _ & _ & ->).
    cbn [units confidence prediction]. split; [done|].
    split; [|done]. unfold confidence_heuristic. rewrite max_Rmax.
    unfold Rmax, Rabs. destruct (Rle_dec _ _), (Rcase_abs _); lra.
  - by exists e.
Qed.

(** X14.  The route answers 422 exactly when the input is invalid; for a
    valid input it answers 200 with a [PredictionOutput], or 500 with a
    "Prediction error: " detail naming what a stage raised.  No other
    status and no bare "Internal Server Error" is produced. *)
Theorem handle_responses (A : Artifacts) (lat lon : R) (s : string) (tr : trace) :
  match fst (handle A lat lon s tr) with
  | Response422 errors =>
      errors <> [] /\ PredictionInput_init lat lon s = inl errors
      /\ ~ (-90 <= lat <= 90 /\ -180 <= lon <= 180
            /\ is_ok (Datetime.strptime s) = true)
  | Response200 out =>
      (-90 <= lat <= 90 /\ -180 <= lon <= 180
       /\ is_ok (Datetime.strptime s) = true)
      /\ 0.7 <= confidence out <= 1.0
  | ResponseError code detail =>
      (-90 <= lat <= 90 /\ -180 <= lon <= 180
       /\ is_ok (Datetime.strptime s) = true)
      /\ code = 500%Z
      /\ exists e, detail = "Prediction error: " +:+ Py.str e
  end.
Proof.
  unfold handle.
  destruct (PredictionInput_init lat lon s) as [errors|i] eqn:Hi.
  - cbn [fst]. split; [|split; [done|]].
    + intros ->. revert Hi. unfold PredictionInput_init.
      destruct (validate_latitude lat), (validate_longitude lon),
        (validate_date_format s); done.
    + intros (Hlat & Hlon & Hs).
      assert (Hok : PredictionInput_init lat lon s
                    = inr {| latitude := lat; longitude := lon; date := s |})
        by (by apply PredictionInput_init_inr).
      congruence.
  - apply PredictionInput_init_inr in Hi as (Hlat & Hlon & Hs & _).
    pose proof (predict_outcomes A i tr) as Hp.
    destruct (predict A i tr) as [[out|e] tr']; cbn [fst] in Hp.
    + destruct Hp as (_ & Hc & _). cbn [fst]. done.
    + destruct Hp as (e' & _ & ->). cbn [fst].
      split; [done|]. split; [done|]. by exists e'.
Qed.

(** X15.  A [PredictionInput] is built exactly for coordinates in range
    and a date that parses, and then holds the three values unchanged;
    otherwise every invalid field, and no valid one, is reported. *)
Theorem validation_is_exact (lat lon : R) (s : string) :
  match PredictionInput_init lat lon s with
  | inr i =>
      (-90 <= lat <= 90 /\ -180 <= lon <= 180
       /\ is_ok (Datetime.strptime s) = true)
      /\ latitude i = lat /\ longitude i = lon /\ date i = s
  | inl errors =>
      (("latitude", "Latitude must be between -90 and 90") ∈ errors
       <-> ~ -90 <= lat <= 90)
      /\ (("longitude", "Longitude must be between -180 and 180") ∈ errors
          <-> ~ -180 <= lon <= 180)
      /\ (("date", "Date must be in YYYY-MM-DD format") ∈ errors
          <-> is_ok (Datetime.strptime s) = false)
      /\ (length errors <= 3)%nat
  end.
Proof.
  destruct (PredictionInput_init lat lon s) as [errors|i] eqn:Hi.
  - unfold PredictionInput_init in Hi.
    assert (Hlat : (-90 <= lat <= 90 /\ validate_latitude lat = Ok lat)
                   \/ (~ -90 <= lat <= 90 /\ validate_latitude lat
                        = Raise (ValueError "Latitude must be between -90 and 90"))).
    { destruct (Rle_dec (-90) lat), (Rle_dec lat 90);
        [left; split; [lra|apply validate_latitude_ok; lra]|..];
        right; (split; [lra|apply validate_latitude_raises; lra]). }
    assert (Hlon : (-180 <= lon <= 180 /\ validate_longitude lon = Ok lon)
                   \/ (~ -180 <= lon <= 180 /\ validate_longitude lon
                        = Raise (ValueError "Longitude must be between -180 and 180"))).
    { destruct (Rle_dec (-180) lon), (Rle_dec lon 180);
        [left; split; [lra|apply validate_longitude_ok; lra]|..];
        right; (split; [lra|apply validate_longitude_raises; lra]). }
    assert (Hs : (is_ok (Datetime.strptime s) = true /\ validate_date_format s = Ok s)
                 \/ (is_ok (Datetime.strptime s) = false /\ validate_date_format s
                      = Raise (ValueError "Date must be in YYYY-MM-DD format"))).
    { destruct (Datetime.strptime s) as [d|e] eqn:Hd.
      - left. split; [done|]. by eapply validate_date_format_ok.
      - right. split; [done|]. apply validate_date_format_raises. by rewrite Hd. }
    revert Hi.
    destruct Hlat as [[Hlat ->]|[Hlat ->]], Hlon as [[Hlon ->]|[Hlon ->]],
      Hs as [[Hs ->]|[Hs ->]];
      try done; intros [= <-]; cbn [field_error Py.str app length];
      rewrite ?Hs;
      repeat split; try lia; try done;
      rewrite ?elem_of_cons, ?elem_of_nil; intros; try done;
      try (intuition congruence); try (left; done); try (right; left; done);
      try (right; right; left; done); try (right; done).
  - by apply PredictionInput_init_inr in Hi as (? & ? & ? & ->).
Qed.

End MoreService.

Section HealthRoute.
Local Open Scope R_scope.



End HealthRoute.

(** * Properties of [wells_server.py] *)

Section WellDetailsErrors.
Local Open Scope R_scope.

(** The filter that [get_well_details] sends for a location. *)
Lemma get_well_details_body_query (c : Wells.Collection) (lat lng : R) :
  Wells.get_well_details_body (Some c) lat lng =
    (well_records ← Wells.find_sorted c
        (Wells.Build_range_query (lat - 0.001) (lat + 0.001)
                                 (lng - 0.001) (lng + 0.001));
     Wells.get_well_details_body
       (Some {| Wells.aggregate := Wells.aggregate c;
                Wells.find_sorted := fun _ => Ok well_records;
                Wells.count_documents := Wells.count_documents c |}) lat lng).
Proof.
  unfold Wells.get_well_details_body. cbn [Wells.find_sorted].
  by destruct (Wells.find_sorted c _).
Qed.

(** X17.  [get_well_details] raises nothing but [HTTPException]: 503
    when there is no MongoDB connection, 404 when the location has no
    record, both passed through unchanged by the first [except] clause,
    and 500 "Database error: ..." for whatever else the query raises. *)
Theorem get_well_details_errors (lat lng : R) :
  Wells.get_well_details None lat lng
  = Raise (HTTPException 503 "MongoDB connection not available")
  /\ (forall c : Wells.Collection,
        Wells.find_sorted c
          (Wells.Build_range_query (lat - 0.001) (lat + 0.001)
                                   (lng - 0.001) (lng + 0.001)) = Ok [] ->
        Wells.get_well_details (Some c) lat lng
        = Raise (HTTPException 404 "No data found for this location"))
  /\ (forall (c : Wells.Collection) (msg : string),
        Wells.find_sorted c
          (Wells.Build_range_query (lat - 0.001) (lat + 0.001)
                                   (lng - 0.001) (lng + 0.001))
        = Raise (OtherException msg) ->
        Wells.get_well_details (Some c) lat lng
        = Raise (HTTPException 500 ("Database error: " +:+ msg)))
  /\ (forall (wc : option Wells.Collection) (e : exn),
        Wells.get_well_details wc lat lng = Raise e ->
        exists code detail, e = HTTPException code detail).
Proof.
  split; [done|]. split; [|split].
  - intros c Hf. unfold Wells.get_well_details.
    rewrite get_well_details_body_query, Hf. done.
  - intros c msg Hf. unfold Wells.get_well_details.
    rewrite get_well_details_body_query, Hf. done.
  - intros wc e. unfold Wells.get_well_details.
    destruct (Wells.get_well_details_body wc lat lng) as [r|e']; [done|].
    destruct e'; intros [= <-]; eauto.
Qed.

Lemma get_well_details_errors_witness :
  Wells.get_well_details (Some Wells.empty) 28.6139 77.2090
  = Raise (HTTPException 404 "No data found for this location")
  /\ Wells.get_well_details (Some Wells.down) 28.6139 77.2090
     = Raise (HTTPException 500 "Database error: connection refused").
Proof.
  destruct (get_well_details_errors 28.6139 77.2090) as (_ & H404 & H500 & _).
  split; [by apply H404|by apply (H500 Wells.down "connection refused")].
Defined.

End WellDetailsErrors.

Section WellStatistics.
Local Open Scope R_scope.

(** [sum] keeps an int or a float as its running total, whatever
    numbers it meets. *)
Lemma add_numeric (acc v : Wells.value) :
  (exists a, acc = Wells.VInt a) \/ (exists x, acc = Wells.VFloat x) ->
  Wells.numeric v = true ->
  exists t, Wells.add acc v = Ok t
    /\ ((exists a, t = Wells.VInt a) \/ (exists x, t = Wells.VFloat x)).
Proof.
  intros [[a ->]|[x ->]] Hv; destruct v as [z|y|b|s|ty]; try done;
    eexists; (split; [reflexivity|]); eauto.
Qed.

Lemma sum_from_numeric (l : list Wells.value) (acc : Wells.value) :
  (exists a, acc = Wells.VInt a) \/ (exists x, acc = Wells.VFloat x) ->
  Forall (fun v => Wells.numeric v = true) l ->
  exists t, Wells.sum_from acc l = Ok t
    /\ ((exists a, t = Wells.VInt a) \/ (exists x, t = Wells.VFloat x)).
Proof.
  revert acc. induction l as [|v l IH]; intros acc Hacc Hl; [by exists acc|].
  apply Forall_cons in Hl as [Hv Hl].
  destruct (add_numeric acc v Hacc Hv) as (t & Ht & Hplain).
  destruct (IH t Hplain Hl) as (t' & Ht' & Hplain').
  exists t'. cbn [Wells.sum_from]. rewrite Ht. done.
Qed.


(** Dividing a total by a positive count returns. *)
Lemma truediv_returns (total : Wells.value) (n : nat) :
  (exists a, total = Wells.VInt a) \/ (exists x, total = Wells.VFloat x) ->
  n <> 0%nat -> exists average, Wells.truediv total n = Ok average.
Proof.
  intros [[a ->]|[x ->]] Hn; cbn; rewrite bool_decide_eq_false_2 by done; eauto.
Qed.

Lemma number_numeric (v : Wells.value) :
  is_Some (Wells.number v) -> Wells.numeric v = true.
Proof. destruct v as [z|[r|sg|]|b|s|ty]; by intros [x Hx]. Qed.

(** Finite numbers are compared by their values. *)
Lemma lt_numbers (a b : Wells.value) (x y : R) :
  Wells.number a = Some x -> Wells.number b = Some y ->
  Wells.lt a b = Ok (Py.Rltb x y).
Proof.
  intros Ha Hb. unfold Wells.lt.
  destruct a as [z|[r|sg|]|[|]|s|ty]; try done;
    destruct b as [z'|[r'|sg'|]|[|]|s'|ty']; try done;
    injection Ha as <-; injection Hb as <-; reflexivity.
Qed.

Lemma min_from_numbers (l : list Wells.value) (m : Wells.value) (x : R) :
  Wells.number m = Some x ->
  Forall (fun v => is_Some (Wells.number v)) l ->
  exists mn xmin, Wells.min_from m l = Ok mn
    /\ mn ∈ m :: l
    /\ Wells.number mn = Some xmin
    /\ xmin <= x
    /\ Forall (fun y => xmin <= y) (omap Wells.number l).
Proof.
  revert m x. induction l as [|v l IH]; intros m x Hm Hl.
  - exists m, x. split; [done|]. split; [apply list_elem_of_here|].
    split; [done|]. split; [lra|]. constructor.
  - apply Forall_cons in Hl as [[y Hy] Hl].
    cbn [Wells.min_from]. rewrite (lt_numbers v m y x Hy Hm). cbn [mbind exc_bind].
    cbn [omap list_omap]. rewrite Hy.
    destruct (Py.Rltb y x) eqn:Hlt.
    + apply Rltb_true in Hlt.
      destruct (IH v y Hy Hl) as (mn & xmin & Hmin & Hin & Hn & Hle & Hall).
      exists mn, xmin. split; [done|]. split; [by apply list_elem_of_further|].
      split; [done|]. split; [lra|]. by apply Forall_cons.
    + assert (x <= y).
      { unfold Py.Rltb in Hlt. destruct (Rlt_dec y x); [done|lra]. }
      destruct (IH m x Hm Hl) as (mn & xmin & Hmin & Hin & Hn & Hle & Hall).
      exists mn, xmin. split; [done|]. split.
      { apply elem_of_cons in Hin as [->|Hin];
          [apply list_elem_of_here|by do 2 apply list_elem_of_further]. }
      split; [done|]. split; [done|]. apply Forall_cons. split; [lra|done].
Qed.

Lemma max_from_numbers (l : list Wells.value) (m : Wells.value) (x : R) :
  Wells.number m = Some x ->
  Forall (fun v => is_Some (Wells.number v)) l ->
  exists mx xmax, Wells.max_from m l = Ok mx
    /\ mx ∈ m :: l
    /\ Wells.number mx = Some xmax
    /\ x <= xmax
    /\ Forall (fun y => y <= xmax) (omap Wells.number l).
Proof.
  revert m x. induction l as [|v l IH]; intros m x Hm Hl.
  - exists m, x. split; [done|]. split; [apply list_elem_of_here|].
    split; [done|]. split; [lra|]. constructor.
  - apply Forall_cons in Hl as [[y Hy] Hl].
    cbn [Wells.max_from]. rewrite (lt_numbers m v x y Hm Hy). cbn [mbind exc_bind].
    cbn [omap list_omap]. rewrite Hy.
    destruct (Py.Rltb x y) eqn:Hlt.
    + apply Rltb_true in Hlt.
      destruct (IH v y Hy Hl) as (mx & xmax & Hmax & Hin & Hn & Hle & Hall).
      exists mx, xmax. split; [done|]. split; [by apply list_elem_of_further|].
      split; [done|]. split; [lra|]. by apply Forall_cons.
    + assert (y <= x).
      { unfold Py.Rltb in Hlt. destruct (Rlt_dec x y); [done|lra]. }
      destruct (IH m x Hm Hl) as (mx & xmax & Hmax & Hin & Hn & Hle & Hall).
      exists mx, xmax. split; [done|]. split.
      { apply elem_of_cons in Hin as [->|Hin];
          [apply list_elem_of_here|by do 2 apply list_elem_of_further]. }
      split; [done|]. split; [done|]. apply Forall_cons. split; [lra|done].
Qed.


End WellStatistics.

Section WellDetails.
Local Open Scope R_scope.

Lemma for_each_Forall2 {A B : Type} (f : A -> exc B) (l : list A) (ys : list B) :
  Wells.for_each f l = Ok ys <-> Forall2 (fun x y => f x = Ok y) l ys.
Proof.
  revert ys. induction l as [|x l IH]; intros ys; cbn.
  - split; [intros [= <-]; constructor|intros H; by inversion H].
  - destruct (f x) as [y|e] eqn:Hx.
    + destruct (Wells.for_each f l) as [ys'|e] eqn:Hl.
      * split.
        -- intros [= <-]. constructor; [done|]. by apply IH.
        -- intros H. inversion H as [|? y' ? ys'' Hy Hys]; subst.
           apply IH in Hys. congruence.
      * split; [done|]. intros H. inversion H as [|? y' ? ys'' Hy Hys]; subst.
        by apply IH in Hys.
    + split; [done|]. intros H. inversion H; congruence.
Qed.

Lemma for_each_raises {A B : Type} (f : A -> exc B) (pre post : list A)
    (x : A) (e : exn) :
  Forall (fun a => is_ok (f a) = true) pre -> f x = Raise e ->
  Wells.for_each f (pre ++ x :: post) = Raise e.
Proof.
  intros Hpre Hx. induction pre as [|a pre IH]; cbn.
  - by rewrite Hx.
  - apply Forall_cons in Hpre as [Ha Hpre].
    destruct (f a); [|done]. by rewrite (IH Hpre).
Qed.

Lemma complete_has_fields (record : Wells.doc) :
  Wells.complete_record record -> Wells.has_fields record.
Proof.
  intros (Hd & Hla & Hlo & w & Hw & _).
  split; [done|]. split; [by exists w|]. done.
Qed.

Lemma process_record_fields (record : Wells.doc) :
  Wells.has_fields record ->
  exists entry, Wells.process_record record = Ok entry /\ Wells.renamed record entry.
Proof.
  intros ([d Hd] & [w Hw] & [la Hla] & [lo Hlo]).
  unfold Wells.process_record, Py.dict_getitem. rewrite Hd, Hw, Hla, Hlo.
  eexists. split; [reflexivity|]. unfold Wells.renamed.
  rewrite Hd, Hw, Hla, Hlo.
  repeat split; try (by simplify_map_eq).
  intros k ? ? ? ?. by simplify_map_eq.
Qed.

Lemma for_each_process_fields (records : list Wells.doc) :
  Forall Wells.has_fields records ->
  exists processed,
    Wells.for_each Wells.process_record records = Ok processed
    /\ Forall2 Wells.renamed records processed.
Proof.
  induction 1 as [|r records Hr _ (processed & IH & Hren)]; [by exists []|].
  destruct (process_record_fields r Hr) as (entry & He & Hre).
  exists (entry :: processed). cbn. rewrite He, IH. split; [done|]. by constructor.
Qed.

Lemma for_each_levels_fields (records : list Wells.doc) :
  Forall Wells.has_fields records ->
  Wells.for_each (fun r : Wells.doc => Py.dict_getitem r "DTWL") records
    = Ok (Wells.levels records)
  /\ length (Wells.levels records) = length records.
Proof.
  unfold Wells.levels.
  induction 1 as [|r records (_ & [w Hw] & _) _ (IH & Hlen)]; [done|].
  cbn. unfold Py.dict_getitem at 1. rewrite Hw, IH. cbn.
  split; [done|]. by rewrite Hlen.
Qed.

Lemma levels_complete (records : list Wells.doc) :
  Forall Wells.complete_record records ->
  Forall (fun v => is_Some (Wells.number v)) (Wells.levels records).
Proof.
  unfold Wells.levels.
  induction 1 as [|r records (_ & _ & _ & w & Hw & Hn) _ IH]; [done|].
  cbn. rewrite Hw. by constructor.
Qed.


(** What the [try] block does once the query has answered. *)
Lemma get_well_details_records (c : Wells.Collection) (lat lng : R)
    (records : list Wells.doc) :
  Wells.find_sorted c
    (Wells.Build_range_query (lat - 0.001) (lat + 0.001)
                             (lng - 0.001) (lng + 0.001)) = Ok records ->
  records <> [] ->
  Wells.get_well_details_body (Some c) lat lng =
    (processed_data ← Wells.for_each Wells.process_record records;
     water_levels ← Wells.for_each (fun r : Wells.doc => Py.dict_getitem r "DTWL") records;
     total ← Wells.sum water_levels;
     average ← Wells.truediv total (length water_levels);
     minimum ← Wells.min water_levels;
     maximum ← Wells.max water_levels;
     mret {| Wells.details_success := true;
             Wells.details_location := (lat, lng);
             Wells.details_count := length processed_data;
             Wells.details_timeseries := processed_data;
             Wells.details_statistics :=
               {[ "average" := Wells.VFloat average; "minimum" := minimum;
                  "maximum" := maximum; "trend" := Wells.VStr "stable" ]} |}).
Proof.
  intros Hf Hne. rewrite get_well_details_body_query, Hf. cbn [mbind exc_bind].
  unfold Wells.get_well_details_body. cbn [Wells.find_sorted mbind exc_bind].
  by rewrite bool_decide_eq_false_2.
Qed.

(** The response for a non-empty list of complete records. *)
Lemma get_well_details_complete (c : Wells.Collection) (lat lng : R)
    (records : list Wells.doc) :
  Wells.find_sorted c
    (Wells.Build_range_query (lat - 0.001) (lat + 0.001)
                             (lng - 0.001) (lng + 0.001)) = Ok records ->
  records <> [] ->
  Forall Wells.complete_record records ->
  exists processed total average mn mx xmin xmax,
    Wells.get_well_details (Some c) lat lng
    = Ok {| Wells.details_success := true;
            Wells.details_location := (lat, lng);
            Wells.details_count := length processed;
            Wells.details_timeseries := processed;
            Wells.details_statistics :=
              {[ "average" := Wells.VFloat average; "minimum" := mn;
                 "maximum" := mx; "trend" := Wells.VStr "stable" ]} |}
    /\ Forall2 Wells.renamed records processed
    /\ Wells.sum (Wells.levels records) = Ok total
    /\ Wells.truediv total (length records) = Ok average
    /\ mn ∈ Wells.levels records /\ Wells.number mn = Some xmin
    /\ mx ∈ Wells.levels records /\ Wells.number mx = Some xmax
    /\ Forall (fun y => xmin <= y <= xmax) (Wells.level_numbers records).
Proof.
  intros Hf Hne Hall.
  assert (Hfields : Forall Wells.has_fields records)
    by (eapply Forall_impl; [exact Hall|apply complete_has_fields]).
  destruct (for_each_process_fields records Hfields) as (processed & Hproc & Hren).
  destruct (for_each_levels_fields records Hfields) as (Hlev & Hlen).
  pose proof (levels_complete records Hall) as Hnum.
  destruct (sum_from_numeric (Wells.levels records) (Wells.VInt 0))
    as (total & Hsum & Htot); [by left; eexists| |].
  { eapply Forall_impl; [exact Hnum|apply number_numeric]. }
  destruct (truediv_returns total (length records) Htot) as [average Havg].
  { by destruct records. }
  assert (Hlevne : exists v vs, Wells.levels records = v :: vs).
  { destruct (Wells.levels records) as [|v vs]; [|by eauto].
    destruct records; [done|]. done. }
  destruct Hlevne as (v & vs & Hvs).
  assert (Hv : is_Some (Wells.number v) /\ Forall (fun v => is_Some (Wells.number v)) vs).
  { rewrite Hvs in Hnum. by apply Forall_cons in Hnum. }
  destruct Hv as [[x Hx] Hvsn].
  destruct (min_from_numbers vs v x Hx Hvsn) as (mn & xmin & Hmin & Hmin_in & Hmn & Hmin_le & Hmin_all).
  destruct (max_from_numbers vs v x Hx Hvsn) as (mx & xmax & Hmax & Hmax_in & Hmx & Hmax_le & Hmax_all).
  exists processed, total, average, mn, mx, xmin, xmax.
  split.
  { unfold Wells.get_well_details.
    rewrite (get_well_details_records c lat lng records Hf Hne).
    rewrite Hproc, Hlev. cbn [mbind exc_bind]. unfold Wells.sum in *. rewrite Hsum.
    cbn [mbind exc_bind]. rewrite Hlen, Havg.
    cbn [mbind exc_bind]. rewrite Hvs. cbn [Wells.min Wells.max].
    rewrite Hmin, Hmax. done. }
  split; [done|]. split; [done|]. split; [done|].
  rewrite Hvs. do 4 (split; [done|]).
  unfold Wells.level_numbers. rewrite Hvs. cbn [omap list_omap]. rewrite Hx.
  apply Forall_cons. split; [lra|].
  apply Forall_forall. intros y Hy.
  rewrite Forall_forall in Hmin_all, Hmax_all.
  split; [by apply Hmin_all|by apply Hmax_all].
Qed.

Lemma record_1_complete : Wells.complete_record Wells.record_1.
Proof.
  unfold Wells.complete_record, Wells.record_1.
  repeat split; try (by simplify_map_eq).
  eexists. split; [by simplify_map_eq|]. done.
Qed.

Lemma record_2_complete : Wells.complete_record Wells.record_2.
Proof.
  unfold Wells.complete_record, Wells.record_2.
  repeat split; try (by simplify_map_eq).
  eexists. split; [by simplify_map_eq|]. done.
Qed.

(** X18.  For a location whose query returns complete records,
    [get_well_details] answers with one time-series entry per record,
    in the order returned, each the record with its four fields renamed
    (Date, DTWL, LATITUDE, LONGITUDE to date, waterlevel, lat, long);
    [count] is the number of records, at least 1, and [location] is the
    requested point. *)
Theorem get_well_details_timeseries (c : Wells.Collection) (lat lng : R)
    (records : list Wells.doc) :
  Wells.find_sorted c
    (Wells.Build_range_query (lat - 0.001) (lat + 0.001)
                             (lng - 0.001) (lng + 0.001)) = Ok records ->
  records <> [] ->
  Forall Wells.complete_record records ->
  exists resp,
    Wells.get_well_details (Some c) lat lng = Ok resp
    /\ Wells.details_success resp = true
    /\ Wells.details_location resp = (lat, lng)
    /\ Wells.details_count resp = length records
    /\ (1 <= Wells.details_count resp)%nat
    /\ Forall2 Wells.renamed records (Wells.details_timeseries resp).
Proof.
  intros Hf Hne Hall.
  destruct (get_well_details_complete c lat lng records Hf Hne Hall)
    as (processed & total & average & mn & mx & xmin & xmax & -> & Hren & _).
  eexists. split; [reflexivity|]. cbn.
  pose proof (Forall2_length _ _ _ Hren) as Hlen.
  do 2 (split; [done|]). split; [done|]. split; [|done].
  rewrite <- Hlen. destruct records; [done|cbn; lia].
Qed.

Lemma get_well_details_timeseries_witness :
  exists resp,
    Wells.get_well_details
      (Some (Wells.holding [Wells.record_1; Wells.record_2])) 28.6139 77.2090
    = Ok resp
    /\ Wells.details_success resp = true
    /\ Wells.details_location resp = (28.6139, 77.2090)
    /\ Wells.details_count resp = 2%nat
    /\ (1 <= Wells.details_count resp)%nat
    /\ Forall2 Wells.renamed [Wells.record_1; Wells.record_2]
         (Wells.details_timeseries resp).
Proof.
  apply (get_well_details_timeseries
           (Wells.holding [Wells.record_1; Wells.record_2]) 28.6139 77.2090
           [Wells.record_1; Wells.record_2]).
  - reflexivity.
  - discriminate.
  - apply Forall_cons_2; [apply record_1_complete|].
    apply Forall_cons_2; [apply record_2_complete|apply Forall_nil_2].
Defined.



Lemma process_record_is_ok (record : Wells.doc) :
  Wells.has_fields record -> is_ok (Wells.process_record record) = true.
Proof.
  intros H. by destruct (process_record_fields record H) as (entry & -> & _).
Qed.

(** X20.  A record that lacks one of the four fields makes the whole
    request fail: the first such record, by its first missing field in
    the order Date, DTWL, LATITUDE, LONGITUDE, turns into a 500 whose
    detail is "Database error: " and the quoted field name; no partial
    time series is returned.  The records before it need only hold the
    four fields, and the records after it can be anything. *)
Theorem get_well_details_missing_field (c : Wells.Collection) (lat lng : R)
    (pre post : list Wells.doc) (record : Wells.doc) :
  Wells.find_sorted c
    (Wells.Build_range_query (lat - 0.001) (lat + 0.001)
                             (lng - 0.001) (lng + 0.001))
  = Ok (pre ++ record :: post) ->
  Forall Wells.has_fields pre ->
  (record !! "Date" = None ->
   Wells.get_well_details (Some c) lat lng
   = Raise (HTTPException 500 "Database error: 'Date'"))
  /\ (is_Some (record !! "Date") -> record !! "DTWL" = None ->
      Wells.get_well_details (Some c) lat lng
      = Raise (HTTPException 500 "Database error: 'DTWL'"))
  /\ (is_Some (record !! "Date") -> is_Some (record !! "DTWL") ->
      record !! "LATITUDE" = None ->
      Wells.get_well_details (Some c) lat lng
      = Raise (HTTPException 500 "Database error: 'LATITUDE'"))
  /\ (is_Some (record !! "Date") -> is_Some (record !! "DTWL") ->
      is_Some (record !! "LATITUDE") -> record !! "LONGITUDE" = None ->
      Wells.get_well_details (Some c) lat lng
      = Raise (HTTPException 500 "Database error: 'LONGITUDE'")).
Proof.
  intros Hf Hpre.
  assert (Hok : Forall (fun a => is_ok (Wells.process_record a) = true) pre).
  { eapply Forall_impl; [exact Hpre|]. apply process_record_is_ok. }
  assert (Hgo : forall key,
    Wells.process_record record = Raise (KeyError key) ->
    Wells.get_well_details (Some c) lat lng
    = Raise (HTTPException 500 ("Database error: " +:+ Py.str (KeyError key)))).
  { intros key Hrec. unfold Wells.get_well_details.
    rewrite (get_well_details_records c lat lng _ Hf) by (by destruct pre).
    by rewrite (for_each_raises _ pre post record _ Hok Hrec). }
  unfold Wells.process_record, Py.dict_getitem in Hgo.
  split; [|split; [|split]].
  - intros Hd. apply (Hgo "Date"). by rewrite Hd.
  - intros [d Hd] Hw. apply (Hgo "DTWL"). by rewrite Hd, Hw.
  - intros [d Hd] [w Hw] Hla. apply (Hgo "LATITUDE"). by rewrite Hd, Hw, Hla.
  - intros [d Hd] [w Hw] [la Hla] Hlo. apply (Hgo "LONGITUDE").
    by rewrite Hd, Hw, Hla, Hlo.
Qed.

Lemma get_well_details_missing_field_witness :
  Wells.get_well_details
    (Some (Wells.holding [Wells.record_unmeasured; Wells.record_undated;
                          Wells.record_2]))
    28.6139 77.2090
  = Raise (HTTPException 500 "Database error: 'Date'").
Proof.
  destruct (get_well_details_missing_field
              (Wells.holding [Wells.record_unmeasured; Wells.record_undated;
                              Wells.record_2])
              28.6139 77.2090 [Wells.record_unmeasured] [Wells.record_2]
              Wells.record_undated)
    as (H & _).
  - reflexivity.
  - apply Forall_cons_2; [|apply Forall_nil_2].
    unfold Wells.has_fields, Wells.record_unmeasured.
    repeat split; by simplify_map_eq.
  - apply H. unfold Wells.record_undated. by simplify_map_eq.
Defined.




End WellDetails.

Section WellsSummary.

(** X22.  [get_wells_summary] never raises.  Without a connection it
    answers with a message; when one of its three database calls
    raises (the count, the date aggregation or the unique-locations
    aggregation), or the count document lacks "unique_wells", it
    answers with an "error" body (an ordinary response, not an HTTP
    error); on an empty collection it reports 0 unique wells and an
    empty date range. *)
Theorem get_wells_summary_never_raises (wc : option Wells.Collection) :
  exists r, Wells.get_wells_summary wc = Ok r
    /\ (wc = None -> r = Wells.SummaryMessage "MongoDB not available, using sample data")
    /\ (forall c e, wc = Some c -> Wells.count_documents c = Raise e ->
          r = Wells.SummaryError ("Database error: " +:+ Py.str e))
    /\ (forall c total e, wc = Some c -> Wells.count_documents c = Ok total ->
          Wells.aggregate c Wells.DateStats = Raise e ->
          r = Wells.SummaryError ("Database error: " +:+ Py.str e))
    /\ (forall c total stats e, wc = Some c -> Wells.count_documents c = Ok total ->
          Wells.aggregate c Wells.DateStats = Ok stats ->
          Wells.aggregate c Wells.UniqueLocations = Raise e ->
          r = Wells.SummaryError ("Database error: " +:+ Py.str e))
    /\ (forall c total stats d rest, wc = Some c ->
          Wells.count_documents c = Ok total ->
          Wells.aggregate c Wells.DateStats = Ok stats ->
          Wells.aggregate c Wells.UniqueLocations = Ok (d :: rest) ->
          d !! "unique_wells" = None ->
          r = Wells.SummaryError "Database error: 'unique_wells'")
    /\ (forall c total, wc = Some c -> Wells.count_documents c = Ok total ->
          Wells.aggregate c Wells.DateStats = Ok [] ->
          Wells.aggregate c Wells.UniqueLocations = Ok [] ->
          r = Wells.SummaryStats total (Wells.VInt 0) ∅ "mongodb")
    /\ (forall c total stats rest d n rest', wc = Some c ->
          Wells.count_documents c = Ok total ->
          Wells.aggregate c Wells.DateStats = Ok (stats :: rest) ->
          Wells.aggregate c Wells.UniqueLocations = Ok (d :: rest') ->
          d !! "unique_wells" = Some n ->
          r = Wells.SummaryStats total n stats "mongodb").
Proof.
  assert (Hok : exists r, Wells.get_wells_summary wc = Ok r).
  { unfold Wells.get_wells_summary.
    destruct (Wells.get_wells_summary_body wc); eauto. }
  destruct Hok as [r Hr]. exists r. split; [done|].
  unfold Wells.get_wells_summary, Wells.get_wells_summary_body in Hr.
  split; [|split; [|split; [|split; [|split; [|split]]]]].
  - intros ->. by injection Hr as <-.
  - intros c e -> Hc. rewrite Hc in Hr. by injection Hr as <-.
  - intros c total e -> Hc Hd. rewrite Hc, Hd in Hr. by injection Hr as <-.
  - intros c total stats e -> Hc Hd Hu. rewrite Hc, Hd, Hu in Hr.
    by injection Hr as <-.
  - intros c total stats d rest -> Hc Hd Hu Hk. rewrite Hc, Hd, Hu in Hr.
    cbn [mbind exc_bind Wells.unique_wells_of] in Hr.
    unfold Py.dict_getitem in Hr. rewrite Hk in Hr. by injection Hr as <-.
  - intros c total -> Hc Hd Hu. rewrite Hc, Hd, Hu in Hr. by injection Hr as <-.
  - intros c total stats rest d n rest' -> Hc Hd Hu Hk. rewrite Hc, Hd, Hu in Hr.
    cbn [mbind exc_bind Wells.unique_wells_of] in Hr.
    unfold Py.dict_getitem in Hr. rewrite Hk in Hr. by injection Hr as <-.
Qed.

Lemma get_wells_summary_never_raises_witness :
  Wells.get_wells_summary (Some Wells.down)
  = Ok (Wells.SummaryError "Database error: connection refused")
  /\ Wells.get_wells_summary (Some Wells.failing_unique_locations)
     = Ok (Wells.SummaryError "Database error: cursor timed out")
  /\ Wells.get_wells_summary (Some Wells.empty)
     = Ok (Wells.SummaryStats 0 (Wells.VInt 0) ∅ "mongodb").
Proof.
  split; [|split].
  - destruct (get_wells_summary_never_raises (Some Wells.down))
      as (r & -> & _ & H & _).
    f_equal. by apply (H Wells.down (OtherException "connection refused")).
  - destruct (get_wells_summary_never_raises (Some Wells.failing_unique_locations))
      as (r & -> & _ & _ & _ & H & _).
    f_equal.
    by apply (H Wells.failing_unique_locations 0%Z []
                (OtherException "cursor timed out")).
  - destruct (get_wells_summary_never_raises (Some Wells.empty))
      as (r & -> & _ & _ & _ & _ & _ & H & _).
    f_equal. by apply (H Wells.empty 0%Z).
Defined.

End WellsSummary.

Section UniformBound.
Local Open Scope R_scope.

(** With [random()] at the largest double below 1, [uniform(1, 3)] is
    exactly 3.0: the sum [1 + (2 - 2^-52)] lies halfway between two
    doubles and rounds to the even one. *)
Lemma uniform_reaches_upper_bound :
  fst (Wells.uniform unit Wells.almost_one_random (Py.Finite 1) (Py.Finite 3) tt)
  = Py.Finite 3.
Proof.
  unfold Wells.uniform, Wells.almost_one_random. cbn [fst].
  unfold Py.fsub, Py.fneg, Py.fadd, Py.fmul.
  assert (H2 : Py.round64 (3 + - (1)) = 2).
  { replace (3 + - (1)) with (IZR 2) by lra. by apply round64_IZR. }
  assert (Ht : Py.round64 (2 * (1 - / 9007199254740992)) = 2 - / 4503599627370496).
  { pose proof (round64_representable (2 ^ 53 - 1) (-52) ltac:(lia) ltac:(lia)) as H.
    rewrite bpow_neg in H.
    change (IZR (2 ^ 53 - 1)) with 9007199254740991 in H.
    change (IZR (2 ^ 52)) with 4503599627370496 in H.
    replace (2 * (1 - / 9007199254740992))
      with (9007199254740991 * / 4503599627370496) by lra.
    rewrite H. lra. }
  assert (Hw : Py.round64 (1 + (2 - / 4503599627370496)) = 3).
  { assert (Hu : powerRZ 2 (1 - 52) = / 2251799813685248).
    { change (1 - 52)%Z with (-51)%Z. by rewrite bpow_neg. }
    rewrite (round64_eval _ 1 (3 * 2 ^ 51)).
    - rewrite Hu. change (IZR (3 * 2 ^ 51)) with 6755399441055744. lra.
    - lia.
    - rewrite !bpow_IZR by lia. change (IZR (2 ^ 1)) with 2.
      change (IZR (2 ^ (1 + 1))) with 4. rewrite Rabs_pos_eq by lra. lra.
    - rewrite Hu.
      replace ((1 + (2 - / 4503599627370496)) / / 2251799813685248)
        with (IZR (3 * 2 ^ 51 - 1) + 1 / 2)
        by (change (IZR (3 * 2 ^ 51 - 1)) with 6755399441055743; lra).
      by rewrite rne_tie. }
  rewrite (of_real_finite (3 + - (1))) by (apply Rabs_le; lra). rewrite H2.
  rewrite (of_real_finite (2 * _)) by (apply Rabs_le; lra). rewrite Ht.
  rewrite (of_real_finite (1 + _)) by (apply Rabs_le; lra). by rewrite Hw.
Qed.

End UniformBound.

Section SampleWells.
Local Open Scope R_scope.

Context {rng : Type} (random : rng -> R * rng) (randbelow : Z -> rng -> Z * rng).

(** What [random()] and [_randbelow(n)] guarantee. *)
Hypothesis random_range : forall g, 0 <= fst (random g) < 1.
Hypothesis randbelow_range :
  forall n g, (0 < n)%Z -> (0 <= fst (randbelow n g) < n)%Z.

(** [random.uniform(a, b)] for doubles [a <= b] lies between [a] and
    what [a + (b - a)] rounds to, both included, and is a double. *)
Lemma uniform_range (a b : R) (g : rng) :
  a <= b -> Rabs a <= 100 -> Rabs b <= 100 -> Py.round64 a = a ->
  exists w,
    fst (Wells.uniform rng random (Py.Finite a) (Py.Finite b) g) = Py.Finite w
    /\ a <= w <= Py.round64 (a + Py.round64 (b + - a))
    /\ Py.round64 w = w.
Proof.
  intros Hab Ha Hb Hdouble. unfold Wells.uniform.
  pose proof (random_range g) as Hu. destruct (random g) as [u g'].
  cbn [fst] in *.
  apply Rabs_le_inv in Ha, Hb.
  set (d := Py.round64 (b + - a)).
  assert (Hd : 0 <= d <= 200).
  { apply (round64_between _ 0 200); [lia|lia|lra]. }
  assert (Hdd : Py.round64 d = d) by apply round64_idem.
  set (t := Py.round64 (d * u)).
  assert (Ht : 0 <= t <= d).
  { unfold t. split.
    - rewrite <- round64_0. apply round64_le. nra.
    - rewrite <- Hdd. apply round64_le. nra. }
  exists (Py.round64 (a + t)).
  split.
  { unfold Py.fsub, Py.fneg, Py.fadd, Py.fmul.
    rewrite (of_real_finite (b + - a)) by (apply Rabs_le; lra). fold d.
    rewrite (of_real_finite (d * u)) by (apply Rabs_le; nra). fold t.
    by rewrite (of_real_finite (a + t)) by (apply Rabs_le; lra). }
  split; [|apply round64_idem].
  split.
  - rewrite <- Hdouble at 1. apply round64_le. lra.
  - apply round64_le. lra.
Qed.

Lemma randint_range (a b : Z) (g : rng) :
  (a <= b)%Z -> (a <= fst (Wells.randint rng randbelow a b g) <= b)%Z.
Proof.
  intros Hab. unfold Wells.randint.
  pose proof (randbelow_range (b + 1 - a) g ltac:(lia)) as Hk.
  destruct (randbelow (b + 1 - a)%Z g) as [k g']. cbn [fst] in *. lia.
Qed.

(** [random.uniform(a, b)] for two small integers. *)
Lemma uniform_integers (a b : Z) (g : rng) :
  (0 <= a <= b)%Z -> (b <= 100)%Z ->
  exists w,
    fst (Wells.uniform rng random (Py.Finite (IZR a)) (Py.Finite (IZR b)) g)
    = Py.Finite w
    /\ IZR a <= w <= IZR b /\ Py.round64 w = w.
Proof.
  intros Ha Hb.
  assert (Ha' : 0 <= IZR a <= 100) by (split; apply IZR_le; lia).
  assert (Hb' : 0 <= IZR b <= 100) by (split; apply IZR_le; lia).
  destruct (uniform_range (IZR a) (IZR b) g) as (w & Hw & [Hlo Hhi] & Hdouble).
  - apply IZR_le. lia.
  - apply Rabs_le. lra.
  - apply Rabs_le. lra.
  - apply round64_IZR. lia.
  - exists w. split; [done|]. split; [|done]. split; [done|].
    rewrite <- opp_IZR, <- plus_IZR, round64_IZR in Hhi by lia.
    rewrite <- plus_IZR, round64_IZR in Hhi by lia.
    by replace (a + (b + - a))%Z with b in Hhi by lia.
Qed.

(** [random.uniform(-0.01, 0.01)]: the two literals are rounded, and so
    are the three operations. *)
Lemma uniform_variation (g : rng) :
  exists v,
    fst (Wells.uniform rng random (Py.of_real (-0.01)) (Py.of_real 0.01) g)
    = Py.Finite v
    /\ Rabs v <= 0.01 + 3 / 100000000.
Proof.
  rewrite !of_real_finite by (apply Rabs_le; lra).
  set (a := Py.round64 (-0.01)). set (b := Py.round64 0.01).
  pose proof (round64_close (-0.01) ltac:(apply Rabs_le; lra)) as Ha.
  pose proof (round64_close 0.01 ltac:(apply Rabs_le; lra)) as Hb.
  fold a in Ha. fold b in Hb. apply Rabs_le_inv in Ha, Hb.
  destruct (uniform_range a b g) as (v & Hv & [Hlo Hhi] & _).
  - apply round64_le. lra.
  - apply Rabs_le. lra.
  - apply Rabs_le. lra.
  - apply round64_idem.
  - exists v. split; [done|].
    pose proof (round64_close (b + - a) ltac:(apply Rabs_le; lra)) as Hd.
    apply Rabs_le_inv in Hd.
    pose proof (round64_close (a + Py.round64 (b + - a))
                  ltac:(apply Rabs_le; lra)) as Hs.
    apply Rabs_le_inv in Hs. apply Rabs_le. lra.
Qed.

(** A coordinate literal plus a variation stays within 0.0100001 of the
    literal. *)
Lemma varied_coordinate (x v : R) :
  Rabs x <= 100 -> Rabs v <= 0.01 + 3 / 100000000 ->
  exists y,
    Py.fadd (Py.of_real x) (Py.Finite v) = Py.Finite y
    /\ Rabs (y - x) <= 0.0100001.
Proof.
  intros Hx Hv. apply Rabs_le_inv in Hx, Hv.
  rewrite of_real_finite by (apply Rabs_le; lra).
  pose proof (round64_close x ltac:(apply Rabs_le; lra)) as Hr.
  apply Rabs_le_inv in Hr. unfold Py.fadd.
  rewrite of_real_finite by (apply Rabs_le; lra).
  eexists. split; [reflexivity|].
  pose proof (round64_close (Py.round64 x + v) ltac:(apply Rabs_le; lra)) as Hs.
  apply Rabs_le_inv in Hs. apply Rabs_le. lra.
Qed.

(** One sample entry: its seven fields and the ranges of their values. *)
Lemma sample_entry_fields (lat long : R) (name : string) (g : rng) :
  Rabs lat <= 100 -> Rabs long <= 100 ->
  Wells.sample_of (lat, long, name)
    (fst (Wells.sample_entry rng random randbelow (lat, long, name) g)).
Proof.
  intros Hlat Hlong. unfold Wells.sample_entry, Wells.sample_of.
  destruct (uniform_variation g) as (v1 & Hv1 & Hb1).
  destruct (Wells.uniform rng random (Py.of_real (-0.01)) (Py.of_real 0.01) g)
    as [x1 g1]. cbn [fst] in Hv1. subst x1.
  destruct (uniform_variation g1) as (v2 & Hv2 & Hb2).
  destruct (Wells.uniform rng random (Py.of_real (-0.01)) (Py.of_real 0.01) g1)
    as [x2 g2]. cbn [fst] in Hv2. subst x2.
  destruct (uniform_integers 1 15 g2 ltac:(lia) ltac:(lia)) as (w & Hw & Hbw & Hdw).
  destruct (Wells.uniform rng random (Py.Finite 1) (Py.Finite 15) g2)
    as [x3 g3]. cbn [fst] in Hw. subst x3.
  pose proof (randint_range 50 200 g3 ltac:(lia)) as Hcnt.
  destruct (Wells.randint rng randbelow 50 200 g3) as [cnt g4]. cbn [fst] in Hcnt.
  destruct (uniform_integers 1 3 g4 ltac:(lia) ltac:(lia)) as (below & Hbl & Hbb & _).
  destruct (Wells.uniform rng random (Py.Finite 1) (Py.Finite 3) g4)
    as [x5 g5]. cbn [fst] in Hbl. subst x5.
  destruct (uniform_integers 1 3 g5 ltac:(lia) ltac:(lia)) as (above & Hab & Hba & _).
  destruct (Wells.uniform rng random (Py.Finite 1) (Py.Finite 3) g5)
    as [x6 g6]. cbn [fst] in Hab. subst x6.
  destruct (varied_coordinate lat v1 Hlat Hb1) as (la & Hla & Hbla).
  destruct (varied_coordinate long v2 Hlong Hb2) as (lo & Hlo & Hblo).
  cbn [fst]. rewrite Hla, Hlo.
  unfold Py.fsub, Py.fneg, Py.fadd.
  rewrite (of_real_finite (w + - below)) by (apply Rabs_le; lra).
  rewrite (of_real_finite (w + above)) by (apply Rabs_le; lra).
  eexists la, lo, w, cnt, _, _. split; [reflexivity|].
  cbn [fst snd]. do 4 (split; [done|]).
  split.
  - split.
    + change (-2) with (IZR (-2)). change 14 with (IZR 14).
      apply round64_between; [lia|lia|]. change (IZR (-2)) with (-2).
      change (IZR 14) with 14. lra.
    + rewrite <- Hdw at 2. apply round64_le. lra.
  - split.
    + change 2 with (IZR 2). change 18 with (IZR 18).
      apply round64_between; [lia|lia|]. change (IZR 2) with 2.
      change (IZR 18) with 18. lra.
    + rewrite <- Hdw at 1. apply round64_le. lra.
Qed.

Lemma sample_entries_spec (ls : list (R * R * string)) (g : rng) :
  Forall (fun location : R * R * string =>
            Rabs location.1.1 <= 100 /\ Rabs location.1.2 <= 100) ls ->
  Forall2 Wells.sample_of ls (fst (Wells.sample_entries rng random randbelow ls g)).
Proof.
  intros Hls. revert g.
  induction Hls as [|[[lat long] name] ls [Hlat Hlong] _ IH]; intros g; [constructor|].
  cbn [Wells.sample_entries].
  pose proof (sample_entry_fields lat long name g Hlat Hlong) as He.
  destruct (Wells.sample_entry rng random randbelow (lat, long, name) g) as [entry g1].
  specialize (IH g1).
  destruct (Wells.sample_entries rng random randbelow ls g1) as [entries g2].
  cbn [fst] in *. by constructor.
Qed.

(** X23.  For a generator whose [random()] lies in [0, 1) and whose
    [_randbelow(n)] lies in [0, n), the sample data holds exactly ten
    wells, one per listed city in the list's order.  Each has the seven
    fields, with finite floats: coordinates within 0.0100001 degree of
    the city's (0.01 and the rounding of binary64), a water level in
    [1, 15], a count in 50..200, the date "2024-01-01", a minimum in
    [-2, 14] that is at most the level and a maximum in [2, 18] that is
    at least the level.  The intervals are closed: [uniform(1, 3)] is
    exactly 3.0 when [random()] is the largest double below 1. *)
Theorem generate_sample_wells_data_spec (g : rng) :
  length (fst (Wells.generate_sample_wells_data rng random randbelow g)) = 10%nat
  /\ Forall2 Wells.sample_of Wells.locations
       (fst (Wells.generate_sample_wells_data rng random randbelow g))
  /\ fst (Wells.uniform unit Wells.almost_one_random (Py.Finite 1) (Py.Finite 3) tt)
     = Py.Finite 3.
Proof.
  unfold Wells.generate_sample_wells_data.
  assert (H : Forall2 Wells.sample_of Wells.locations
                (fst (Wells.sample_entries rng random randbelow Wells.locations g))).
  { apply sample_entries_spec. unfold Wells.locations.
    repeat (apply Forall_cons_2;
            [cbn [fst snd]; rewrite !Rabs_pos_eq by lra; lra|]).
    apply Forall_nil_2. }
  split; [by rewrite <- (Forall2_length _ _ _ H)|].
  split; [done|apply uniform_reaches_upper_bound].
Qed.

End SampleWells.

Lemma generate_sample_wells_data_spec_witness :
  length (fst (Wells.generate_sample_wells_data unit Wells.zero_random
                 Wells.zero_randbelow tt)) = 10%nat
  /\ Forall2 Wells.sample_of Wells.locations
       (fst (Wells.generate_sample_wells_data unit Wells.zero_random
               Wells.zero_randbelow tt))
  /\ fst (Wells.uniform unit Wells.almost_one_random (Py.Finite 1) (Py.Finite 3) tt)
     = Py.Finite 3.
Proof.
  apply (generate_sample_wells_data_spec Wells.zero_random Wells.zero_randbelow).
  - intros g. cbn. lra.
  - intros n g Hn. cbn. lia.
Defined.

Section GetWells.

Context {rng : Type} (random : rng -> R * rng) (randbelow : Z -> rng -> Z * rng).

Lemma sample_entries_length (ls : list (R * R * string)) (g : rng) :
  length (fst (Wells.sample_entries rng random randbelow ls g)) = length ls.
Proof.
  revert g. induction ls as [|location ls IH]; intros g; [done|].
  cbn [Wells.sample_entries].
  destruct (Wells.sample_entry rng random randbelow location g) as [entry g1].
  specialize (IH g1).
  destruct (Wells.sample_entries rng random randbelow ls g1) as [entries g2].
  cbn [fst length] in *. by rewrite IH.
Qed.

Lemma sample_response_spec (source : string) (g : rng) :
  Wells.wells_success (fst (Wells.sample_response rng random randbelow source g)) = true
  /\ Wells.wells_count (fst (Wells.sample_response rng random randbelow source g)) = 10%nat
  /\ length (Wells.wells_data (fst (Wells.sample_response rng random randbelow source g)))
     = 10%nat
  /\ Wells.wells_source (fst (Wells.sample_response rng random randbelow source g)) = source
  /\ Wells.wells_total_records (fst (Wells.sample_response rng random randbelow source g))
     = None.
Proof.
  unfold Wells.sample_response, Wells.generate_sample_wells_data.
  pose proof (sample_entries_length Wells.locations g) as H.
  destruct (Wells.sample_entries rng random randbelow Wells.locations g) as [data g'].
  cbn [fst Wells.wells_success Wells.wells_count Wells.wells_data
       Wells.wells_source Wells.wells_total_records] in *. by rewrite H.
Qed.

(** X24.  [get_wells] never raises and always answers [success: True]
    with [count] the length of [data].  The source is
    "mongodb_aggregated" exactly when the aggregation returned at least
    one location and the record count succeeded; with no connection or
    an empty aggregation it is "sample_data"; when either database call
    raised it is "sample_data_fallback" - the aggregated locations are
    dropped if only the count failed.  Both sample answers hold ten
    wells and no [total_records]. *)
Theorem get_wells_sources (wc : option Wells.Collection) (g : rng) :
  exists resp g',
    Wells.get_wells rng random randbelow wc g = Ok (resp, g')
    /\ Wells.wells_success resp = true
    /\ Wells.wells_count resp = length (Wells.wells_data resp)
    /\ ((Wells.wells_source resp = "mongodb_aggregated" /\ g' = g
         /\ exists c total,
              wc = Some c
              /\ Wells.aggregate c Wells.WellLocations = Ok (Wells.wells_data resp)
              /\ Wells.wells_data resp <> []
              /\ Wells.count_documents c = Ok total
              /\ Wells.wells_total_records resp = Some total)
        \/ (Wells.wells_source resp = "sample_data"
            /\ Wells.wells_count resp = 10%nat
            /\ Wells.wells_total_records resp = None
            /\ (wc = None
                \/ exists c, wc = Some c
                     /\ Wells.aggregate c Wells.WellLocations = Ok []))
        \/ (Wells.wells_source resp = "sample_data_fallback"
            /\ Wells.wells_count resp = 10%nat
            /\ Wells.wells_total_records resp = None
            /\ exists c e, wc = Some c
                 /\ (Wells.aggregate c Wells.WellLocations = Raise e
                     \/ exists data, Wells.aggregate c Wells.WellLocations = Ok data
                          /\ data <> [] /\ Wells.count_documents c = Raise e))).
Proof.
  unfold Wells.get_wells, Wells.aggregated_response.
  destruct wc as [c|].
  - destruct (Wells.aggregate c Wells.WellLocations) as [data|e] eqn:Ha;
      cbn [mbind exc_bind].
    + case_bool_decide as Hd.
      * subst data.
        destruct (sample_response_spec "sample_data" g) as (H1 & H2 & H3 & H4 & H5).
        eexists _, _. split; [by rewrite <- surjective_pairing|].
        split; [done|]. split; [by rewrite H2, H3|].
        right. left. eauto 10.
      * destruct (Wells.count_documents c) as [total|e] eqn:Hc; cbn [mbind exc_bind mret exc_ret].
        -- eexists _, _. split; [reflexivity|]. cbn. split; [done|]. split; [done|].
           left. split; [done|]. split; [done|]. exists c, total. done.
        -- destruct (sample_response_spec "sample_data_fallback" g)
             as (H1 & H2 & H3 & H4 & H5).
           eexists _, _. split; [by rewrite <- surjective_pairing|].
           split; [done|]. split; [by rewrite H2, H3|].
           right. right. do 3 (split; [done|]). exists c, e. split; [done|].
           right. by exists data.
    + destruct (sample_response_spec "sample_data_fallback" g)
        as (H1 & H2 & H3 & H4 & H5).
      eexists _, _. split; [by rewrite <- surjective_pairing|].
      split; [done|]. split; [by rewrite H2, H3|].
      right. right. do 3 (split; [done|]). exists c, e. split; [done|]. by left.
  - destruct (sample_response_spec "sample_data" g) as (H1 & H2 & H3 & H4 & H5).
    eexists _, _. split; [by rewrite <- surjective_pairing|].
    split; [done|]. split; [by rewrite H2, H3|].
    right. left. eauto 10.
Qed.

End GetWells.
